(** * oh-my-opencode-dashboard: ingestion and correlation engine

    A shallow embedding of the TypeScript sources of the dashboard's
    ingestion layer (token usage, background-task correlation, the
    time-series normaliser of the UI and the dashboard store), followed by
    the properties of these functions.

    Conventions of the embedding:
    - a JavaScript value read from JSON or passed as [unknown] is a [value];
    - finite JavaScript numbers are integers ([Z]): token counters, bucket
      counts and epoch-millisecond timestamps are integral, on integers below
      2^53 the arithmetic of doubles is exact, and [Math.floor] is the
      identity.  [NaN] and the infinities are kept as separate constructors
      of [num];
    - a JavaScript string is a [string]; [trim] strips the ASCII white space
      characters;
    - a [Map] is an association list in insertion order, a [Set] of strings is
      a list of its members;
    - [Array.prototype.sort] is the stable insertion sort [sortBy]: for a
      comparator that is a total preorder every stable sort returns the same
      array;
    - code that may throw returns [option], [None] standing for the
      exception;
    - functions the sources import from modules outside this development, and
      the host's [localeCompare] and [Number], are fields of the classes
      [Runtime] and [Ingest]. *)

From Stdlib Require Import ZArith List String Ascii Bool Lia Permutation.
From Stdlib Require Import DecimalString OrdersEx Sorting.Sorted RelationClasses.
Import ListNotations.

#[local] Set Warnings "-register-all".

Local Open Scope string_scope.
Local Open Scope Z_scope.
Local Open Scope list_scope.

(* ================================================================== *)
(** * Part I: definitions *)
(* ================================================================== *)

(** ** JavaScript values and the built-ins the sources use *)

Module Js.

Inductive num : Type :=
| NaN
| PosInf
| NegInf
| Fin (z : Z).

Inductive value : Type :=
| VUndefined
| VNull
| VBool (b : bool)
| VNum (n : num)
| VStr (s : string)
| VArr (items : list value)
| VObj (props : list (string * value)).

(** Own-property lookup in the property list of an object. *)
Fixpoint assoc {A : Type} (k : string) (l : list (string * A)) : option A :=
  match l with
  | [] => None
  | (k', v) :: r => if String.eqb k k' then Some v else assoc k r
  end.

(** [v.k] for the property names the sources read (none of them is an
    array index or [length]): a missing property, and any property of a
    primitive or of an array, is [undefined].  The sources guard every such
    access against [null] and [undefined]. *)
Definition get (k : string) (v : value) : value :=
  match v with
  | VObj props => match assoc k props with Some x => x | None => VUndefined end
  | _ => VUndefined
  end.

(** [o?.k] where [o] is a record or [null]. *)
Definition getOpt (k : string) (o : option value) : value :=
  match o with
  | Some v => get k v
  | None => VUndefined
  end.

(** [typeof v === "object" && v !== null]. *)
Definition isObjectNotNull (v : value) : bool :=
  match v with
  | VArr _ | VObj _ => true
  | _ => false
  end.

(** JavaScript truthiness. *)
Definition truthy (v : value) : bool :=
  match v with
  | VUndefined | VNull => false
  | VBool b => b
  | VNum NaN => false
  | VNum (Fin z) => negb (z =? 0)
  | VNum _ => true
  | VStr s => negb (String.eqb s "")
  | VArr _ | VObj _ => true
  end.

Definition isWhiteSpace (c : ascii) : bool :=
  let n := nat_of_ascii c in
  ((9 <=? n) && (n <=? 13))%nat || (n =? 32)%nat.

Fixpoint trimStart (s : string) : string :=
  match s with
  | EmptyString => EmptyString
  | String c r => if isWhiteSpace c then trimStart r else s
  end.

Fixpoint trimEnd (s : string) : string :=
  match s with
  | EmptyString => EmptyString
  | String c r =>
      let r' := trimEnd r in
      if isWhiteSpace c && String.eqb r' "" then EmptyString else String c r'
  end.

(** [String.prototype.trim]. *)
Definition trim (s : string) : string := trimEnd (trimStart s).

(** [s.endsWith(suffix)]. *)
Definition endsWith (s suffix : string) : bool :=
  let n := String.length s in
  let m := String.length suffix in
  (m <=? n)%nat && String.eqb (substring (n - m) m s) suffix.

(** [s.slice(0, n)]. *)
Definition sliceTo (n : nat) (s : string) : string := substring 0 n s.

(** Insertion of [x] in front of the first element it does not follow. *)
Fixpoint insertBy {A : Type} (cmp : A -> A -> Z) (x : A) (l : list A) : list A :=
  match l with
  | [] => [x]
  | y :: r => if cmp x y <=? 0 then x :: l else y :: insertBy cmp x r
  end.

(** [array.sort(cmp)]: a negative [cmp a b] puts [a] first, elements that
    compare equal keep their order. *)
Definition sortBy {A : Type} (cmp : A -> A -> Z) (l : list A) : list A :=
  fold_right (insertBy cmp) [] l.

(** [a] may stand before [b] in an array sorted with [cmp]. *)
Definition before {A : Type} (cmp : A -> A -> Z) (a b : A) : Prop := cmp a b <= 0.

(** The comparison of strings by code units ([<] on strings, and the
    default order of [sort()]), as a comparator. *)
Definition codeUnitCompare (a b : string) : Z :=
  match String_as_OT.compare a b with
  | Lt => -1
  | Eq => 0
  | Gt => 1
  end.

(** [Map.prototype.set]: an existing key keeps its place, a new key goes
    last. *)
Fixpoint mapSet {A : Type} (k : string) (v : A) (m : list (string * A)) : list (string * A) :=
  match m with
  | [] => [(k, v)]
  | (k', v') :: r => if String.eqb k k' then (k, v) :: r else (k', v') :: mapSet k v r
  end.

(** [Set.prototype.has] on a set of strings. *)
Definition setHas (k : string) (s : list string) : bool :=
  existsb (String.eqb k) s.

(** The host: [String.prototype.localeCompare] (only its sign is used) and
    the [Number(v)] conversion. *)
Class Runtime : Type := {
  localeCompare : string -> string -> Z;
  ToNumber : value -> num
}.

(** [localeCompare] is a collation: a total preorder on strings. *)
Definition collates (rt : Runtime) : Prop :=
  (forall a b, localeCompare a b <= 0 \/ localeCompare b a <= 0)
  /\ (forall a b c, localeCompare a b <= 0 -> localeCompare b c <= 0 -> localeCompare a c <= 0).

(** What the sources import from [./model] and [./session]. *)
Class Ingest : Type := {
  extractModelString : value -> option string;
  pickLatestModelString : list value -> option string;
  getMessageDir : string -> string -> string
}.

(** *** A concrete host for the examples *)

(** Modelled from the spec: [extractModelString] of [./model], which
    [token-usage-core.ts] imports and which is not among the sources here:
    the message's [providerID] and [modelID] as "provider/model", nothing
    when one of them is absent. *)
Definition providerSlashModel (m : value) : option string :=
  match get "providerID" m, get "modelID" m with
  | VStr p, VStr mo => Some (p ++ "/" ++ mo)%string
  | _, _ => None
  end.

(** A host whose [localeCompare] orders strings by code units (on strings
    of lower-case letters, digits after a common prefix, this is the order
    of every collation) and whose [Number] is given on the primitives. *)
Definition exampleRuntime : Runtime :=
  {| localeCompare := codeUnitCompare;
     ToNumber := fun v =>
       match v with
       | VNum n => n
       | VNull => Fin 0
       | VBool b => Fin (if b then 1 else 0)
       | VStr EmptyString => Fin 0
       | _ => NaN
       end |}.

Definition exampleIngest : Ingest :=
  {| extractModelString := providerSlashModel;
     pickLatestModelString := fun metas =>
       match filter (fun o => match o with Some _ => true | None => false end)
               (map providerSlashModel metas) with
       | Some s :: _ => Some s
       | _ => None
       end;
     getMessageDir := fun root sessionId => (root ++ "/" ++ sessionId)%string |}.

End Js.

(* ------------------------------------------------------------------ *)
(** ** src/ingest/token-usage-core.ts *)

Module TokenUsage.
Import Js.

(** The six numeric columns, shared by [TokenUsageTotals] and by the rows. *)
Record TokenUsageTotals : Type := {
  input : Z;
  output : Z;
  reasoning : Z;
  cacheRead : Z;
  cacheWrite : Z;
  total : Z
}.

(** A [TokenUsageRow]: the model name and the row's six columns. *)
Record TokenUsageRow : Type := {
  model : string;
  counters : TokenUsageTotals
}.

Record TokenUsagePayload : Type := {
  rows : list TokenUsageRow;
  totals : TokenUsageTotals
}.

Definition EMPTY_TOTALS : TokenUsageTotals :=
  {| input := 0; output := 0; reasoning := 0; cacheRead := 0; cacheWrite := 0; total := 0 |}.

Definition clampToken (v : value) : Z :=
  match v with
  | VNum (Fin z) => if 0 <=? z then z else 0
  | _ => 0
  end.

Definition isRecord (v : value) : bool := isObjectNotNull v.

Definition readString (v : value) : option string :=
  match v with
  | VStr s =>
      let trimmed := trim s in
      if (0 <? String.length trimmed)%nat then Some trimmed else None
  | _ => None
  end.

Definition blankRow (m : string) : TokenUsageRow :=
  {| model := m; counters := EMPTY_TOTALS |}.

(** Column-wise addition: the six [+=] of the loop body and the callback of
    [reduce].  The additions are those of integers: they are the additions
    of the code as long as the sums stay safe integers (at most 2^53 - 1),
    which the statements on sums assume. *)
Definition addTotals (a b : TokenUsageTotals) : TokenUsageTotals :=
  {| input := input a + input b;
     output := output a + output b;
     reasoning := reasoning a + reasoning b;
     cacheRead := cacheRead a + cacheRead b;
     cacheWrite := cacheWrite a + cacheWrite b;
     total := total a + total b |}.

(** Lines 70-77 of the loop body: what one message adds to its row. *)
Definition contribution (metaUnknown : value) : TokenUsageTotals :=
  let tokens :=
    if isRecord (get "tokens" metaUnknown) then Some (get "tokens" metaUnknown) else None in
  let cache :=
    match tokens with
    | Some t => if isRecord (get "cache" t) then Some (get "cache" t) else None
    | None => None
    end in
  let input := clampToken (getOpt "input" tokens) in
  let output := clampToken (getOpt "output" tokens) in
  let reasoning := clampToken (getOpt "reasoning" tokens) in
  let cacheRead := clampToken (getOpt "read" cache) in
  let cacheWrite := clampToken (getOpt "write" cache) in
  let total := input + output + reasoning + cacheRead + cacheWrite in
  {| input := input; output := output; reasoning := reasoning;
     cacheRead := cacheRead; cacheWrite := cacheWrite; total := total |}.

(** The two collections the loop updates. *)
Record LoopState : Type := {
  rowsByModel : list (string * TokenUsageRow);
  seenMessageIds : list string
}.

Definition initialState : LoopState :=
  {| rowsByModel := []; seenMessageIds := [] |}.

Section Aggregate.
Context {rt : Runtime} {ing : Ingest}.

(** Lines 69-86: the row of the message's model is fetched or created,
    increased and stored back. *)
Definition modelKey (metaUnknown : value) : string :=
  match extractModelString metaUnknown with
  | Some s => s
  | None => "unknown/unknown"
  end.

Definition accumulate (metaUnknown : value) (byModel : list (string * TokenUsageRow))
  : list (string * TokenUsageRow) :=
  let m := modelKey metaUnknown in
  let row := match assoc m byModel with Some r => r | None => blankRow m end in
  mapSet m {| model := model row; counters := addTotals (counters row) (contribution metaUnknown) |}
    byModel.

(** One iteration of [for (const metaUnknown of metas)]. *)
Definition loopBody (st : LoopState) (metaUnknown : value) : LoopState :=
  if negb (isRecord metaUnknown) then st
  else
    match readString (get "role" metaUnknown) with
    | None => st
    | Some role =>
        if negb (String.eqb role "assistant") then st
        else
          match readString (get "id" metaUnknown) with
          | Some id =>
              if setHas id (seenMessageIds st) then st
              else
                {| rowsByModel := accumulate metaUnknown (rowsByModel st);
                   seenMessageIds := id :: seenMessageIds st |}
          | None =>
              {| rowsByModel := accumulate metaUnknown (rowsByModel st);
                 seenMessageIds := seenMessageIds st |}
          end
    end.

Definition compareRows (a b : TokenUsageRow) : Z :=
  if negb (total (counters b) =? total (counters a))
  then total (counters b) - total (counters a)
  else localeCompare (model a) (model b).

Definition aggregateTokenUsage (metas : list value) : TokenUsagePayload :=
  let st := fold_left loopBody metas initialState in
  let rows := sortBy compareRows (map snd (rowsByModel st)) in
  let totals := fold_left (fun acc row => addTotals acc (counters row)) rows EMPTY_TOTALS in
  {| rows := rows; totals := totals |}.

End Aggregate.

(** *** Reference definitions, written from the specification *)

(** The column-wise sum of a list of six-column records. *)
Definition columnSum (l : list TokenUsageTotals) : TokenUsageTotals :=
  {| input := fold_right Z.add 0 (map input l);
     output := fold_right Z.add 0 (map output l);
     reasoning := fold_right Z.add 0 (map reasoning l);
     cacheRead := fold_right Z.add 0 (map cacheRead l);
     cacheWrite := fold_right Z.add 0 (map cacheWrite l);
     total := fold_right Z.add 0 (map total l) |}.

(** A message takes part in the aggregation when it is a record whose role
    reads "assistant". *)
Definition isAssistant (m : value) : bool :=
  isRecord m &&
  match readString (get "role" m) with
  | Some role => String.eqb role "assistant"
  | None => false
  end.

(** The columns stored in the map of rows. *)
Definition stored (byModel : list (string * TokenUsageRow)) : list TokenUsageTotals :=
  map counters (map snd byModel).

(** The map of rows is keyed by the model names of its rows, each once. *)
Definition wellKeyed (byModel : list (string * TokenUsageRow)) : Prop :=
  NoDup (map fst byModel) /\ Forall (fun kv => model (snd kv) = fst kv) byModel.

(** The message carries the message id [i]. *)
Definition hasMessageId (i : string) (m : value) : bool :=
  match readString (get "id" m) with
  | Some j => String.eqb i j
  | None => false
  end.


(** The six columns of the row of model [k], zeros when there is no such
    row. *)
Definition rowCounters (k : string) (l : list TokenUsageRow) : TokenUsageTotals :=
  match find (fun r => String.eqb (model r) k) l with
  | Some r => counters r
  | None => EMPTY_TOTALS
  end.

(** Two messages are duplicates of each other when both carry a message id
    and the ids are the same. *)
Definition sameMessageId (a b : value) : bool :=
  match readString (get "id" a) with
  | Some x => hasMessageId x b
  | None => false
  end.




(** The per-message total as the specification words it: a well-formed
    embedded total (a finite, non-negative number under [tokens.total]) wins
    over the sum of the five counters. *)
Definition embeddedTotal (m : value) : option Z :=
  if isRecord (get "tokens" m)
  then
    match get "total" (get "tokens" m) with
    | VNum (Fin z) => if 0 <=? z then Some z else None
    | _ => None
    end
  else None.

Definition sumOfFive (c : TokenUsageTotals) : Z :=
  input c + output c + reasoning c + cacheRead c + cacheWrite c.

Definition specifiedTotal (m : value) : Z :=
  match embeddedTotal m with
  | Some t => t
  | None => sumOfFive (contribution m)
  end.

(** *** Concrete hosts and inputs for the examples *)

Definition assistantMeta (id : value) (tokens : value) : value :=
  VObj [("id", id); ("role", VStr "assistant");
        ("providerID", VStr "openai"); ("modelID", VStr "gpt-5.2");
        ("tokens", tokens)].

Definition tokensOf (i o r cr cw : value) : value :=
  VObj [("input", i); ("output", o); ("reasoning", r);
        ("cache", VObj [("read", cr); ("write", cw)])].

(** A producer that embeds a total of 100 next to an input of 1. *)
Definition metaWithEmbeddedTotal : value :=
  assistantMeta (VStr "msg_1")
    (VObj [("input", VNum (Fin 1)); ("output", VNum (Fin 0)); ("reasoning", VNum (Fin 0));
           ("cache", VObj [("read", VNum (Fin 0)); ("write", VNum (Fin 0))]);
           ("total", VNum (Fin 100))]).

(** A message whose id is blank. *)
Definition metaWithBlankId : value :=
  assistantMeta (VStr "   ")
    (tokensOf (VNum (Fin 4)) (VNum (Fin 2)) (VNum (Fin 0)) (VNum (Fin 1)) (VNum (Fin 0))).

End TokenUsage.

(* ------------------------------------------------------------------ *)
(** ** Token usage as the specification words it *)

(** Section 4.5 of the specification: every message with role
    "assistant", deduplicated by message id (first occurrence wins); the
    five token counters, a value that is not a number, is negative or is
    not finite counting as zero; rows per model; totals column by column.
    These definitions are written from those words on the documents
    themselves: none of them calls a function of the embedding of
    [aggregateTokenUsage], so that a statement made with them is a statement
    about what the code computes. *)
Module TokenUsageRef.
Import Js TokenUsage.

(** The text a field holds: a string, trimmed, that is not empty. *)
Definition textOf (v : value) : option string :=
  match v with
  | VStr s => if String.eqb (trim s) "" then None else Some (trim s)
  | _ => None
  end.

(** The message has role "assistant". *)
Definition isAssistantMessage (m : value) : bool :=
  match m with
  | VObj _ =>
      match textOf (get "role" m) with
      | Some role => String.eqb role "assistant"
      | None => false
      end
  | _ => false
  end.

Definition messageId (m : value) : option string := textOf (get "id" m).

(** What a token field counts: the number itself when it is finite and
    not negative, else zero. *)
Definition count (v : value) : Z :=
  match v with
  | VNum (Fin z) => Z.max 0 z
  | _ => 0
  end.

Definition inputOf (m : value) : Z := count (get "input" (get "tokens" m)).


(** Deduplication by message id, first occurrence wins; a message without
    an id duplicates nothing. *)
Fixpoint firstOccurrences (seen : list string) (l : list value) : list value :=
  match l with
  | [] => []
  | m :: rest =>
      match messageId m with
      | Some i =>
          if in_dec string_dec i seen then firstOccurrences seen rest
          else m :: firstOccurrences (i :: seen) rest
      | None => m :: firstOccurrences seen rest
      end
  end.

(** The messages that count. *)
Definition counted (metas : list value) : list value :=
  firstOccurrences [] (filter isAssistantMessage metas).

Definition sumZ (l : list Z) : Z := fold_right Z.add 0 l.

(** The sum of what the messages count in one column. *)
Definition messageSum (f : value -> Z) (l : list value) : Z := sumZ (map f l).










End TokenUsageRef.

(* ------------------------------------------------------------------ *)
(** ** src/ingest/background-tasks.ts *)

Module BackgroundTasks.
Import Js.

(** The text of a file, seen through [JSON.parse]: text that the parser
    rejects, or the document it returns. *)
Inductive content : Type :=
| Garbage
| Doc (v : value).

(** The four functions of [node:fs] the module uses.  [None] is a thrown
    error; [statSync] gives [mtimeMs]; [readdirTyped] is [readdirSync] with
    [withFileTypes], each entry with its [isDirectory()]. *)
Record FsLike : Type := {
  readFileSync : string -> option content;
  readdirSync : string -> option (list string);
  readdirTyped : string -> option (list (string * bool));
  existsSync : string -> bool;
  statSync : string -> option Z
}.

Record OpenCodeStorageRoots : Type := {
  session : string;
  message : string;
  part : string
}.

Inductive Status : Type :=
| queued
| running
| completed
| error
| unknown.

Record BackgroundTaskRow : Type := {
  id : value;
  description : string;
  agent : string;
  status : Status;
  toolCalls : option Z;
  lastTool : option string;
  lastModel : option string;
  timeline : string;
  sessionId : option string
}.

Record SessionStats : Type := {
  statsToolCalls : Z;
  statsLastTool : option string;
  lastUpdateAt : option Z
}.

Definition DESCRIPTION_MAX : nat := 120.
Definition AGENT_MAX : nat := 30.

(** [path.join(a, b)] on a directory and a file name. *)
Definition pathJoin (a b : string) : string := (a ++ "/" ++ b)%string.

Definition clampString (v : value) (maxLen : nat) : option string :=
  match v with
  | VStr s0 =>
      let s := trim s0 in
      if String.eqb s "" then None
      else if (String.length s <=? maxLen)%nat then Some s else Some (sliceTo maxLen s)
  | _ => None
  end.

(** The parsed document, or [null] when reading or parsing throws. *)
Definition readJsonFile (filePath : string) (fsLike : FsLike) : value :=
  match readFileSync fsLike filePath with
  | Some (Doc v) => v
  | _ => VNull
  end.

Definition listJsonFiles (dir : string) (fsLike : FsLike) : list string :=
  match readdirSync fsLike dir with
  | Some names => filter (fun f => endsWith f ".json") names
  | None => []
  end.

(** [typeof v === "string"]. *)
Definition isString (v : value) : bool :=
  match v with
  | VStr _ => true
  | _ => false
  end.

(** [m.id] of a meta whose id is a string, as the readers guarantee. *)
Definition idOf (m : value) : string :=
  match get "id" m with
  | VStr s => s
  | _ => ""
  end.

(** [m.time?.created] when it is a number; the time stamps of the
    artifacts are finite. *)
Definition createdOf (m : value) : option Z :=
  match get "created" (get "time" m) with
  | VNum (Fin z) => Some z
  | _ => None
  end.

(** [m.time?.created ?? 0]. *)
Definition createdOrZero (m : value) : Z :=
  match createdOf m with
  | Some z => z
  | None => 0
  end.

Definition isToolPart (p : value) : bool :=
  truthy p
  && match get "type" p with VStr t => String.eqb t "tool" | _ => false end
  && isString (get "tool" p)
  && truthy (get "state" p)
  && isObjectNotNull (get "state" p).

Definition readToolPartsForMessage (storage : OpenCodeStorageRoots) (messageID : string)
    (fsLike : FsLike) : list value :=
  let partDir := pathJoin (part storage) messageID in
  if negb (existsSync fsLike partDir) then []
  else
    let files := sortBy codeUnitCompare (listJsonFiles partDir fsLike) in
    filter isToolPart (map (fun f => readJsonFile (pathJoin partDir f) fsLike) files).

(** The constant [files] of [readRecentMessageMetas]: the JSON files of
    the directory with their modification times (0 when [statSync] throws),
    newest first, cut to [maxMessages]. *)
Definition recentMessageFiles (messageDir : string) (maxMessages : nat) (fsLike : FsLike)
  : list (string * Z) :=
  firstn maxMessages
    (sortBy (fun a b => snd b - snd a)
       (map (fun f =>
               (f, match statSync fsLike (pathJoin messageDir f) with
                   | Some mtimeMs => mtimeMs
                   | None => 0
                   end))
            (listJsonFiles messageDir fsLike))).

(** [meta && typeof meta.id === "string"]. *)
Definition hasStringId (meta : value) : bool :=
  truthy meta && isString (get "id" meta).

Definition readRecentMessageMetas (messageDir : string) (maxMessages : nat) (fsLike : FsLike)
  : list value :=
  if String.eqb messageDir "" || negb (existsSync fsLike messageDir) then []
  else
    filter hasStringId
      (map (fun item => readJsonFile (pathJoin messageDir (fst item)) fsLike)
         (recentMessageFiles messageDir maxMessages fsLike)).

Definition readAllSessionMetas (sessionStorage : string) (fsLike : FsLike) : list value :=
  if negb (existsSync fsLike sessionStorage) then []
  else
    match readdirTyped fsLike sessionStorage with
    | None => []
    | Some projectDirs =>
        flat_map
          (fun d =>
             if negb (snd d) then []
             else
               let projectPath := pathJoin sessionStorage (fst d) in
               filter hasStringId
                 (map (fun file => readJsonFile (pathJoin projectPath file) fsLike)
                    (listJsonFiles projectPath fsLike)))
          projectDirs
    end.

(** [m.time?.created >= windowStart && m.time?.created <= windowEnd] *)
Definition inWindow (m : value) (windowStart windowEnd : Z) : bool :=
  match createdOf m with
  | Some c => (windowStart <=? c) && (c <=? windowEnd)
  | None => false
  end.

Definition stringField (k : string) (m : value) (expected : string) : bool :=
  match get k m with
  | VStr s => String.eqb s expected
  | _ => false
  end.

Section Correlate.
Context {rt : Runtime} {ing : Ingest}.

(** The comparator of the candidates: newest first, then by id. *)
Definition compareCandidates (a b : value) : Z :=
  let at_ := createdOrZero a in
  let bt := createdOrZero b in
  if negb (at_ =? bt) then bt - at_ else localeCompare (idOf a) (idOf b).

(** The filter of [findBackgroundSessionId] and [findTaskSessionId]. *)
Definition candidatesFor (title : string) (allSessionMetas : list value)
    (parentSessionId : string) (startedAt : Z) : list value :=
  let windowStart := startedAt in
  let windowEnd := startedAt + 60000 in
  filter
    (fun m =>
       stringField "parentID" m parentSessionId
       && stringField "title" m title
       && inWindow m windowStart windowEnd)
    allSessionMetas.

(** [candidates[0]?.id ?? null] *)
Definition firstId (candidates : list value) : option string :=
  match candidates with
  | c :: _ => match get "id" c with VStr s => Some s | _ => None end
  | [] => None
  end.

Definition findBackgroundSessionId (allSessionMetas : list value) (parentSessionId : string)
    (description : string) (startedAt : Z) : option string :=
  let title := ("Background: " ++ description)%string in
  firstId (sortBy compareCandidates
             (candidatesFor title allSessionMetas parentSessionId startedAt)).

Definition findTaskSessionId (allSessionMetas : list value) (parentSessionId : string)
    (description : string) (startedAt : Z) : option string :=
  let title := ("Task: " ++ description)%string in
  firstId (sortBy compareCandidates
             (candidatesFor title allSessionMetas parentSessionId startedAt)).

(** The comparator of [deriveBackgroundSessionStats]: oldest first, then
    by id. *)
Definition compareReplay (a b : value) : Z :=
  let at_ := createdOrZero a in
  let bt := createdOrZero b in
  if negb (at_ =? bt) then at_ - bt else localeCompare (idOf a) (idOf b).

Definition toolOf (p : value) : option string :=
  match get "tool" p with
  | VStr s => Some s
  | _ => None
  end.

Definition replayMessage (storage : OpenCodeStorageRoots) (fsLike : FsLike)
    (st : SessionStats) (meta : value) : SessionStats :=
  let st1 :=
    match createdOf meta with
    | Some created =>
        {| statsToolCalls := statsToolCalls st; statsLastTool := statsLastTool st;
           lastUpdateAt := Some created |}
    | None => st
    end in
  fold_left
    (fun s p =>
       {| statsToolCalls := statsToolCalls s + 1; statsLastTool := toolOf p;
          lastUpdateAt := lastUpdateAt s |})
    (readToolPartsForMessage storage (idOf meta) fsLike) st1.

Definition deriveBackgroundSessionStats (storage : OpenCodeStorageRoots) (metas : list value)
    (fsLike : FsLike) : SessionStats :=
  fold_left (replayMessage storage fsLike) (sortBy compareReplay metas)
    {| statsToolCalls := 0; statsLastTool := None; lastUpdateAt := None |}.

End Correlate.

(** *** Formatting *)

Definition decimal (z : Z) : string :=
  NilZero.string_of_uint (N.to_uint (Z.to_N z)).

(** [s.padStart(width, "0")]: at most [fuel] zeros are needed. *)
Fixpoint padStart (fuel width : nat) (s : string) : string :=
  match fuel with
  | O => s
  | S f => if (String.length s <? width)%nat then padStart f width (String "0" s) else s
  end.

Definition padded (width : nat) (z : Z) : string := padStart width width (decimal z).

(** The proleptic Gregorian date of a day number counted from 1970-01-01. *)
Definition civilFromDays (days : Z) : Z * Z * Z :=
  let z := days + 719468 in
  let era := z / 146097 in
  let doe := z - era * 146097 in
  let yoe := (doe - doe / 1460 + doe / 36524 - doe / 146096) / 365 in
  let y := yoe + era * 400 in
  let doy := doe - (365 * yoe + yoe / 4 - yoe / 100) in
  let mp := (5 * doy + 2) / 153 in
  let d := doy - (153 * mp + 2) / 5 + 1 in
  let m := if mp <? 10 then mp + 3 else mp - 9 in
  (if m <=? 2 then y + 1 else y, m, d).

Definition isoYear (y : Z) : string :=
  if (0 <=? y) && (y <=? 9999) then padded 4 y
  else if y <? 0 then ("-" ++ padded 6 (- y))%string
  else ("+" ++ padded 6 y)%string.

(** [new Date(ts).toISOString()]: a [RangeError] outside the range of time
    values. *)
Definition toISOString (ts : Z) : option string :=
  if (Z.abs ts <=? 8640000000000000) then
    let days := ts / 86400000 in
    let ms := ts mod 86400000 in
    let '(y, m, d) := civilFromDays days in
    Some (isoYear y ++ "-" ++ padded 2 m ++ "-" ++ padded 2 d ++ "T"
          ++ padded 2 (ms / 3600000) ++ ":" ++ padded 2 ((ms / 60000) mod 60) ++ ":"
          ++ padded 2 ((ms / 1000) mod 60) ++ "." ++ padded 3 (ms mod 1000) ++ "Z")%string
  else None.

(** [iso.replace(/\.\d{3}Z$/, "Z")] on the output of [toISOString], which
    always ends in a dot, three digits and Z. *)
Definition formatIsoNoMs (ts : Z) : option string :=
  match toISOString ts with
  | Some iso => Some (substring 0 (String.length iso - 5) iso ++ "Z")%string
  | None => None
  end.

Definition formatElapsed (ms : Z) : string :=
  let totalSeconds := Z.max 0 (ms / 1000) in
  let seconds := totalSeconds mod 60 in
  let totalMinutes := totalSeconds / 60 in
  let minutes := totalMinutes mod 60 in
  let totalHours := totalMinutes / 60 in
  let hours := totalHours mod 24 in
  let days := totalHours / 24 in
  if 0 <? days then
    if 0 <? hours then (decimal days ++ "d" ++ decimal hours ++ "h")%string
    else (decimal days ++ "d")%string
  else if 0 <? totalHours then
    if 0 <? minutes then (decimal totalHours ++ "h" ++ decimal minutes ++ "m")%string
    else (decimal totalHours ++ "h")%string
  else if 0 <? totalMinutes then
    if 0 <? seconds then (decimal totalMinutes ++ "m" ++ decimal seconds ++ "s")%string
    else (decimal totalMinutes ++ "m")%string
  else (decimal seconds ++ "s")%string.

Definition formatTimeline (startAt : option Z) (endAtMs : Z) : option string :=
  match startAt with
  | None => Some ""
  | Some s =>
      match formatIsoNoMs s with
      | Some start => Some (start ++ ": " ++ formatElapsed (endAtMs - s))%string
      | None => None
      end
  end.

(** *** The rows *)

(** Truthiness of a [string | null]. *)
Definition linked (backgroundSessionId : option string) : bool :=
  match backgroundSessionId with
  | Some s => negb (String.eqb s "")
  | None => false
  end.

(** [stats.lastUpdateAt && nowMs - stats.lastUpdateAt <= 15_000] *)
Definition recentlyActive (stats : SessionStats) (nowMs : Z) : bool :=
  match lastUpdateAt stats with
  | Some t => negb (t =? 0) && (nowMs - t <=? 15000)
  | None => false
  end.

Definition statusOf (backgroundSessionId : option string) (stats : SessionStats) (nowMs : Z)
  : Status :=
  if negb (linked backgroundSessionId) then queued
  else if recentlyActive stats nowMs then running
  else if 0 <? statsToolCalls stats then completed
  else unknown.

Definition isUnknown (s : Status) : bool :=
  match s with
  | unknown => true
  | _ => false
  end.

Definition isCompleted (s : Status) : bool :=
  match s with
  | completed => true
  | _ => false
  end.

Section Derive.
Context {rt : Runtime} {ing : Ingest}.

Variable storage : OpenCodeStorageRoots.
Variable mainSessionId : string.
Variable nowMs : Z.
Variable fsLike : FsLike.

(** [readBackgroundMetas], [readBackgroundStats] and [readBackgroundModel]:
    the three memo tables only save reads, and a read gives the same result
    each time within one pass. *)
Definition readBackgroundMetas (sid : string) : list value :=
  readRecentMessageMetas (getMessageDir (message storage) sid) 200 fsLike.

Definition readBackgroundStats (sid : string) : SessionStats :=
  deriveBackgroundSessionStats storage (readBackgroundMetas sid) fsLike.

Definition readBackgroundModel (sid : string) : option string :=
  pickLatestModelString (readBackgroundMetas sid).

(** The [resume] branch of a synchronous task: the trimmed id when the
    session's message directory exists and is not empty.  The outer [None]
    is the error of the unguarded [readdirSync]. *)
Definition resumedSession (input : value) : option (option string) :=
  match get "resume" input with
  | VStr resume =>
      if negb (String.eqb (trim resume) "") then
        let resumeMessageDir := getMessageDir (message storage) (trim resume) in
        if existsSync fsLike resumeMessageDir then
          match readdirSync fsLike resumeMessageDir with
          | None => None
          | Some entries =>
              if (0 <? List.length entries)%nat then Some (Some (trim resume)) else Some None
          end
        else Some None
      else Some None
  | _ => Some None
  end.

Definition correlate (allSessionMetas : list value) (runInBackground : bool) (input : value)
    (description : string) (startedAt : Z) : option (option string) :=
  if runInBackground then
    Some (findBackgroundSessionId allSessionMetas mainSessionId description startedAt)
  else
    match resumedSession input with
    | None => None
    | Some resumed =>
        if linked resumed then Some resumed
        else
          let bg := findBackgroundSessionId allSessionMetas mainSessionId description startedAt in
          if linked bg then Some bg
          else Some (findTaskSessionId allSessionMetas mainSessionId description startedAt)
    end.

(** The row of one delegation, from line 322 on. *)
Definition makeRow (part : value) (description agent : string) (startedAt : Z)
    (backgroundSessionId : option string) : option BackgroundTaskRow :=
  let sid := match backgroundSessionId with Some s => s | None => "" end in
  let stats :=
    if linked backgroundSessionId then readBackgroundStats sid
    else {| statsToolCalls := 0; statsLastTool := None; lastUpdateAt := Some startedAt |} in
  let lastModel := if linked backgroundSessionId then readBackgroundModel sid else None in
  let status := statusOf backgroundSessionId stats nowMs in
  let timelineEndMs :=
    if isCompleted status
    then match lastUpdateAt stats with Some t => t | None => nowMs end
    else nowMs in
  match (if isUnknown status then Some "" else formatTimeline (Some startedAt) timelineEndMs) with
  | None => None
  | Some timeline =>
      Some {| id := get "callID" part;
              description := description;
              agent := agent;
              status := status;
              toolCalls :=
                if linked backgroundSessionId then Some (statsToolCalls stats) else None;
              lastTool := statsLastTool stats;
              lastModel := lastModel;
              timeline := timeline;
              sessionId := backgroundSessionId |}
  end.

(** The body of [for (const part of parts)]: the rows after this part,
    [None] when an error is thrown. *)
Definition partBody (allSessionMetas : list value) (startedAt : Z)
    (rows : list BackgroundTaskRow) (part : value) : option (list BackgroundTaskRow) :=
  if negb (stringField "tool" part "delegate_task") then Some rows
  else if negb (truthy (get "state" part) && isObjectNotNull (get "state" part)) then Some rows
  else
    let input :=
      match get "input" (get "state" part) with
      | VUndefined | VNull => VObj []
      | v => v
      end in
    if negb (isObjectNotNull input) then Some rows
    else
      match get "run_in_background" input with
      | VBool runInBackground =>
          match clampString (get "description" input) DESCRIPTION_MAX with
          | None => Some rows
          | Some description =>
              let subagentType := clampString (get "subagent_type" input) AGENT_MAX in
              let category := clampString (get "category" input) AGENT_MAX in
              let agent :=
                match subagentType with
                | Some a => a
                | None =>
                    match category with
                    | Some c => ("sisyphus-junior (" ++ c ++ ")")%string
                    | None => "unknown"
                    end
                end in
              match correlate allSessionMetas runInBackground input description startedAt with
              | None => None
              | Some backgroundSessionId =>
                  match makeRow part description agent startedAt backgroundSessionId with
                  | None => None
                  | Some row => Some (rows ++ [row])
                  end
              end
          end
      | _ => Some rows
      end.

Fixpoint scanParts (allSessionMetas : list value) (startedAt : Z) (parts : list value)
    (rows : list BackgroundTaskRow) : option (list BackgroundTaskRow) :=
  match parts with
  | [] => Some rows
  | p :: rest =>
      match partBody allSessionMetas startedAt rows p with
      | None => None
      | Some rows' => scanParts allSessionMetas startedAt rest rows'
      end
  end.

(** [for (const meta of ordered)], with its [continue] and its [break]. *)
Fixpoint scanMessages (allSessionMetas : list value) (ordered : list value)
    (rows : list BackgroundTaskRow) : option (list BackgroundTaskRow) :=
  match ordered with
  | [] => Some rows
  | meta :: rest =>
      match createdOf meta with
      | None => scanMessages allSessionMetas rest rows
      | Some startedAt =>
          let parts := readToolPartsForMessage storage (idOf meta) fsLike in
          match scanParts allSessionMetas startedAt parts rows with
          | None => None
          | Some rows' =>
              if (50 <=? List.length rows')%nat then Some rows'
              else scanMessages allSessionMetas rest rows'
          end
      end
  end.

Definition deriveBackgroundTasks : option (list BackgroundTaskRow) :=
  let messageDir := getMessageDir (message storage) mainSessionId in
  let metas := readRecentMessageMetas messageDir 200 fsLike in
  let allSessionMetas := readAllSessionMetas (session storage) fsLike in
  let ordered := sortBy (fun a b => createdOrZero b - createdOrZero a) metas in
  scanMessages allSessionMetas ordered [].

End Derive.

(** *** Reference definitions, written from the specification *)

(** A session is a candidate for a delegation when its parent is the main
    session, its title is the expected one and its creation time lies in
    [startedAt, startedAt + 60000]. *)
Definition isCandidate (parentSessionId title : string) (startedAt : Z) (m : value) : Prop :=
  get "parentID" m = VStr parentSessionId
  /\ get "title" m = VStr title
  /\ exists c, createdOf m = Some c /\ startedAt <= c <= startedAt + 60000.

(** The last activity of the session lies within 15000 ms of [nowMs]. *)
Definition within15s (stats : SessionStats) (nowMs : Z) : Prop :=
  exists t, lastUpdateAt stats = Some t /\ nowMs - t <= 15000.

(** The same, for a last activity whose time stamp is not zero. *)
Definition activeWithin15s (stats : SessionStats) (nowMs : Z) : Prop :=
  exists t, lastUpdateAt stats = Some t /\ t <> 0 /\ nowMs - t <= 15000.

(** The statistics of the session a row names. *)
Definition rowStats {rt : Runtime} {ing : Ingest} (storage : OpenCodeStorageRoots)
    (fsLike : FsLike) (row : BackgroundTaskRow) : SessionStats :=
  readBackgroundStats storage fsLike
    (match sessionId row with Some s => s | None => "" end).

(** What [makeRow] establishes for the row it builds. *)
Definition rowInvariant {rt : Runtime} {ing : Ingest} (storage : OpenCodeStorageRoots)
    (nowMs : Z) (fsLike : FsLike) (row : BackgroundTaskRow) : Prop :=
  status row = statusOf (sessionId row) (rowStats storage fsLike row) nowMs
  /\ (timeline row = "" <-> status row = unknown)
  /\ toolCalls row
     = (if linked (sessionId row)
        then Some (statsToolCalls (rowStats storage fsLike row))
        else None).

(** The modification time [readRecentMessageMetas] sorts a file by. *)
Definition mtimeOrZero (messageDir : string) (fsLike : FsLike) (f : string) : Z :=
  match statSync fsLike (pathJoin messageDir f) with
  | Some mtimeMs => mtimeMs
  | None => 0
  end.

(** *** An in-memory file system and the artifacts of the examples *)

Record Disk : Type := {
  diskFiles : list (string * (content * Z));
  diskDirs : list (string * list (string * bool))
}.

Definition isSome {A : Type} (o : option A) : bool :=
  match o with
  | Some _ => true
  | None => false
  end.

Definition fsOf (d : Disk) : FsLike :=
  {| readFileSync := fun p => option_map fst (assoc p (diskFiles d));
     readdirSync := fun p => option_map (map fst) (assoc p (diskDirs d));
     readdirTyped := fun p => assoc p (diskDirs d);
     existsSync := fun p => isSome (assoc p (diskFiles d)) || isSome (assoc p (diskDirs d));
     statSync := fun p =>
       match assoc p (diskFiles d) with
       | Some (_, mtimeMs) => Some mtimeMs
       | None => if isSome (assoc p (diskDirs d)) then Some 0 else None
       end |}.

Definition exampleStorage : OpenCodeStorageRoots :=
  {| session := "st/session"; message := "st/message"; part := "st/part" |}.

Definition messageDoc (id : string) (created : Z) : value :=
  VObj [("id", VStr id); ("sessionID", VStr "ses_main"); ("role", VStr "assistant");
        ("time", VObj [("created", VNum (Fin created))])].

Definition sessionDoc (id parent title : string) (created : Z) : value :=
  VObj [("id", VStr id); ("projectID", VStr "proj"); ("directory", VStr "/tmp/project");
        ("title", VStr title); ("parentID", VStr parent);
        ("time", VObj [("created", VNum (Fin created)); ("updated", VNum (Fin created))])].

Definition delegatePart (callID : string) (runInBackground : bool) (description : string)
  : value :=
  VObj [("id", VStr ("part_" ++ callID)); ("type", VStr "tool"); ("callID", VStr callID);
        ("tool", VStr "delegate_task");
        ("state",
         VObj [("status", VStr "completed");
               ("input",
                VObj [("run_in_background", VBool runInBackground);
                      ("description", VStr description);
                      ("subagent_type", VStr "explore");
                      ("prompt", VStr "SECRET")])])].

Definition toolPart (callID tool : string) : value :=
  VObj [("id", VStr ("part_" ++ callID)); ("type", VStr "tool"); ("callID", VStr callID);
        ("tool", VStr tool);
        ("state", VObj [("status", VStr "completed"); ("input", VObj [])])].

Definition file (path : string) (v : value) (mtimeMs : Z) : string * (content * Z) :=
  (path, (Doc v, mtimeMs)).

(** The scenario of the specification: a background delegation "Scan repo"
    at 1000, its child session created 500 ms later, one [grep] call at
    2000. *)
Definition diskScanRepo : Disk :=
  {| diskFiles :=
       [ file "st/message/ses_main/msg_1.json" (messageDoc "msg_1" 1000) 10;
         file "st/part/msg_1/part_1.json" (delegatePart "call_1" true "Scan repo") 10;
         file "st/session/proj/ses_child.json"
           (sessionDoc "ses_child" "ses_main" "Background: Scan repo" 1500) 10;
         file "st/message/ses_child/msg_c1.json" (messageDoc "msg_c1" 2000) 10;
         file "st/part/msg_c1/part_1.json" (toolPart "call_g" "grep") 10 ];
     diskDirs :=
       [ ("st/session", [("proj", true)]);
         ("st/session/proj", [("ses_child.json", false)]);
         ("st/message/ses_main", [("msg_1.json", false)]);
         ("st/message/ses_child", [("msg_c1.json", false)]);
         ("st/part/msg_1", [("part_1.json", false)]);
         ("st/part/msg_c1", [("part_1.json", false)]) ] |}.

(** The row of that scenario when read at 3000. *)
Definition scanRepoRow : BackgroundTaskRow :=
  {| id := VStr "call_1";
     description := "Scan repo";
     agent := "explore";
     status := running;
     toolCalls := Some 1;
     lastTool := Some "grep";
     lastModel := None;
     timeline := "1970-01-01T00:00:01Z: 2s";
     sessionId := Some "ses_child" |}.

(** A synchronous delegation with a [resume] id that names no session,
    and a session titled "Task: Fallback task" that has no message. *)
Definition syncPart (callID description : string) (resume : value) : value :=
  VObj [("id", VStr ("part_" ++ callID)); ("type", VStr "tool"); ("callID", VStr callID);
        ("tool", VStr "delegate_task");
        ("state",
         VObj [("status", VStr "completed");
               ("input",
                VObj [("run_in_background", VBool false);
                      ("description", VStr description);
                      ("category", VStr "quick");
                      ("resume", resume);
                      ("prompt", VStr "SHOULD NOT APPEAR")])])].

Definition diskFallback : Disk :=
  {| diskFiles :=
       [ file "st/message/ses_main/msg_1.json" (messageDoc "msg_1" 1000) 10;
         file "st/part/msg_1/part_fallback.json"
           (syncPart "call_fallback" "Fallback task" (VStr "ses_nonexistent")) 10;
         file "st/session/proj/ses_task.json"
           (sessionDoc "ses_task" "ses_main" "Task: Fallback task" 1050) 10 ];
     diskDirs :=
       [ ("st/session", [("proj", true)]);
         ("st/session/proj", [("ses_task.json", false)]);
         ("st/message/ses_main", [("msg_1.json", false)]);
         ("st/part/msg_1", [("part_fallback.json", false)]) ] |}.

(** The same delegation with no session to match. *)
Definition diskUnlinked : Disk :=
  {| diskFiles :=
       [ file "st/message/ses_main/msg_1.json" (messageDoc "msg_1" 1000) 10;
         file "st/part/msg_1/part_sync.json"
           (syncPart "call_sync" "Quick analysis" VUndefined) 10 ];
     diskDirs :=
       [ ("st/message/ses_main", [("msg_1.json", false)]);
         ("st/part/msg_1", [("part_sync.json", false)]) ] |}.

(** Two candidate sessions created at the same instant. *)
Definition tiedSessions : list value :=
  [ sessionDoc "ses_zzz" "ses_main" "Background: Tie-break test" 1500;
    sessionDoc "ses_aaa" "ses_main" "Background: Tie-break test" 1500 ].

(** One message of the main session that holds [n] delegations. *)
Definition partNames (n : nat) : list string :=
  map (fun i => ("part_" ++ padded 3 (Z.of_nat i) ++ ".json")%string) (seq 0 n).

Definition diskManyParts (n : nat) : Disk :=
  {| diskFiles :=
       file "st/message/ses_main/msg_1.json" (messageDoc "msg_1" 1000) 10
       :: map (fun name =>
                 file ("st/part/msg_1/" ++ name) (delegatePart name true "Scan repo") 10)
            (partNames n);
     diskDirs :=
       [ ("st/message/ses_main", [("msg_1.json", false)]);
         ("st/part/msg_1", map (fun name => (name, false)) (partNames n)) ] |}.

(** A linked session whose only message was created at the epoch. *)
Definition diskEpoch : Disk :=
  {| diskFiles :=
       [ file "st/message/ses_main/msg_1.json" (messageDoc "msg_1" 0) 10;
         file "st/part/msg_1/part_1.json" (delegatePart "call_1" true "Scan repo") 10;
         file "st/session/proj/ses_child.json"
           (sessionDoc "ses_child" "ses_main" "Background: Scan repo" 0) 10;
         file "st/message/ses_child/msg_c1.json" (messageDoc "msg_c1" 0) 10;
         file "st/part/msg_c1/part_1.json" (toolPart "call_g" "grep") 10 ];
     diskDirs :=
       [ ("st/session", [("proj", true)]);
         ("st/session/proj", [("ses_child.json", false)]);
         ("st/message/ses_main", [("msg_1.json", false)]);
         ("st/message/ses_child", [("msg_c1.json", false)]);
         ("st/part/msg_1", [("part_1.json", false)]);
         ("st/part/msg_c1", [("part_1.json", false)]) ] |}.

(** A message directory with an unreadable entry, a malformed file, a file
    without id, a file that is not JSON by name, and two good files. *)
Definition diskMessy : Disk :=
  {| diskFiles :=
       [ ("d/bad.json", (Garbage, 50));
         file "d/noid.json" (VObj [("role", VStr "assistant")]) 40;
         file "d/numid.json" (VObj [("id", VNum (Fin 7))]) 35;
         file "d/old.json" (messageDoc "old" 1) 10;
         file "d/new.json" (messageDoc "new" 2) 30;
         file "d/notes.txt" (messageDoc "notes" 3) 60 ];
     diskDirs :=
       [ ("d", [("old.json", false); ("bad.json", false); ("gone.json", false);
                ("noid.json", false); ("numid.json", false); ("new.json", false);
                ("notes.txt", false)]) ] |}.

End BackgroundTasks.

(* ------------------------------------------------------------------ *)
(** ** The reader of recent messages as the specification words it *)

(** The contract of [readRecent(dir, cap)]: the documents of the JSON files
    of the directory, ordered by file modification time descending and
    truncated to [cap], skipping the files that fail to parse or lack a
    string id.  Written on the file system itself, not on the functions of
    the reader. *)
Module RecentReaderRef.
Import Js BackgroundTasks.

(** The names of the listing that end in ".json". *)
Definition jsonNames (names : list string) : list string :=
  filter (fun f => endsWith f ".json") names.

(** The files are ordered by modification time, newest first (a file
    whose time cannot be read counts as 0). *)
Definition newestFirst (dir : string) (fsLike : FsLike) (files : list string) : Prop :=
  StronglySorted (fun a b => mtimeOrZero dir fsLike b <= mtimeOrZero dir fsLike a) files.

(** The documents of the files, in their order, without the files that
    cannot be read, do not parse, or hold no string id. *)
Fixpoint documentsWithId (dir : string) (fsLike : FsLike) (files : list string) : list value :=
  match files with
  | [] => []
  | f :: rest =>
      match readFileSync fsLike (pathJoin dir f) with
      | Some (Doc v) =>
          match get "id" v with
          | VStr _ => v :: documentsWithId dir fsLike rest
          | _ => documentsWithId dir fsLike rest
          end
      | _ => documentsWithId dir fsLike rest
      end
  end.

End RecentReaderRef.

(* ------------------------------------------------------------------ *)
(** ** src/App.tsx: the time series the UI draws *)

Module TimeSeriesUi.
Import Js.

Record TimeSeriesSeries : Type := {
  id : string;
  label : string;
  tone : string;
  values : list Z
}.

Record TimeSeries : Type := {
  windowMs : Z;
  buckets : Z;
  bucketMs : Z;
  anchorMs : Z;
  serverNowMs : Z;
  series : list TimeSeriesSeries
}.

Definition TIME_SERIES_DEFAULT_WINDOW_MS : Z := 300000.
Definition TIME_SERIES_DEFAULT_BUCKET_MS : Z := 2000.
Definition TIME_SERIES_DEFAULT_BUCKETS : Z :=
  TIME_SERIES_DEFAULT_WINDOW_MS / TIME_SERIES_DEFAULT_BUCKET_MS.

(** The [id], [label] and [tone] of the five series. *)
Definition TIME_SERIES_SERIES_DEFS : list (string * string * string) :=
  [ ("overall-main", "Overall", "muted");
    ("agent:sisyphus", "Sisyphus", "teal");
    ("agent:prometheus", "Prometheus", "red");
    ("agent:atlas", "Atlas", "green");
    ("background-total", "Background tasks (total)", "muted") ].

Definition toFiniteNumber (v : value) : option Z :=
  match v with
  | VNum (Fin z) => Some z
  | _ => None
  end.

(** [a ?? b] *)
Definition nullish (a b : value) : value :=
  match a with
  | VUndefined | VNull => b
  | _ => a
  end.

(** [a ?? b] on an optional number. *)
Definition orElse (a : option Z) (b : Z) : Z :=
  match a with
  | Some z => z
  | None => b
  end.

(** [new Array<number>(n).fill(0)]: a [RangeError] when [n] is not a valid
    array length.  An engine may refuse to allocate a valid length as
    well; that is not modelled, and what is proved of [normalizeTimeSeries]
    is proved of the calls that return. *)
Definition zeros (n : Z) : option (list Z) :=
  if (0 <=? n) && (n <=? 4294967295) then Some (repeat 0 (Z.to_nat n)) else None.

Record ZeroOpts : Type := {
  optWindowMs : option Z;
  optBuckets : option Z;
  optBucketMs : option Z;
  optAnchorMs : option Z;
  optServerNowMs : option Z
}.

Definition makeZeroTimeSeries (opts : ZeroOpts) : option TimeSeries :=
  let windowMs := Z.max 1 (orElse (optWindowMs opts) TIME_SERIES_DEFAULT_WINDOW_MS) in
  let bucketMs := Z.max 1 (orElse (optBucketMs opts) TIME_SERIES_DEFAULT_BUCKET_MS) in
  let derivedBuckets := windowMs / bucketMs in
  let buckets :=
    Z.max 1
      (orElse (optBuckets opts)
         (if 0 <? derivedBuckets then derivedBuckets else TIME_SERIES_DEFAULT_BUCKETS)) in
  let serverNowMs := orElse (optServerNowMs opts) 0 in
  let anchorMs := orElse (optAnchorMs opts) 0 in
  match zeros buckets with
  | None => None
  | Some values =>
      Some {| windowMs := windowMs; buckets := buckets; bucketMs := bucketMs;
              anchorMs := anchorMs; serverNowMs := serverNowMs;
              series :=
                map (fun def =>
                       {| id := fst (fst def); label := snd (fst def); tone := snd def;
                          values := values |})
                    TIME_SERIES_SERIES_DEFS |}
  end.

Section Normalize.
Context {rt : Runtime}.

Definition toNonNegativeCount (v : value) : Z :=
  let n := match v with VNum n => n | _ => ToNumber v end in
  match n with
  | Fin z => Z.max 0 z
  | _ => 0
  end.

(** The key a series of the input is filed under: its [id], else its
    [key], when that is a non-empty string. *)
Definition seriesKey (s : value) : option string :=
  if negb (isObjectNotNull s) then None
  else
    match get "id" s with
    | VStr i => if String.eqb i "" then None else Some i
    | _ =>
        match get "key" s with
        | VStr k => if String.eqb k "" then None else Some k
        | _ => None
        end
    end.

(** The map [byId]: the first series of each key. *)
Definition indexSeries (seriesInput : value) : list (string * value) :=
  match seriesInput with
  | VArr items =>
      fold_left
        (fun byId s =>
           match seriesKey s with
           | Some k => match assoc k byId with Some _ => byId | None => mapSet k s byId end
           | None => byId
           end)
        items []
  | _ => []
  end.

(** The constant [parsed]: the counts of the series of the input that the
    definition [defId] names, none when there is no such series. *)
Definition parsedValues (byId : list (string * value)) (defId : string) : list Z :=
  match assoc defId byId with
  | Some found =>
      match get "values" found with
      | VArr valuesRaw => map toNonNegativeCount valuesRaw
      | _ => []
      end
  | None => []
  end.

(** The constants [trimmed] and [padded]. *)
Definition fitToBuckets (buckets : Z) (parsed : list Z) : option (list Z) :=
  let len := Z.of_nat (List.length parsed) in
  let trimmed := if buckets <? len then skipn (Z.to_nat (len - buckets)) parsed else parsed in
  let tlen := Z.of_nat (List.length trimmed) in
  if tlen <? buckets then
    match zeros (buckets - tlen) with
    | Some z => Some (trimmed ++ z)
    | None => None
    end
  else Some trimmed.

(** [defs.map(f)] for an [f] that may throw. *)
Fixpoint mapSeries (f : string * string * string -> option TimeSeriesSeries)
    (defs : list (string * string * string)) : option (list TimeSeriesSeries) :=
  match defs with
  | [] => Some []
  | d :: r =>
      match f d with
      | None => None
      | Some s => match mapSeries f r with Some l => Some (s :: l) | None => None end
      end
  end.

Definition normalizeTimeSeries (input : value) (nowMsFallback : Z) : option TimeSeries :=
  if negb (isObjectNotNull input) then
    let bucketMs := TIME_SERIES_DEFAULT_BUCKET_MS in
    let serverNowMs := nowMsFallback in
    let anchorMs := serverNowMs / bucketMs * bucketMs in
    makeZeroTimeSeries
      {| optWindowMs := Some TIME_SERIES_DEFAULT_WINDOW_MS;
         optBucketMs := Some bucketMs;
         optBuckets := Some TIME_SERIES_DEFAULT_BUCKETS;
         optAnchorMs := Some anchorMs;
         optServerNowMs := Some serverNowMs |}
  else
    let rec := input in
    let windowMsRaw := toFiniteNumber (nullish (get "windowMs" rec) (get "window_ms" rec)) in
    let bucketsRaw := toFiniteNumber (get "buckets" rec) in
    let bucketMsRaw := toFiniteNumber (nullish (get "bucketMs" rec) (get "bucket_ms" rec)) in
    let bucketMs := Z.max 1 (orElse bucketMsRaw TIME_SERIES_DEFAULT_BUCKET_MS) in
    let bucketsFromWindow :=
      match windowMsRaw with
      | Some w => if w =? 0 then None else Some (w / bucketMs)
      | None => None
      end in
    let buckets :=
      Z.max 1 (orElse bucketsRaw (orElse bucketsFromWindow TIME_SERIES_DEFAULT_BUCKETS)) in
    let windowMs := Z.max 1 (orElse windowMsRaw (buckets * bucketMs)) in
    let serverNowRaw :=
      toFiniteNumber (nullish (get "serverNowMs" rec) (get "server_now_ms" rec)) in
    let serverNowMs := orElse serverNowRaw nowMsFallback in
    let anchorRaw := toFiniteNumber (nullish (get "anchorMs" rec) (get "anchor_ms" rec)) in
    let anchorMs := orElse anchorRaw (serverNowMs / bucketMs * bucketMs) in
    let byId := indexSeries (get "series" rec) in
    match
      mapSeries
        (fun def =>
           match fitToBuckets buckets (parsedValues byId (fst (fst def))) with
           | Some padded =>
               Some {| id := fst (fst def); label := snd (fst def); tone := snd def;
                       values := padded |}
           | None => None
           end)
        TIME_SERIES_SERIES_DEFS
    with
    | Some series =>
        Some {| windowMs := windowMs; buckets := buckets; bucketMs := bucketMs;
                anchorMs := anchorMs; serverNowMs := serverNowMs; series := series |}
    | None => None
    end.

(** The series of the input that the output series [defId] is made from. *)
Definition sourceValues (input : value) (defId : string) : list Z :=
  if negb (isObjectNotNull input) then []
  else parsedValues (indexSeries (get "series" input)) defId.

(** The property of one output series: [b] entries; a shorter source
    first, then zeros; of a longer source its last [b] entries. *)
Definition fitted (input : value) (b : Z) (s : TimeSeriesSeries) : Prop :=
  Z.of_nat (List.length (values s)) = b
  /\ (Z.of_nat (List.length (sourceValues input (id s))) < b ->
      values s
      = sourceValues input (id s)
        ++ repeat 0 (Z.to_nat (b - Z.of_nat (List.length (sourceValues input (id s))))))
  /\ (b <= Z.of_nat (List.length (sourceValues input (id s))) ->
      values s
      = skipn (Z.to_nat (Z.of_nat (List.length (sourceValues input (id s))) - b))
          (sourceValues input (id s))).

End Normalize.

(** *** Reference definition, written from the specification *)

(** Left padding: the missing oldest buckets are zero-filled at the front. *)
Definition leftPadded (buckets : Z) (source : list Z) : list Z :=
  repeat 0 (Z.to_nat (buckets - Z.of_nat (List.length source))) ++ source.

(** *** An input of the examples: three buckets, one count *)

Definition seriesOf (def : string * string * string) (vs : list Z) : TimeSeriesSeries :=
  {| id := fst (fst def); label := snd (fst def); tone := snd def; values := vs |}.

Definition shortSeriesOutput : TimeSeries :=
  {| windowMs := 6000; buckets := 3; bucketMs := 2000; anchorMs := 4000; serverNowMs := 5001;
     series :=
       [ seriesOf ("overall-main", "Overall", "muted") [5; 0; 0];
         seriesOf ("agent:sisyphus", "Sisyphus", "teal") [0; 0; 0];
         seriesOf ("agent:prometheus", "Prometheus", "red") [0; 0; 0];
         seriesOf ("agent:atlas", "Atlas", "green") [2; 3; 4];
         seriesOf ("background-total", "Background tasks (total)", "muted") [0; 0; 0] ] |}.

Definition shortSeriesInput : value :=
  VObj [("buckets", VNum (Fin 3));
        ("bucketMs", VNum (Fin 2000));
        ("series",
         VArr [VObj [("id", VStr "overall-main"); ("values", VArr [VNum (Fin 5)])];
               VObj [("id", VStr "agent:atlas");
                     ("values", VArr [VNum (Fin 1); VNum (Fin 2); VNum (Fin 3); VNum (Fin 4)])]])].

End TimeSeriesUi.

(* ------------------------------------------------------------------ *)
(** ** src/ingest/token-usage.ts *)

Module TokenUsageFs.
Import Js.

Definition normalizeSessionId (v : option string) : option string :=
  match v with
  | Some s => if String.eqb (trim s) "" then None else Some (trim s)
  | None => None
  end.

(** [if (meta) metas.push(meta)] over the JSON files of the directory. *)
Definition readSessionMetas (messageDir : string) (fsLike : BackgroundTasks.FsLike)
  : list value :=
  if String.eqb messageDir "" then []
  else
    filter truthy
      (map (fun f => BackgroundTasks.readJsonFile (BackgroundTasks.pathJoin messageDir f) fsLike)
         (BackgroundTasks.listJsonFiles messageDir fsLike)).

(** The closure [push]: the ids in the order they come, each once. *)
Definition pushSessionId (sessionIds : list string) (v : option string) : list string :=
  match normalizeSessionId v with
  | Some i => if setHas i sessionIds then sessionIds else sessionIds ++ [i]
  | None => sessionIds
  end.

Section Derive.
Context {rt : Runtime} {ing : Ingest}.

Definition deriveTokenUsage (storage : BackgroundTasks.OpenCodeStorageRoots)
    (mainSessionId : option string) (backgroundSessionIds : list (option string))
    (fsLike : BackgroundTasks.FsLike) : TokenUsage.TokenUsagePayload :=
  let sessionIds := fold_left pushSessionId (mainSessionId :: backgroundSessionIds) [] in
  let metas :=
    flat_map
      (fun sessionId =>
         let messageDir := getMessageDir (BackgroundTasks.message storage) sessionId in
         if String.eqb messageDir "" then [] else readSessionMetas messageDir fsLike)
      sessionIds in
  TokenUsage.aggregateTokenUsage metas.

End Derive.
End TokenUsageFs.

(* ------------------------------------------------------------------ *)
(** ** src/server/dashboard.ts *)

Module Dashboard.
Import Js.

(** Modelled from the spec: the types [PlanStep], [BoulderState],
    [MainSessionView], [TimeSeriesPayload] and the result types of
    [readPlanProgress], [readPlanSteps] and [deriveToolCalls], declared in
    [../ingest/boulder], [../ingest/session], [../ingest/timeseries] and
    [../ingest/tool-calls], which are not among the sources here; the
    fields are the ones [dashboard.ts] and the UI read. *)
Record PlanStep : Type := {
  checked : bool;
  text : string
}.

Record BoulderState : Type := {
  plan_name : string;
  active_plan : string;
  session_ids : option (list string)
}.

Record PlanProgress : Type := {
  total : Z;
  completed : Z;
  isComplete : bool;
  missing : bool
}.

Record PlanSteps : Type := {
  stepsMissing : bool;
  steps : list PlanStep
}.

Record MainSessionView : Type := {
  agent : string;
  currentTool : option string;
  currentModel : option string;
  lastUpdated : option Z;
  sessionLabel : string;
  status : string
}.

Record ToolCall : Type := {
  tool : string
}.

Definition TimeSeriesPayload : Type := TimeSeriesUi.TimeSeries.

(** The functions [dashboard.ts] imports from those modules. *)
Class Collaborators : Type := {
  readBoulderState : string -> option BoulderState;
  readPlanProgress : string -> string -> PlanProgress;
  readPlanSteps : string -> string -> PlanSteps;
  pickActiveSessionId :
    string -> BackgroundTasks.OpenCodeStorageRoots -> option (list string) -> option string;
  readMainSessionMetas : string -> string -> list value;
  getMainSessionView :
    string -> string -> BackgroundTasks.OpenCodeStorageRoots -> option value -> Z
    -> MainSessionView;
  deriveToolCalls : BackgroundTasks.OpenCodeStorageRoots -> string -> list ToolCall;
  deriveTimeSeriesActivity :
    BackgroundTasks.OpenCodeStorageRoots -> option string -> Z -> TimeSeriesPayload
}.

(** *** Object literals as values *)

Definition optString (o : option string) : value :=
  match o with
  | Some s => VStr s
  | None => VNull
  end.

Definition number (z : Z) : value := VNum (Fin z).

Definition statusString (s : BackgroundTasks.Status) : string :=
  match s with
  | BackgroundTasks.queued => "queued"
  | BackgroundTasks.running => "running"
  | BackgroundTasks.completed => "completed"
  | BackgroundTasks.error => "error"
  | BackgroundTasks.unknown => "unknown"
  end.

Definition planStepValue (p : PlanStep) : value :=
  VObj [("checked", VBool (checked p)); ("text", VStr (text p))].

Definition seriesValue (s : TimeSeriesUi.TimeSeriesSeries) : value :=
  VObj [("id", VStr (TimeSeriesUi.id s)); ("label", VStr (TimeSeriesUi.label s));
        ("tone", VStr (TimeSeriesUi.tone s));
        ("values", VArr (map number (TimeSeriesUi.values s)))].

Definition timeSeriesValue (t : TimeSeriesPayload) : value :=
  VObj [("windowMs", number (TimeSeriesUi.windowMs t));
        ("bucketMs", number (TimeSeriesUi.bucketMs t));
        ("buckets", number (TimeSeriesUi.buckets t));
        ("anchorMs", number (TimeSeriesUi.anchorMs t));
        ("serverNowMs", number (TimeSeriesUi.serverNowMs t));
        ("series", VArr (map seriesValue (TimeSeriesUi.series t)))].

(** The object that [reduce] builds in [aggregateTokenUsage]. *)
Definition totalsValue (t : TokenUsage.TokenUsageTotals) : value :=
  VObj [("input", number (TokenUsage.input t)); ("output", number (TokenUsage.output t));
        ("reasoning", number (TokenUsage.reasoning t));
        ("cacheRead", number (TokenUsage.cacheRead t));
        ("cacheWrite", number (TokenUsage.cacheWrite t));
        ("total", number (TokenUsage.total t))].

(** The object of [blankRow], with its counters. *)
Definition rowValue (r : TokenUsage.TokenUsageRow) : value :=
  VObj [("model", VStr (TokenUsage.model r));
        ("input", number (TokenUsage.input (TokenUsage.counters r)));
        ("output", number (TokenUsage.output (TokenUsage.counters r)));
        ("reasoning", number (TokenUsage.reasoning (TokenUsage.counters r)));
        ("cacheRead", number (TokenUsage.cacheRead (TokenUsage.counters r)));
        ("cacheWrite", number (TokenUsage.cacheWrite (TokenUsage.counters r)));
        ("total", number (TokenUsage.total (TokenUsage.counters r)))].

Definition tokenUsageValue (p : TokenUsage.TokenUsagePayload) : value :=
  VObj [("rows", VArr (map rowValue (TokenUsage.rows p)));
        ("totals", totalsValue (TokenUsage.totals p))].

(** *** The functions of the module *)

Definition formatIso (ts : option Z) : string :=
  match ts with
  | None => "never"
  | Some t =>
      if t =? 0 then "never"
      else match BackgroundTasks.toISOString t with
           | Some iso => iso
           | None => "never"
           end
  end.

Definition planStatusPill (progress : PlanProgress) : string :=
  if missing progress then "not started"
  else if isComplete progress then "complete" else "in progress".

Definition mainStatusPill (status : string) : string :=
  if String.eqb status "running_tool" then "running tool"
  else if String.eqb status "thinking" then "thinking"
  else if String.eqb status "busy" then "busy"
  else if String.eqb status "idle" then "idle"
  else "unknown".

(** The entry of [backgroundTasks] made from a row. *)
Definition taskValue (t : BackgroundTasks.BackgroundTaskRow) : value :=
  VObj [("id", BackgroundTasks.id t);
        ("description", VStr (BackgroundTasks.description t));
        ("agent", VStr (BackgroundTasks.agent t));
        ("lastModel", optString (BackgroundTasks.lastModel t));
        ("status", VStr (statusString (BackgroundTasks.status t)));
        ("toolCalls",
         number (match BackgroundTasks.toolCalls t with Some n => n | None => 0 end));
        ("lastTool",
         VStr (match BackgroundTasks.lastTool t with Some s => s | None => "-" end));
        ("timeline", VStr (BackgroundTasks.timeline t));
        ("sessionId", optString (BackgroundTasks.sessionId t))].

Section Build.
Context {rt : Runtime} {ing : Ingest} {co : Collaborators}.

Variable projectRoot : string.
Variable storage : BackgroundTasks.OpenCodeStorageRoots.
Variable nowMs : Z.
Variable fsLike : BackgroundTasks.FsLike.

Definition boulder : option BoulderState := readBoulderState projectRoot.

(** The constant [sessionId]. *)
Definition activeSessionId : option string :=
  pickActiveSessionId projectRoot storage
    (match boulder with Some b => session_ids b | None => None end).

(** [sessionId ? f(sessionId) : d] *)
Definition withSession {A : Type} (f : string -> A) (d : A) : A :=
  match activeSessionId with
  | Some sessionId => if BackgroundTasks.linked (Some sessionId) then f sessionId else d
  | None => d
  end.

(** The constant [sessionMeta]. *)
Definition activeSessionMeta : option value :=
  withSession
    (fun sessionId =>
       find (fun m => BackgroundTasks.stringField "id" m sessionId)
         (readMainSessionMetas (BackgroundTasks.session storage) projectRoot))
    None.

(** The constant [main]. *)
Definition mainView : MainSessionView :=
  withSession
    (fun sessionId => getMainSessionView projectRoot sessionId storage activeSessionMeta nowMs)
    {| agent := "unknown"; currentTool := None; currentModel := None; lastUpdated := None;
       sessionLabel := "(no session)"; status := "unknown" |}.

(** The constant [tasks]. *)
Definition dashboardTasks : option (list BackgroundTasks.BackgroundTaskRow) :=
  withSession
    (fun sessionId => BackgroundTasks.deriveBackgroundTasks storage sessionId nowMs fsLike)
    (Some []).

(** The entry of [mainSessionTasks]. *)
Definition mainSessionTask (sessionId : string) : option (list value) :=
  let mainStatus := status mainView in
  let status :=
    if String.eqb mainStatus "running_tool" || String.eqb mainStatus "thinking"
       || String.eqb mainStatus "busy"
    then "running"
    else if String.eqb mainStatus "idle" then "idle" else "unknown" in
  let toolCalls := deriveToolCalls storage sessionId in
  let startAt :=
    match activeSessionMeta with
    | Some m => BackgroundTasks.createdOf m
    | None => None
    end in
  let endAtMs :=
    if String.eqb status "running" then nowMs
    else match lastUpdated mainView with Some t => t | None => nowMs end in
  match BackgroundTasks.formatTimeline startAt endAtMs with
  | None => None
  | Some timeline =>
      Some [ VObj [("id", VStr "main-session");
                   ("description", VStr "Main session");
                   ("subline", VStr sessionId);
                   ("agent", VStr (agent mainView));
                   ("lastModel", optString (currentModel mainView));
                   ("status", VStr status);
                   ("toolCalls", number (Z.of_nat (List.length toolCalls)));
                   ("lastTool",
                    VStr (match toolCalls with c :: _ => tool c | [] => "-" end));
                   ("timeline", VStr timeline);
                   ("sessionId", VStr sessionId)] ]
  end.

(** The constant [mainSessionTasks]. *)
Definition mainSessionTasks : option (list value) :=
  withSession mainSessionTask (Some []).

Definition buildDashboardPayload : option value :=
  let planName := match boulder with Some b => plan_name b | None => "(no active plan)" end in
  let planPath := match boulder with Some b => active_plan b | None => "" end in
  let plan :=
    match boulder with
    | Some b => readPlanProgress projectRoot (active_plan b)
    | None => {| total := 0; completed := 0; isComplete := false; missing := true |}
    end in
  let planSteps :=
    match boulder with
    | Some b => readPlanSteps projectRoot (active_plan b)
    | None => {| stepsMissing := true; steps := [] |}
    end in
  match dashboardTasks with
  | None => None
  | Some tasks =>
      let timeSeries := deriveTimeSeriesActivity storage activeSessionId nowMs in
      match mainSessionTasks with
      | None => None
      | Some mainTasks =>
          let tokenUsage :=
            TokenUsageFs.deriveTokenUsage storage activeSessionId
              (map BackgroundTasks.sessionId tasks) fsLike in
          let mainSession :=
            VObj [("agent", VStr (agent mainView));
                  ("currentModel", optString (currentModel mainView));
                  ("currentTool",
                   VStr (match currentTool mainView with Some t => t | None => "-" end));
                  ("lastUpdatedLabel", VStr (formatIso (lastUpdated mainView)));
                  ("session", VStr (sessionLabel mainView));
                  ("sessionId", optString activeSessionId);
                  ("statusPill", VStr (mainStatusPill (status mainView)))] in
          let planProgress :=
            VObj [("name", VStr planName);
                  ("completed", number (completed plan));
                  ("total", number (total plan));
                  ("path", VStr planPath);
                  ("statusPill", VStr (planStatusPill plan));
                  ("steps",
                   VArr (if stepsMissing planSteps then []
                         else map planStepValue (steps planSteps)))] in
          let backgroundTasks := VArr (map taskValue tasks) in
          let raw :=
            VObj [("mainSession", mainSession);
                  ("planProgress", planProgress);
                  ("backgroundTasks", backgroundTasks);
                  ("mainSessionTasks", VArr mainTasks);
                  ("timeSeries", timeSeriesValue timeSeries)] in
          Some (VObj [("mainSession", mainSession);
                      ("planProgress", planProgress);
                      ("backgroundTasks", backgroundTasks);
                      ("mainSessionTasks", VArr mainTasks);
                      ("timeSeries", timeSeriesValue timeSeries);
                      ("tokenUsage", tokenUsageValue tokenUsage);
                      ("raw", raw)])
      end
  end.

End Build.

(** *** The store *)

(** The variables [lastComputedAt], [dirty] and [cached] of the closure. *)
Record Store : Type := {
  lastComputedAt : Z;
  dirty : bool;
  cached : option value
}.

Definition createDashboardStore : Store :=
  {| lastComputedAt := 0; dirty := true; cached := None |}.

(** [opts.pollIntervalMs ?? 2000] *)
Definition pollIntervalOf (pollIntervalMs : option Z) : Z :=
  match pollIntervalMs with
  | Some p => p
  | None => 2000
  end.

Definition markDirty (st : Store) : Store :=
  {| lastComputedAt := lastComputedAt st; dirty := true; cached := cached st |}.

(** The condition of [getSnapshot]. *)
Definition mustRecompute (pollIntervalMs now : Z) (st : Store) : bool :=
  negb (BackgroundTasks.isSome (cached st)) || dirty st
  || (pollIntervalMs <? now - lastComputedAt st).

(** What a call of [getSnapshot] does: the store after it, what it returns
    ([None] when [buildDashboardPayload] throws) and whether it called
    [buildDashboardPayload].  [build] is what [buildDashboardPayload] gives
    at the time of the call. *)
Record Outcome : Type := {
  after : Store;
  returned : option value;
  recomputed : bool
}.

Definition getSnapshot (pollIntervalMs : Z) (build : option value) (now : Z) (st : Store)
  : Outcome :=
  if mustRecompute pollIntervalMs now st then
    match build with
    | Some payload =>
        {| after := {| lastComputedAt := now; dirty := false; cached := Some payload |};
           returned := Some payload;
           recomputed := true |}
    | None => {| after := st; returned := None; recomputed := true |}
    end
  else {| after := st; returned := cached st; recomputed := false |}.

(** What happens to a store: the file watcher fires, or a snapshot is
    read at time [now] while [buildDashboardPayload] would give [build]. *)
Inductive Event : Type :=
| Changed
| Read (now : Z) (build : option value).

Fixpoint runStore (pollIntervalMs : Z) (events : list Event) (st : Store)
  : Store * list Outcome :=
  match events with
  | [] => (st, [])
  | Changed :: rest => runStore pollIntervalMs rest (markDirty st)
  | Read now build :: rest =>
      let o := getSnapshot pollIntervalMs build now st in
      let '(final, outcomes) := runStore pollIntervalMs rest (after o) in
      (final, o :: outcomes)
  end.

(** *** The key scan of the tests (src/server/api.test.ts) *)

Definition sensitiveKeys : list string := ["prompt"; "input"; "output"; "error"; "state"].

Fixpoint hasSensitiveKeys (v : value) : bool :=
  match v with
  | VArr items => existsb hasSensitiveKeys items
  | VObj props =>
      existsb (fun kv => let '(key, child) := kv in
                         existsb (String.eqb key) sensitiveKeys || hasSensitiveKeys child)
        props
  | _ => false
  end.

(** *** Collaborators and a project for the examples *)

(** Modelled from the spec: collaborators over a project that has no plan
    and whose active session is "ses_main"; the main session view names the
    agent only, and the time series has no bucket. *)
Definition exampleCollaborators : Collaborators :=
  {| readBoulderState := fun _ => None;
     readPlanProgress := fun _ _ =>
       {| total := 0; completed := 0; isComplete := false; missing := true |};
     readPlanSteps := fun _ _ => {| stepsMissing := true; steps := [] |};
     pickActiveSessionId := fun _ _ _ => Some "ses_main";
     readMainSessionMetas := fun _ _ => [];
     getMainSessionView := fun _ _ _ _ _ =>
       {| agent := "sisyphus"; currentTool := None; currentModel := None;
          lastUpdated := Some 1000; sessionLabel := "ses_main"; status := "idle" |};
     deriveToolCalls := fun _ _ => [];
     deriveTimeSeriesActivity := fun _ _ now =>
       {| TimeSeriesUi.windowMs := 300000; TimeSeriesUi.buckets := 0;
          TimeSeriesUi.bucketMs := 2000; TimeSeriesUi.anchorMs := now;
          TimeSeriesUi.serverNowMs := now;
          TimeSeriesUi.series :=
            [ {| TimeSeriesUi.id := "overall-main"; TimeSeriesUi.label := "Overall";
                 TimeSeriesUi.tone := "muted"; TimeSeriesUi.values := [] |} ] |} |}.

(** An empty artifact tree. *)
Definition emptyDisk : BackgroundTasks.Disk :=
  {| BackgroundTasks.diskFiles := []; BackgroundTasks.diskDirs := [] |}.

(** The payload of the "Scan repo" scenario, read at 3000. *)
Definition scanRepoPayload : value :=
  Eval vm_compute in
    match @buildDashboardPayload exampleRuntime exampleIngest exampleCollaborators
            "project" BackgroundTasks.exampleStorage 3000
            (BackgroundTasks.fsOf BackgroundTasks.diskScanRepo) with
    | Some payload => payload
    | None => VNull
    end.

End Dashboard.

(* ------------------------------------------------------------------ *)
(** ** Further notions for src/ingest/token-usage-core.ts *)

Module TokenUsageShapes.
Import Js TokenUsage.


(** The order in which [aggregateTokenUsage] lists two rows: the larger
    total first, rows of the same total by model name. *)
Definition listedBefore {rt : Runtime} (a b : TokenUsageRow) : Prop :=
  total (counters b) < total (counters a)
  \/ (total (counters b) = total (counters a) /\ localeCompare (model a) (model b) <= 0).

(** Three messages of two models, one of them read twice. *)
Definition modelMeta (id provider : string) (n : Z) : value :=
  VObj [("id", VStr id); ("role", VStr "assistant");
        ("providerID", VStr provider); ("modelID", VStr "m");
        ("tokens", tokensOf (VNum (Fin n)) (VNum (Fin 0)) (VNum (Fin 0)) (VNum (Fin 0))
                     (VNum (Fin 0)))].

Definition threeMetas : list value :=
  [modelMeta "msg_1" "a" 3; modelMeta "msg_2" "b" 9; modelMeta "msg_3" "a" 1].

End TokenUsageShapes.

(* ------------------------------------------------------------------ *)
(** ** Further notions for src/ingest/token-usage.ts *)

Module TokenUsageFsShapes.
Import Js.

(** The array [sessionIds] of [deriveTokenUsage]. *)
Definition collectSessionIds (mainSessionId : option string)
    (backgroundSessionIds : list (option string)) : list string :=
  fold_left TokenUsageFs.pushSessionId (mainSessionId :: backgroundSessionIds) [].

Definition emptyPayload : TokenUsage.TokenUsagePayload :=
  {| TokenUsage.rows := []; TokenUsage.totals := TokenUsage.EMPTY_TOTALS |}.

(** A main session with one message and a background session with one
    message of the same id. *)
Definition diskTwoSessions : BackgroundTasks.Disk :=
  {| BackgroundTasks.diskFiles :=
       [ BackgroundTasks.file "st/message/ses_main/msg_dupe.json"
           (TokenUsage.assistantMeta (VStr "msg_dupe")
              (TokenUsage.tokensOf (VNum (Fin 4)) (VNum (Fin 0)) (VNum (Fin 0)) (VNum (Fin 0))
                 (VNum (Fin 0)))) 10;
         BackgroundTasks.file "st/message/ses_bg/msg_dupe.json"
           (TokenUsage.assistantMeta (VStr "msg_dupe")
              (TokenUsage.tokensOf (VNum (Fin 9)) (VNum (Fin 0)) (VNum (Fin 0)) (VNum (Fin 0))
                 (VNum (Fin 0)))) 10 ];
     BackgroundTasks.diskDirs :=
       [ ("st/message/ses_main", [("msg_dupe.json", false)]);
         ("st/message/ses_bg", [("msg_dupe.json", false)]) ] |}.

End TokenUsageFsShapes.

(* ------------------------------------------------------------------ *)
(** ** Further notions for src/ingest/background-tasks.ts *)

Module BackgroundTasksShapes.
Import Js BackgroundTasks.

(** A part as [readToolPartsForMessage] lets it through. *)
Definition toolPartShape (p : value) : Prop :=
  get "type" p = VStr "tool"
  /\ (exists t, get "tool" p = VStr t)
  /\ isObjectNotNull (get "state" p) = true.

(** The number of tool parts of the messages, added up. *)
Definition countParts (storage : OpenCodeStorageRoots) (fsLike : FsLike) (metas : list value)
  : Z :=
  fold_right Z.add 0
    (map (fun meta => Z.of_nat (List.length (readToolPartsForMessage storage (idOf meta) fsLike)))
       metas).

(** [t] is the latest creation time among the messages. *)
Definition latestCreated (metas : list value) (t : Z) : Prop :=
  (exists m, In m metas /\ createdOf m = Some t)
  /\ forall m c, In m metas -> createdOf m = Some c -> c <= t.

(** The time stamp that the loop over the messages leaves: that of the
    last message that has one. *)
Definition lastCreated (acc : option Z) (metas : list value) : option Z :=
  fold_left (fun a m => match createdOf m with Some c => Some c | None => a end) metas acc.

(** The counter and the last tool agree: no tool exactly when no call. *)
Definition tallied (st : SessionStats) : Prop :=
  0 <= statsToolCalls st /\ (statsLastTool st = None <-> statsToolCalls st = 0).

(** The constant [agent] of [deriveBackgroundTasks]. *)
Definition agentOf (input : value) : string :=
  match clampString (get "subagent_type" input) AGENT_MAX with
  | Some a => a
  | None =>
      match clampString (get "category" input) AGENT_MAX with
      | Some c => ("sisyphus-junior (" ++ c ++ ")")%string
      | None => "unknown"
      end
  end.

(** [part.state.input ?? {}]. *)
Definition delegationInput (part : value) : value :=
  match get "input" (get "state" part) with
  | VUndefined | VNull => VObj []
  | v => v
  end.

(** A row that [deriveBackgroundTasks] pushes: built from a [delegate_task]
    part of a message of the main session that has a creation time, whose
    input has a boolean [run_in_background] and a description that is not
    blank. *)
Definition pushed {rt : Runtime} {ing : Ingest} (storage : OpenCodeStorageRoots)
    (mainSessionId : string) (nowMs : Z) (fsLike : FsLike) (row : BackgroundTaskRow) : Prop :=
  exists meta part startedAt sid d,
    In meta (readRecentMessageMetas (getMessageDir (message storage) mainSessionId) 200 fsLike)
    /\ createdOf meta = Some startedAt
    /\ In part (readToolPartsForMessage storage (idOf meta) fsLike)
    /\ get "tool" part = VStr "delegate_task"
    /\ (exists b, get "run_in_background" (delegationInput part) = VBool b)
    /\ clampString (get "description" (delegationInput part)) DESCRIPTION_MAX = Some d
    /\ makeRow storage nowMs fsLike part d (agentOf (delegationInput part)) startedAt sid
       = Some row.

(** The delegation a row was built from. *)
Definition builtFrom (storage : OpenCodeStorageRoots) (mainSessionId : string)
    {ing : Ingest} (fsLike : FsLike) (row : BackgroundTaskRow) : Prop :=
  exists meta part,
    In meta (readRecentMessageMetas (getMessageDir (message storage) mainSessionId) 200 fsLike)
    /\ createdOf meta <> None
    /\ In part (readToolPartsForMessage storage (idOf meta) fsLike)
    /\ get "tool" part = VStr "delegate_task"
    /\ (exists b, get "run_in_background" (delegationInput part) = VBool b)
    /\ id row = get "callID" part
    /\ clampString (get "description" (delegationInput part)) DESCRIPTION_MAX
       = Some (description row)
    /\ agent row = agentOf (delegationInput part).

(** The shape of a row: a description of 1 to 120 characters, an agent
    that is not empty, and the counters of the linked session or nothing. *)
Definition rowShape (row : BackgroundTaskRow) : Prop :=
  (1 <= String.length (description row) <= 120)%nat
  /\ (1 <= String.length (agent row) <= 48)%nat
  /\ (linked (sessionId row) = false ->
      status row = queued /\ toolCalls row = None /\ lastTool row = None
      /\ lastModel row = None)
  /\ (linked (sessionId row) = true ->
      exists n, toolCalls row = Some n /\ 0 <= n /\ (lastTool row = None <-> n = 0)).

(** Two messages created at 1000 and 2000 with one and two tool parts. *)
Definition diskReplay : Disk :=
  {| diskFiles :=
       [ file "st/message/ses_c/m2.json" (messageDoc "m2" 2000) 10;
         file "st/message/ses_c/m1.json" (messageDoc "m1" 1000) 20;
         file "st/part/m1/p1.json" (toolPart "c1" "read") 10;
         file "st/part/m2/p2.json" (toolPart "c2" "grep") 10;
         file "st/part/m2/p1.json" (toolPart "c3" "bash") 10;
         file "st/part/m2/text.json" (VObj [("type", VStr "text")]) 10 ];
     diskDirs :=
       [ ("st/message/ses_c", [("m2.json", false); ("m1.json", false)]);
         ("st/part/m1", [("p1.json", false)]);
         ("st/part/m2", [("p2.json", false); ("text.json", false); ("p1.json", false)]) ] |}.


(** A synchronous delegation that resumes "ses_x", where the path of the
    message directory of "ses_x" is a file: it exists, and listing it
    fails. *)
Definition diskResumeFile : Disk :=
  {| diskFiles :=
       [ file "st/message/ses_main/msg_1.json" (messageDoc "msg_1" 1000) 10;
         file "st/part/msg_1/part_1.json" (syncPart "call_1" "Resume it" (VStr "ses_x")) 10;
         file "st/message/ses_x" VNull 10 ];
     diskDirs :=
       [ ("st/message/ses_main", [("msg_1.json", false)]);
         ("st/part/msg_1", [("part_1.json", false)]) ] |}.

(** The candidate sessions of a synchronous delegation, with "Task: "
    titles. *)
Definition tiedTaskSessions : list value :=
  [ sessionDoc "ses_task_zzz" "ses_main" "Task: Task tie-break test" 1500;
    sessionDoc "ses_task_aaa" "ses_main" "Task: Task tie-break test" 1500 ].

End BackgroundTasksShapes.

(* ------------------------------------------------------------------ *)
(** ** The ways [deriveBackgroundTasks] fails *)

Module BackgroundTasksFailures.
Import Js BackgroundTasks BackgroundTasksShapes.

(** A [delegate_task] part of a message of the main session that makes
    [deriveBackgroundTasks] throw: its message was created outside the range
    of [Date], or it is a synchronous delegation whose [resume] names a
    session whose message directory exists and cannot be listed. *)
Definition failureCause {ing : Ingest} (storage : OpenCodeStorageRoots)
    (mainSessionId : string) (fsLike : FsLike) : Prop :=
  exists meta startedAt part,
    In meta (readRecentMessageMetas (getMessageDir (message storage) mainSessionId) 200 fsLike)
    /\ createdOf meta = Some startedAt
    /\ In part (readToolPartsForMessage storage (idOf meta) fsLike)
    /\ get "tool" part = VStr "delegate_task"
    /\ (8640000000000000 < Z.abs startedAt
        \/ exists r,
             get "run_in_background" (delegationInput part) = VBool false
             /\ get "resume" (delegationInput part) = VStr r
             /\ existsSync fsLike (getMessageDir (message storage) (trim r)) = true
             /\ readdirSync fsLike (getMessageDir (message storage) (trim r)) = None).


End BackgroundTasksFailures.

(* ------------------------------------------------------------------ *)
(** ** Further notions for src/server/dashboard.ts *)

Module DashboardShapes.
Import Js Dashboard.

(** The reads among the events, in their order: the time of each and what
    [buildDashboardPayload] would give then. *)
Fixpoint reads (events : list Event) : list (Z * option value) :=
  match events with
  | [] => []
  | Changed :: rest => reads rest
  | Read now build :: rest => (now, build) :: reads rest
  end.

(** Modelled from the spec: collaborators over a project that has no plan
    and no active session. *)
Definition idleCollaborators : Collaborators :=
  {| readBoulderState := fun _ => None;
     readPlanProgress := readPlanProgress (Collaborators := exampleCollaborators);
     readPlanSteps := readPlanSteps (Collaborators := exampleCollaborators);
     pickActiveSessionId := fun _ _ _ => None;
     readMainSessionMetas := fun _ _ => [];
     getMainSessionView := getMainSessionView (Collaborators := exampleCollaborators);
     deriveToolCalls := fun _ _ => [];
     deriveTimeSeriesActivity :=
       deriveTimeSeriesActivity (Collaborators := exampleCollaborators) |}.

(** The [mainSession] object of a payload built when no session is
    active. *)
Definition noSessionView (sessionId : option string) : value :=
  VObj [("agent", VStr "unknown");
        ("currentModel", VNull);
        ("currentTool", VStr "-");
        ("lastUpdatedLabel", VStr "never");
        ("session", VStr "(no session)");
        ("sessionId", optString sessionId);
        ("statusPill", VStr "unknown")].

End DashboardShapes.

(* ------------------------------------------------------------------ *)
(** ** Further notions for the time series of src/App.tsx *)

Module TimeSeriesUiShapes.
Import Js TimeSeriesUi.

(** The first series of the input that is filed under the key [k]. *)
Definition firstWithKey (k : string) (items : list value) : option value :=
  find (fun s => match seriesKey s with Some k' => String.eqb k' k | None => false end) items.

(** [rec.anchorMs ?? rec.anchor_ms], when it is a finite number. *)
Definition anchorRaw (input : value) : option Z :=
  toFiniteNumber (nullish (get "anchorMs" input) (get "anchor_ms" input)).

(** An input that asks for one bucket more than an array can hold. *)
Definition tooManyBuckets : value :=
  VObj [("buckets", VNum (Fin 4294967296)); ("bucketMs", VNum (Fin 2000))].

(** Two series filed under the same id. *)
Definition twiceOverall : list value :=
  [ VObj [("id", VStr "overall-main"); ("values", VArr [VNum (Fin 1)])];
    VObj [("key", VStr "agent:atlas"); ("values", VArr [VNum (Fin 7)])];
    VObj [("id", VStr "overall-main"); ("values", VArr [VNum (Fin 2)])] ].

End TimeSeriesUiShapes.

(* ------------------------------------------------------------------ *)
(** ** src/App.tsx: the scale of the main agents and the selected source *)

Module MainAgentsUi.
Import Js.

Definition toNonNegativeFinite (v : value) : Z :=
  match v with
  | VNum (Fin z) => Z.max 0 z
  | _ => 0
  end.

Definition computeOtherMainAgentsCount (overall background sisyphus prometheus atlas : value)
  : Z :=
  let overall := toNonNegativeFinite overall in
  let background := toNonNegativeFinite background in
  let sisyphus := toNonNegativeFinite sisyphus in
  let prometheus := toNonNegativeFinite prometheus in
  let atlas := toNonNegativeFinite atlas in
  let mainTotal := Z.max 0 (overall - background) in
  Z.max 0 (mainTotal - sisyphus - prometheus - atlas).

(** [values[i]]: [undefined] past the end of the array. *)
Definition at_ (values : list value) (i : nat) : value := nth i values VUndefined.

(** The constant [s] of the loop of [computeMainAgentsScaleMax]. *)
Definition stackAt (overallValues backgroundValues sisyphusValues prometheusValues
    atlasValues : list value) (i : nat) : Z :=
  let sis := toNonNegativeFinite (at_ sisyphusValues i) in
  let pro := toNonNegativeFinite (at_ prometheusValues i) in
  let atl := toNonNegativeFinite (at_ atlasValues i) in
  let other :=
    computeOtherMainAgentsCount (at_ overallValues i) (at_ backgroundValues i)
      (VNum (Fin sis)) (VNum (Fin pro)) (VNum (Fin atl)) in
  sis + pro + atl + other.

Definition computeMainAgentsScaleMax (buckets : Z)
    (overallValues backgroundValues sisyphusValues prometheusValues atlasValues : list value)
  : Z :=
  let buckets := Z.max 0 buckets in
  let sumMax :=
    fold_left
      (fun sumMax i =>
         let s :=
           stackAt overallValues backgroundValues sisyphusValues prometheusValues atlasValues
             i in
         if sumMax <? s then s else sumMax)
      (seq 0 (Z.to_nat buckets)) 0 in
  Z.max 1 (if sumMax =? 0 then 1 else sumMax).

Record DashboardSource : Type := {
  id : string;
  label : string;
  updatedAt : Z
}.

(** [x && ids.has(x)] for a [string | null]. *)
Definition known (x : option string) (ids : list string) : bool :=
  match x with
  | Some s => negb (String.eqb s "") && setHas s ids
  | None => false
  end.

Definition resolveSelectedSourceId (sources : list DashboardSource)
    (defaultSourceId storedSourceId : option string) : option string :=
  let ids := map id sources in
  if known storedSourceId ids then storedSourceId
  else if known defaultSourceId ids then defaultSourceId
  else match sources with
       | s :: _ => Some (id s)
       | [] => None
       end.

(** Two sources of the examples. *)
Definition twoSources : list DashboardSource :=
  [ {| id := "aaa"; label := "Alpha"; updatedAt := 2000 |};
    {| id := "bbb"; label := "Beta"; updatedAt := 1000 |} ].

End MainAgentsUi.

(* ------------------------------------------------------------------ *)
(** ** src/ding-policy.ts *)

Module DingPolicy.

Record WaitingDingState : Type := {
  prevWaiting : option bool;
  lastLeftWaitingAtMs : option Z
}.

Record Ding : Type := {
  play : bool;
  next : WaitingDingState
}.

Definition isTrue (b : option bool) : bool :=
  match b with Some true => true | _ => false end.

Definition isFalse (b : option bool) : bool :=
  match b with Some false => true | _ => false end.

Definition computeWaitingDing (prev : WaitingDingState) (waiting : bool) (nowMs : Z)
    (suppressMsOpt : option Z) : Ding :=
  let suppressMs := match suppressMsOpt with Some s => s | None => 20000 end in
  let lastLeft1 :=
    if isTrue (prevWaiting prev) && negb waiting then Some nowMs
    else lastLeftWaitingAtMs prev in
  let play :=
    if isFalse (prevWaiting prev) && waiting then
      match lastLeft1 with
      | Some t => negb ((0 <=? nowMs - t) && (nowMs - t <? suppressMs))
      | None => true
      end
    else false in
  let lastLeft2 := if waiting then None else lastLeft1 in
  {| play := play; next := {| prevWaiting := Some waiting; lastLeftWaitingAtMs := lastLeft2 |} |}.

(** The state before the first observation. *)
Definition initial : WaitingDingState :=
  {| prevWaiting := None; lastLeftWaitingAtMs := None |}.

(** The observations of a run, each [(waiting, nowMs)], and whether each
    one plays. *)
Fixpoint run (suppressMs : option Z) (st : WaitingDingState) (obs : list (bool * Z))
  : list bool :=
  match obs with
  | [] => []
  | (waiting, nowMs) :: rest =>
      let d := computeWaitingDing st waiting nowMs suppressMs in
      play d :: run suppressMs (next d) rest
  end.

End DingPolicy.

(* ================================================================== *)
(** * Part II: properties *)
(* ================================================================== *)

Module JsFacts.
Import Js.

Lemma insertBy_perm {A : Type} (cmp : A -> A -> Z) (x : A) (l : list A) :
  Permutation (insertBy cmp x l) (x :: l).
Proof.
  induction l as [|y r IH]; simpl.
  - apply Permutation_refl.
  - destruct (cmp x y <=? 0).
    + apply Permutation_refl.
    + eapply perm_trans; [apply perm_skip, IH | apply perm_swap].
Qed.

Lemma sortBy_perm {A : Type} (cmp : A -> A -> Z) (l : list A) :
  Permutation (sortBy cmp l) l.
Proof.
  induction l as [|x r IH]; simpl.
  - apply perm_nil.
  - eapply perm_trans; [apply insertBy_perm | apply perm_skip, IH].
Qed.

Lemma sortBy_length {A : Type} (cmp : A -> A -> Z) (l : list A) :
  List.length (sortBy cmp l) = List.length l.
Proof. apply Permutation_length, sortBy_perm. Qed.

Lemma assoc_None_notin {A : Type} (k : string) (l : list (string * A)) :
  assoc k l = None -> ~ In k (map fst l).
Proof.
  induction l as [|[k' v] r IH]; simpl; intros H.
  - tauto.
  - destruct (String.eqb k k') eqn:E; [discriminate|].
    apply String.eqb_neq in E. intros [H1|H1]; [congruence | exact (IH H H1)].
Qed.

Lemma assoc_Some_in {A : Type} (k : string) (v : A) (l : list (string * A)) :
  assoc k l = Some v -> In (k, v) l.
Proof.
  induction l as [|[k' v'] r IH]; simpl; intros H.
  - discriminate.
  - destruct (String.eqb k k') eqn:E.
    + apply String.eqb_eq in E. left. congruence.
    + right. auto.
Qed.

Lemma mapSet_keys_new {A : Type} (k : string) (v : A) (m : list (string * A)) :
  assoc k m = None -> mapSet k v m = m ++ [(k, v)].
Proof.
  induction m as [|[k' v'] r IH]; simpl; intros H.
  - reflexivity.
  - destruct (String.eqb k k'); [discriminate|]. now rewrite IH.
Qed.

Lemma mapSet_keys_old {A : Type} (k : string) (v w : A) (m : list (string * A)) :
  assoc k m = Some w -> map fst (mapSet k v m) = map fst m.
Proof.
  induction m as [|[k' v'] r IH]; simpl; intros H.
  - discriminate.
  - destruct (String.eqb k k') eqn:E; simpl.
    + apply String.eqb_eq in E. now subst.
    + now rewrite IH.
Qed.

Lemma assoc_mapSet_same {A : Type} (k : string) (v : A) (m : list (string * A)) :
  assoc k (mapSet k v m) = Some v.
Proof.
  induction m as [|[k' v'] r IH]; simpl.
  - now rewrite String.eqb_refl.
  - destruct (String.eqb k k') eqn:E; simpl.
    + now rewrite String.eqb_refl.
    + now rewrite E.
Qed.

Lemma assoc_mapSet_other {A : Type} (k k0 : string) (v : A) (m : list (string * A)) :
  k0 <> k -> assoc k0 (mapSet k v m) = assoc k0 m.
Proof.
  intros Hne. induction m as [|[k' v'] r IH]; simpl.
  - apply String.eqb_neq in Hne. now rewrite Hne.
  - destruct (String.eqb k k') eqn:E; simpl.
    + apply String.eqb_eq in E. subst k'.
      apply String.eqb_neq in Hne. now rewrite Hne.
    + now rewrite IH.
Qed.

(** *** Sorting with a comparator that is a total preorder *)

Section Sorting.
Context {A : Type} (cmp : A -> A -> Z).

Hypothesis cmp_total : forall a b, cmp a b <= 0 \/ cmp b a <= 0.
Hypothesis cmp_trans : forall a b c, cmp a b <= 0 -> cmp b c <= 0 -> cmp a c <= 0.

Lemma insertBy_sorted (x : A) (l : list A) :
  StronglySorted (before cmp) l -> StronglySorted (before cmp) (insertBy cmp x l).
Proof.
  induction 1 as [|y r Hr IH Hy]; simpl.
  - constructor; constructor.
  - destruct (cmp x y <=? 0) eqn:E.
    + apply Z.leb_le in E. constructor.
      * constructor; assumption.
      * constructor; [exact E|].
        rewrite Forall_forall in Hy |- *. intros z Hz.
        exact (cmp_trans _ _ _ E (Hy z Hz)).
    + apply Z.leb_gt in E. constructor; [exact IH|].
      apply (Permutation_Forall (Permutation_sym (insertBy_perm cmp x r))).
      constructor; [|exact Hy].
      destruct (cmp_total y x) as [H|H]; [exact H | lia].
Qed.

Lemma sortBy_sorted (l : list A) : StronglySorted (before cmp) (sortBy cmp l).
Proof.
  induction l as [|x r IH]; simpl.
  - constructor.
  - now apply insertBy_sorted.
Qed.

(** The first element of the sorted array comes before every element. *)
Lemma sortBy_head (l : list A) (h : A) (t : list A) :
  sortBy cmp l = h :: t -> In h l /\ forall x, In x l -> cmp h x <= 0.
Proof.
  intros E. pose proof (sortBy_sorted l) as Hs. pose proof (sortBy_perm cmp l) as Hp.
  rewrite E in Hs, Hp. split.
  - apply (Permutation_in _ Hp). now left.
  - intros x Hx. apply (Permutation_in _ (Permutation_sym Hp)) in Hx.
    destruct Hx as [<-|Hx].
    + destruct (cmp_total h h); assumption.
    + inversion Hs as [|? ? _ Hall]; subst. rewrite Forall_forall in Hall. now apply Hall.
Qed.

End Sorting.

Lemma StronglySorted_firstn {A : Type} (R : A -> A -> Prop) (n : nat) (l : list A) :
  StronglySorted R l -> StronglySorted R (firstn n l).
Proof.
  intros H. revert n. induction H as [|x r Hr IH Hx]; intros [|n]; simpl; try constructor.
  - apply IH.
  - rewrite Forall_forall in Hx |- *. intros y Hy. apply Hx.
    rewrite <- (firstn_skipn n r). apply in_or_app. now left.
Qed.

Lemma StronglySorted_filter {A : Type} (R : A -> A -> Prop) (f : A -> bool) (l : list A) :
  StronglySorted R l -> StronglySorted R (filter f l).
Proof.
  induction 1 as [|x r Hr IH Hx]; simpl; [constructor|].
  destruct (f x); [|exact IH].
  constructor; [exact IH|].
  rewrite Forall_forall in Hx |- *. intros y Hy. apply filter_In in Hy. now apply Hx.
Qed.

Lemma sortBy_nil_iff {A : Type} (cmp : A -> A -> Z) (l : list A) :
  sortBy cmp l = [] <-> l = [].
Proof.
  split; intros H.
  - pose proof (sortBy_length cmp l) as Hl. rewrite H in Hl.
    destruct l; [reflexivity | discriminate].
  - now subst.
Qed.

(** The order of code units is a total preorder. *)
Lemma codeUnitCompare_total (a b : string) :
  codeUnitCompare a b <= 0 \/ codeUnitCompare b a <= 0.
Proof.
  unfold codeUnitCompare.
  destruct (String_as_OT.compare_spec a b) as [E|L|G].
  - left. lia.
  - left. lia.
  - right. unfold String_as_OT.lt in G. rewrite G. lia.
Qed.

Lemma codeUnitCompare_le (a b : string) :
  codeUnitCompare a b <= 0 <-> a = b \/ String_as_OT.lt a b.
Proof.
  unfold codeUnitCompare.
  destruct (String_as_OT.compare_spec a b) as [E|L|G]; split; intros H;
    try lia; auto.
  exfalso. destruct H as [->|H].
  - exact (StrictOrder_Irreflexive _ G).
  - exact (StrictOrder_Irreflexive _ (StrictOrder_Transitive _ _ _ H G)).
Qed.

Lemma codeUnitCompare_trans (a b c : string) :
  codeUnitCompare a b <= 0 -> codeUnitCompare b c <= 0 -> codeUnitCompare a c <= 0.
Proof.
  rewrite !codeUnitCompare_le. intros [->|H1] [->|H2]; auto.
  right. exact (StrictOrder_Transitive _ _ _ H1 H2).
Qed.

End JsFacts.

Module TokenUsageFacts.
Import Js TokenUsage JsFacts.

Lemma totals_ext (a b : TokenUsageTotals) :
  input a = input b -> output a = output b -> reasoning a = reasoning b ->
  cacheRead a = cacheRead b -> cacheWrite a = cacheWrite b -> total a = total b ->
  a = b.
Proof. destruct a, b; simpl; intros; subst; reflexivity. Qed.

Ltac by_columns := apply totals_ext; simpl; lia.

Lemma addTotals_assoc (a b c : TokenUsageTotals) :
  addTotals (addTotals a b) c = addTotals a (addTotals b c).
Proof. by_columns. Qed.

Lemma addTotals_comm (a b : TokenUsageTotals) : addTotals a b = addTotals b a.
Proof. by_columns. Qed.

Lemma addTotals_empty_l (a : TokenUsageTotals) : addTotals EMPTY_TOTALS a = a.
Proof. by_columns. Qed.

Lemma addTotals_empty_r (a : TokenUsageTotals) : addTotals a EMPTY_TOTALS = a.
Proof. by_columns. Qed.

Lemma columnSum_cons (x : TokenUsageTotals) (l : list TokenUsageTotals) :
  columnSum (x :: l) = addTotals x (columnSum l).
Proof. reflexivity. Qed.

Lemma columnSum_nil : columnSum [] = EMPTY_TOTALS.
Proof. reflexivity. Qed.

Lemma columnSum_app (l1 l2 : list TokenUsageTotals) :
  columnSum (l1 ++ l2) = addTotals (columnSum l1) (columnSum l2).
Proof.
  induction l1 as [|x r IH].
  - simpl app. now rewrite columnSum_nil, addTotals_empty_l.
  - simpl app. now rewrite !columnSum_cons, IH, addTotals_assoc.
Qed.

Lemma columnSum_perm (l1 l2 : list TokenUsageTotals) :
  Permutation l1 l2 -> columnSum l1 = columnSum l2.
Proof.
  induction 1 as [|x l l' _ IH|x y l|l l' l'' _ IH1 _ IH2].
  - reflexivity.
  - now rewrite !columnSum_cons, IH.
  - rewrite !columnSum_cons. by_columns.
  - congruence.
Qed.

Lemma reduce_columnSum (l : list TokenUsageRow) (acc : TokenUsageTotals) :
  fold_left (fun acc row => addTotals acc (counters row)) l acc
  = addTotals acc (columnSum (map counters l)).
Proof.
  revert acc. induction l as [|x r IH]; intros acc; simpl fold_left; simpl map.
  - now rewrite columnSum_nil, addTotals_empty_r.
  - now rewrite IH, columnSum_cons, addTotals_assoc.
Qed.

Section Facts.
Context {rt : Runtime} {ing : Ingest}.

Lemma mapSet_sum k r c (byModel : list (string * TokenUsageRow)) :
  assoc k byModel = Some r ->
  columnSum (stored (mapSet k {| model := model r; counters := addTotals (counters r) c |} byModel))
  = addTotals (columnSum (stored byModel)) c.
Proof.
  unfold stored.
  induction byModel as [|[k' v'] rest IH]; simpl; intros H.
  - discriminate.
  - destruct (String.eqb k k') eqn:E.
    + injection H as ->. simpl. rewrite !columnSum_cons. simpl. by_columns.
    + simpl. rewrite !columnSum_cons, IH by assumption. by_columns.
Qed.

Lemma accumulate_sum m (byModel : list (string * TokenUsageRow)) :
  columnSum (stored (accumulate m byModel))
  = addTotals (columnSum (stored byModel)) (contribution m).
Proof.
  unfold accumulate.
  destruct (assoc (modelKey m) byModel) as [r|] eqn:E.
  - now apply mapSet_sum.
  - rewrite mapSet_keys_new by assumption.
    unfold stored. rewrite !map_app, columnSum_app. simpl.
    rewrite columnSum_cons, columnSum_nil. by_columns.
Qed.

Lemma loopBody_cases (st : LoopState) (m : value) :
  loopBody st m =
  if isAssistant m then
    match readString (get "id" m) with
    | Some id =>
        if setHas id (seenMessageIds st) then st
        else {| rowsByModel := accumulate m (rowsByModel st);
                seenMessageIds := id :: seenMessageIds st |}
    | None => {| rowsByModel := accumulate m (rowsByModel st);
                 seenMessageIds := seenMessageIds st |}
    end
  else st.
Proof.
  unfold loopBody, isAssistant.
  destruct (isRecord m); simpl; [|reflexivity].
  destruct (readString (get "role" m)) as [role|]; [|reflexivity].
  destruct (String.eqb role "assistant"); reflexivity.
Qed.

Lemma sameMessageId_no_id (m : value) (l : list value) :
  readString (get "id" m) = None -> existsb (sameMessageId m) l = false.
Proof.
  intros H. induction l as [|x r IH]; simpl; [reflexivity|].
  unfold sameMessageId at 1. now rewrite H.
Qed.

Lemma sameMessageId_with_id (m : value) (i : string) (l : list value) :
  readString (get "id" m) = Some i ->
  existsb (sameMessageId m) l = existsb (hasMessageId i) l.
Proof.
  intros H. induction l as [|x r IH]; simpl; [reflexivity|].
  unfold sameMessageId at 1. now rewrite H, IH.
Qed.






Lemma totals_are_row_sum (metas : list value) :
  totals (aggregateTokenUsage metas)
  = columnSum (map counters (rows (aggregateTokenUsage metas))).
Proof.
  unfold aggregateTokenUsage. simpl.
  now rewrite reduce_columnSum, addTotals_empty_l.
Qed.

Lemma rows_sum_stored (metas : list value) :
  columnSum (map counters (rows (aggregateTokenUsage metas)))
  = columnSum (stored (rowsByModel (fold_left loopBody metas initialState))).
Proof.
  unfold aggregateTokenUsage, stored. simpl.
  apply columnSum_perm, Permutation_map, sortBy_perm.
Qed.


(** *** The code against the words of the specification *)










(** *** The rows: one per model *)

Lemma mapSet_Forall {A : Type} (P : string * A -> Prop) k v (m : list (string * A)) :
  Forall P m -> P (k, v) -> Forall P (mapSet k v m).
Proof.
  intros Hm Hk. induction Hm as [|[k' v'] r Hx Hr IH]; simpl.
  - constructor; [assumption | constructor].
  - destruct (String.eqb k k'); constructor; assumption.
Qed.

Lemma accumulate_wellKeyed m (byModel : list (string * TokenUsageRow)) :
  wellKeyed byModel -> wellKeyed (accumulate m byModel).
Proof.
  intros [Hnd Hk]. unfold accumulate.
  destruct (assoc (modelKey m) byModel) as [r|] eqn:E.
  - split.
    + now rewrite (mapSet_keys_old _ _ r).
    + apply mapSet_Forall; [assumption|]. simpl.
      apply assoc_Some_in in E. rewrite Forall_forall in Hk. exact (Hk _ E).
  - rewrite mapSet_keys_new by assumption. split.
    + rewrite map_app. simpl.
      apply NoDup_rev in Hnd. rewrite <- (rev_involutive (map fst byModel ++ [modelKey m])).
      apply NoDup_rev. rewrite rev_app_distr. simpl. constructor; [|assumption].
      rewrite <- in_rev. now apply assoc_None_notin.
    + apply Forall_app. split; [assumption|]. constructor; [reflexivity | constructor].
Qed.

Lemma loopBody_wellKeyed (st : LoopState) (m : value) :
  wellKeyed (rowsByModel st) -> wellKeyed (rowsByModel (loopBody st m)).
Proof.
  intros H. rewrite loopBody_cases.
  destruct (isAssistant m); [|assumption].
  destruct (readString (get "id" m)) as [i|].
  - destruct (setHas i (seenMessageIds st)); [assumption|]. now apply accumulate_wellKeyed.
  - now apply accumulate_wellKeyed.
Qed.

Lemma loop_wellKeyed (l : list value) (st : LoopState) :
  wellKeyed (rowsByModel st) -> wellKeyed (rowsByModel (fold_left loopBody l st)).
Proof.
  revert st. induction l as [|m r IH]; intros st H; simpl; [assumption|].
  now apply IH, loopBody_wellKeyed.
Qed.

Lemma wellKeyed_initial : wellKeyed (rowsByModel initialState).
Proof. split; constructor. Qed.

Lemma wellKeyed_models (byModel : list (string * TokenUsageRow)) :
  wellKeyed byModel -> map model (map snd byModel) = map fst byModel.
Proof.
  intros [_ Hk]. induction Hk as [|kv r Hx _ IH]; simpl; [reflexivity|].
  now rewrite Hx, IH.
Qed.

Lemma find_by_model_iff (k : string) (l : list TokenUsageRow) (r : TokenUsageRow) :
  NoDup (map model l) ->
  find (fun x => String.eqb (model x) k) l = Some r <-> In r l /\ model r = k.
Proof.
  intros Hnd. split.
  - intros H. apply find_some in H. destruct H as [H1 H2].
    apply String.eqb_eq in H2. now split.
  - intros [Hin Hk]. induction l as [|x rest IH]; [contradiction|].
    simpl in Hnd. inversion Hnd as [|? ? Hx Hrest]; subst.
    simpl. destruct (String.eqb (model x) (model r)) eqn:E.
    + apply String.eqb_eq in E. destruct Hin as [->|Hin]; [reflexivity|].
      exfalso. apply Hx. rewrite E. now apply in_map.
    + destruct Hin as [->|Hin]; [now rewrite String.eqb_refl in E|].
      now apply IH.
Qed.

Lemma rowCounters_perm (k : string) (l l' : list TokenUsageRow) :
  NoDup (map model l) -> Permutation l l' -> rowCounters k l = rowCounters k l'.
Proof.
  intros Hnd Hp. unfold rowCounters.
  assert (Hnd' : NoDup (map model l')).
  { eapply Permutation_NoDup; [apply Permutation_map, Hp | assumption]. }
  destruct (find (fun x => String.eqb (model x) k) l) as [r|] eqn:E.
  - apply (find_by_model_iff k l r Hnd) in E. destruct E as [Hin Hk].
    assert (E' : find (fun x => String.eqb (model x) k) l' = Some r).
    { apply find_by_model_iff; [assumption|]. split; [|assumption].
      eapply Permutation_in; eassumption. }
    now rewrite E'.
  - destruct (find (fun x => String.eqb (model x) k) l') as [r'|] eqn:E'; [|reflexivity].
    apply (find_by_model_iff k l' r' Hnd') in E'. destruct E' as [Hin Hk].
    assert (E2 : find (fun x => String.eqb (model x) k) l = Some r').
    { apply find_by_model_iff; [assumption|]. split; [|assumption].
      eapply Permutation_in; [apply Permutation_sym|]; eassumption. }
    congruence.
Qed.

Lemma rowCounters_stored (k : string) (byModel : list (string * TokenUsageRow)) :
  wellKeyed byModel ->
  rowCounters k (map snd byModel)
  = match assoc k byModel with Some r => counters r | None => EMPTY_TOTALS end.
Proof.
  intros [_ Hk]. unfold rowCounters.
  induction Hk as [|[k' v] r Hx _ IH]; simpl; [reflexivity|].
  simpl in Hx. rewrite Hx, String.eqb_sym.
  destruct (String.eqb k k'); [reflexivity | exact IH].
Qed.

Lemma rowCounters_rows (k : string) (metas : list value) :
  rowCounters k (rows (aggregateTokenUsage metas))
  = match assoc k (rowsByModel (fold_left loopBody metas initialState)) with
    | Some r => counters r
    | None => EMPTY_TOTALS
    end.
Proof.
  pose proof (loop_wellKeyed metas initialState wellKeyed_initial) as Hw.
  rewrite <- rowCounters_stored by assumption.
  unfold aggregateTokenUsage. simpl rows. symmetry.
  apply rowCounters_perm.
  - rewrite wellKeyed_models by assumption. apply Hw.
  - apply Permutation_sym, sortBy_perm.
Qed.

(** *** Appending one message *)

Lemma loop_seen (l : list value) (i : string) :
  forall st : LoopState,
    setHas i (seenMessageIds (fold_left loopBody l st))
    = setHas i (seenMessageIds st) || existsb (hasMessageId i) (filter isAssistant l).
Proof.
  induction l as [|m r IH]; intros st; simpl.
  - now rewrite orb_false_r.
  - rewrite IH, loopBody_cases.
    destruct (isAssistant m) eqn:Hm; [|reflexivity].
    simpl existsb. unfold hasMessageId at 2.
    destruct (readString (get "id" m)) as [j|] eqn:Hid; [|reflexivity].
    destruct (setHas j (seenMessageIds st)) eqn:Hs.
    + destruct (String.eqb i j) eqn:E; [|reflexivity].
      apply String.eqb_eq in E. subst j. now rewrite Hs.
    + simpl. now rewrite orb_assoc, (orb_comm (String.eqb i j)).
Qed.

(** A message that is processed reaches [accumulate]. *)
Lemma loop_snoc_processed (metas : list value) (m : value) :
  isAssistant m = true ->
  existsb (sameMessageId m) (filter isAssistant metas) = false ->
  rowsByModel (fold_left loopBody (metas ++ [m]) initialState)
  = accumulate m (rowsByModel (fold_left loopBody metas initialState)).
Proof.
  intros Hm Hdup. rewrite fold_left_app. simpl. rewrite loopBody_cases, Hm.
  destruct (readString (get "id" m)) as [i|] eqn:Hid; [|reflexivity].
  rewrite (sameMessageId_with_id m i _ Hid) in Hdup.
  rewrite loop_seen, Hdup. reflexivity.
Qed.


Lemma aggregate_snoc_processed (metas : list value) (m : value) :
  isAssistant m = true ->
  existsb (sameMessageId m) (filter isAssistant metas) = false ->
  totals (aggregateTokenUsage (metas ++ [m]))
    = addTotals (totals (aggregateTokenUsage metas)) (contribution m)
  /\ rowCounters (modelKey m) (rows (aggregateTokenUsage (metas ++ [m])))
    = addTotals (rowCounters (modelKey m) (rows (aggregateTokenUsage metas))) (contribution m).
Proof.
  intros Hm Hdup. split.
  - rewrite !totals_are_row_sum, !rows_sum_stored.
    rewrite loop_snoc_processed by assumption. apply accumulate_sum.
  - rewrite !rowCounters_rows, loop_snoc_processed by assumption.
    unfold accumulate. rewrite assoc_mapSet_same. simpl.
    destruct (assoc (modelKey m) (rowsByModel (fold_left loopBody metas initialState)));
      reflexivity.
Qed.


(** C3 (as amended): for every assistant message that [aggregateTokenUsage]
    processes (it duplicates no earlier message), what the message adds to
    the total column, of the grand totals and of its model's row, is the sum
    of its five clamped counters input + output + reasoning + cacheRead +
    cacheWrite; a total embedded under [tokens.total] is not read. *)
Theorem message_total_is_sum_of_five_counters (metas : list value) (m : value) :
  isAssistant m = true ->
  existsb (sameMessageId m) (filter isAssistant metas) = false ->
  total (totals (aggregateTokenUsage (metas ++ [m])))
    = total (totals (aggregateTokenUsage metas)) + sumOfFive (contribution m)
  /\ total (rowCounters (modelKey m) (rows (aggregateTokenUsage (metas ++ [m]))))
    = total (rowCounters (modelKey m) (rows (aggregateTokenUsage metas)))
      + sumOfFive (contribution m).
Proof.
  intros Hm Hdup.
  destruct (aggregate_snoc_processed metas m Hm Hdup) as [Ht Hr].
  rewrite Ht, Hr. split; reflexivity.
Qed.





End Facts.

(** *** Examples and instances *)

Example aggregate_dedupes_by_message_id :
  input (totals (@aggregateTokenUsage exampleRuntime exampleIngest
    [assistantMeta (VStr "msg_1")
       (tokensOf (VNum (Fin 3)) (VNum (Fin 0)) (VNum (Fin 0)) (VNum (Fin 0)) (VNum (Fin 0)));
     assistantMeta (VStr "msg_1")
       (tokensOf (VNum (Fin 9)) (VNum (Fin 0)) (VNum (Fin 0)) (VNum (Fin 0)) (VNum (Fin 0)))]))
  = 3.
Proof. reflexivity. Qed.

Example aggregate_clamps_invalid_tokens :
  rows (@aggregateTokenUsage exampleRuntime exampleIngest
    [assistantMeta (VStr "msg_1")
       (tokensOf (VNum (Fin (-5))) (VStr "7") (VNum NaN) (VNum (Fin (-1))) (VNum (Fin 3)))])
  = [ {| model := "openai/gpt-5.2";
         counters := {| input := 0; output := 0; reasoning := 0;
                        cacheRead := 0; cacheWrite := 3; total := 3 |} |} ].
Proof. reflexivity. Qed.

(** C3, counterexample: a message whose tokens carry a well-formed total
    of 100 beside counters that sum to 1 contributes 1, not 100. *)
Lemma embedded_total_is_not_read :
  embeddedTotal metaWithEmbeddedTotal = Some 100
  /\ specifiedTotal metaWithEmbeddedTotal = 100
  /\ total (contribution metaWithEmbeddedTotal) = 1
  /\ total (totals (@aggregateTokenUsage exampleRuntime exampleIngest [metaWithEmbeddedTotal]))
     = 1.
Proof. repeat split; reflexivity. Qed.

Lemma message_total_is_sum_of_five_counters_witness :
  total (totals (@aggregateTokenUsage exampleRuntime exampleIngest ([] ++ [metaWithEmbeddedTotal])))
    = total (totals (@aggregateTokenUsage exampleRuntime exampleIngest []))
      + sumOfFive (contribution metaWithEmbeddedTotal)
  /\ total (rowCounters (@modelKey exampleIngest metaWithEmbeddedTotal)
       (rows (@aggregateTokenUsage exampleRuntime exampleIngest ([] ++ [metaWithEmbeddedTotal]))))
    = total (rowCounters (@modelKey exampleIngest metaWithEmbeddedTotal)
        (rows (@aggregateTokenUsage exampleRuntime exampleIngest [])))
      + sumOfFive (contribution metaWithEmbeddedTotal).
Proof.
  apply (@message_total_is_sum_of_five_counters exampleRuntime exampleIngest
           [] metaWithEmbeddedTotal); reflexivity.
Defined.



Example independent_sum_of_three_metas :
  map TokenUsageRef.messageId (TokenUsageRef.counted TokenUsageShapes.threeMetas)
  = [Some "msg_1"; Some "msg_2"; Some "msg_3"]
  /\ TokenUsageRef.messageSum TokenUsageRef.inputOf
       (TokenUsageRef.counted TokenUsageShapes.threeMetas) = 13
  /\ input (totals (@aggregateTokenUsage exampleRuntime exampleIngest
                      TokenUsageShapes.threeMetas)) = 13.
Proof. repeat split; reflexivity. Qed.

Example blank_id_twice_doubles :
  totals (@aggregateTokenUsage exampleRuntime exampleIngest [metaWithBlankId; metaWithBlankId])
  = {| input := 8; output := 4; reasoning := 0; cacheRead := 2; cacheWrite := 0; total := 14 |}.
Proof. reflexivity. Qed.

End TokenUsageFacts.

Module BackgroundTasksFacts.
Import Js BackgroundTasks JsFacts.

(** *** The reader of recent messages *)

Lemma StronglySorted_weaken {A : Type} (R R' : A -> A -> Prop) (l : list A) :
  (forall a b, R a b -> R' a b) -> StronglySorted R l -> StronglySorted R' l.
Proof.
  intros HR. induction 1 as [|x r Hr IH Hx]; constructor; [exact IH|].
  rewrite Forall_forall in Hx |- *. intros y Hy. apply HR. now apply Hx.
Qed.

Lemma filter_map_comm {A B : Type} (f : A -> B) (p : B -> bool) (l : list A) :
  filter p (map f l) = map f (filter (fun x => p (f x)) l).
Proof.
  induction l as [|x r IH]; simpl; [reflexivity|].
  destruct (p (f x)); simpl; now rewrite IH.
Qed.

Lemma hasStringId_iff (v : value) :
  hasStringId v = true <-> exists s, get "id" v = VStr s.
Proof.
  unfold hasStringId. split.
  - intros H. apply andb_true_iff in H. destruct H as [_ H].
    destruct (get "id" v); try discriminate. eauto.
  - intros [s Hs]. rewrite Hs. destruct v; simpl in Hs; try discriminate. reflexivity.
Qed.

Lemma listJsonFiles_In (dir : string) (fsLike : FsLike) (f : string) :
  In f (listJsonFiles dir fsLike) <->
  (exists names, readdirSync fsLike dir = Some names /\ In f names)
  /\ endsWith f ".json" = true.
Proof.
  unfold listJsonFiles. destruct (readdirSync fsLike dir) as [names|].
  - rewrite filter_In. split.
    + intros [H1 H2]. split; [eauto | assumption].
    + intros [(names' & E & H1) H2]. injection E as <-. now split.
  - split; [contradiction|]. intros [(names & E & _) _]. discriminate.
Qed.

Lemma recentMessageFiles_length (dir : string) (cap : nat) (fsLike : FsLike) :
  (List.length (recentMessageFiles dir cap fsLike) <= cap)%nat.
Proof. unfold recentMessageFiles. apply firstn_le_length. Qed.

Lemma StronglySorted_map {A B : Type} (R : B -> B -> Prop) (f : A -> B) (l : list A) :
  StronglySorted (fun a b => R (f a) (f b)) l -> StronglySorted R (map f l).
Proof.
  induction 1 as [|x r Hr IH Hx]; simpl; constructor; [exact IH|].
  rewrite Forall_forall in Hx. apply Forall_forall. intros y Hy.
  apply in_map_iff in Hy. destruct Hy as (z & <- & Hz). now apply Hx.
Qed.

Lemma sorted_by_recorded_time (g : string -> Z) (l : list (string * Z)) :
  StronglySorted (fun a b : string * Z => snd b <= snd a) l ->
  Forall (fun item => snd item = g (fst item)) l ->
  StronglySorted (fun a b : string * Z => g (fst b) <= g (fst a)) l.
Proof.
  induction 1 as [|x r Hr IH Hx]; intros Hm; constructor.
  - apply IH. now inversion Hm.
  - inversion Hm as [|? ? Hmx Hmr]; subst.
    rewrite Forall_forall in Hx, Hmr. apply Forall_forall. intros y Hy.
    rewrite <- Hmx, <- (Hmr y Hy). now apply Hx.
Qed.

(** The files the reader considers, by name: a permutation of the JSON
    files of the listing, newest first. *)
Lemma sorted_names (dir : string) (fsLike : FsLike) :
  let byTime :=
    map fst
      (sortBy (fun a b : string * Z => snd b - snd a)
         (map (fun f => (f, mtimeOrZero dir fsLike f)) (listJsonFiles dir fsLike))) in
  Permutation byTime (listJsonFiles dir fsLike)
  /\ RecentReaderRef.newestFirst dir fsLike byTime.
Proof.
  cbv zeta.
  set (items := map (fun f => (f, mtimeOrZero dir fsLike f)) (listJsonFiles dir fsLike)).
  pose proof (sortBy_perm (fun a b : string * Z => snd b - snd a) items) as Hp.
  split.
  - rewrite (Permutation_map fst Hp). unfold items. rewrite map_map. simpl.
    now rewrite map_id.
  - unfold RecentReaderRef.newestFirst. apply StronglySorted_map.
    assert (Hs : StronglySorted (fun a b : string * Z => snd b <= snd a)
                   (sortBy (fun a b : string * Z => snd b - snd a) items)).
    { apply (StronglySorted_weaken (before (fun a b : string * Z => snd b - snd a))).
      - unfold before. intros a b. lia.
      - apply sortBy_sorted; intros; lia. }
    assert (Hm : Forall (fun item => snd item = mtimeOrZero dir fsLike (fst item))
                   (sortBy (fun a b : string * Z => snd b - snd a) items)).
    { apply (Permutation_Forall (Permutation_sym Hp)). unfold items.
      apply Forall_forall. intros item Hin. apply in_map_iff in Hin.
      now destruct Hin as (f & <- & _). }
    exact (sorted_by_recorded_time _ _ Hs Hm).
Qed.

(** Reading the files in turn and keeping the documents that have a
    string id is what the specification words as skipping the files that
    fail to parse or lack one. *)
Lemma kept_documents (dir : string) (fsLike : FsLike) (items : list (string * Z)) :
  filter hasStringId (map (fun item => readJsonFile (pathJoin dir (fst item)) fsLike) items)
  = RecentReaderRef.documentsWithId dir fsLike (map fst items).
Proof.
  induction items as [|[f t] rest IH]; [reflexivity|].
  cbn [map fst filter RecentReaderRef.documentsWithId]. rewrite IH.
  unfold readJsonFile.
  destruct (readFileSync fsLike (pathJoin dir f)) as [[|v]|]; try reflexivity.
  destruct (hasStringId v) eqn:E.
  - apply hasStringId_iff in E. destruct E as [i Hi]. now rewrite Hi.
  - destruct (get "id" v) eqn:Hid; try reflexivity.
    assert (H : hasStringId v = true) by (apply hasStringId_iff; eauto). congruence.
Qed.

Lemma documentsWithId_length (dir : string) (fsLike : FsLike) (files : list string) :
  (List.length (RecentReaderRef.documentsWithId dir fsLike files) <= List.length files)%nat.
Proof.
  induction files as [|f rest IH]; simpl; [lia|].
  destruct (readFileSync fsLike (pathJoin dir f)) as [[|v]|]; try lia.
  destruct (get "id" v); simpl; lia.
Qed.

(** C8: the reader of recent messages is a total function of the state of
    the directory (an error of [readdirSync], [statSync], [readFileSync] or
    [JSON.parse] never escapes it).  It returns the empty list for a missing
    or unreadable directory.  For a directory that lists [names], it takes
    the names that end in ".json" in the order of their modification times,
    newest first (a time that cannot be read counts as 0), keeps the first
    [maxMessages] of them, and returns the documents of these files in that
    order, skipping the files that cannot be read, do not parse or hold no
    string id.  So it returns at most [maxMessages] documents, each with a
    string id. *)
Theorem recent_message_reader_contract
    (messageDir : string) (maxMessages : nat) (fsLike : FsLike) :
  let result := readRecentMessageMetas messageDir maxMessages fsLike in
  (messageDir = "" -> result = [])
  /\ (existsSync fsLike messageDir = false -> result = [])
  /\ (readdirSync fsLike messageDir = None -> result = [])
  /\ (forall names,
        messageDir <> "" ->
        existsSync fsLike messageDir = true ->
        readdirSync fsLike messageDir = Some names ->
        exists byTime,
          Permutation byTime (RecentReaderRef.jsonNames names)
          /\ RecentReaderRef.newestFirst messageDir fsLike byTime
          /\ result
             = RecentReaderRef.documentsWithId messageDir fsLike (firstn maxMessages byTime))
  /\ (List.length result <= maxMessages)%nat
  /\ Forall (fun m => exists s, get "id" m = VStr s) result.
Proof.
  cbv zeta.
  assert (Hshape : forall names,
            messageDir <> "" ->
            existsSync fsLike messageDir = true ->
            readdirSync fsLike messageDir = Some names ->
            exists byTime,
              Permutation byTime (RecentReaderRef.jsonNames names)
              /\ RecentReaderRef.newestFirst messageDir fsLike byTime
              /\ readRecentMessageMetas messageDir maxMessages fsLike
                 = RecentReaderRef.documentsWithId messageDir fsLike
                     (firstn maxMessages byTime)).
  { intros names Hne Hex Hdir.
    destruct (sorted_names messageDir fsLike) as [Hp Hs].
    assert (Hl : listJsonFiles messageDir fsLike = RecentReaderRef.jsonNames names).
    { unfold listJsonFiles. now rewrite Hdir. }
    eexists. split; [|split; [exact Hs|]].
    - rewrite <- Hl. exact Hp.
    - unfold readRecentMessageMetas. apply String.eqb_neq in Hne. rewrite Hne, Hex. simpl.
      rewrite kept_documents. unfold recentMessageFiles. now rewrite firstn_map. }
  split; [|split; [|split; [|split; [exact Hshape|split]]]].
  - intros ->. reflexivity.
  - intros H. unfold readRecentMessageMetas. rewrite H. simpl.
    now rewrite orb_true_r.
  - intros H. unfold readRecentMessageMetas, recentMessageFiles, listJsonFiles.
    rewrite H. simpl. rewrite firstn_nil. simpl.
    now destruct (String.eqb messageDir "" || negb (existsSync fsLike messageDir)).
  - unfold readRecentMessageMetas.
    destruct (String.eqb messageDir "" || negb (existsSync fsLike messageDir));
      [simpl; lia|].
    rewrite kept_documents.
    eapply Nat.le_trans; [apply documentsWithId_length|].
    rewrite length_map. apply recentMessageFiles_length.
  - unfold readRecentMessageMetas.
    destruct (String.eqb messageDir "" || negb (existsSync fsLike messageDir)).
    + constructor.
    + apply Forall_forall. intros m Hm. apply filter_In in Hm.
      now apply hasStringId_iff.
Qed.

Example reader_skips_bad_files :
  map idOf (readRecentMessageMetas "d" 200 (fsOf diskMessy)) = ["new"; "old"]
  /\ recentMessageFiles "d" 3 (fsOf diskMessy)
     = [("bad.json", 50); ("noid.json", 40); ("numid.json", 35)]
  /\ readRecentMessageMetas "d" 3 (fsOf diskMessy) = []
  /\ readRecentMessageMetas "nowhere" 200 (fsOf diskMessy) = [].
Proof. repeat split; reflexivity. Qed.

(** *** Correlation of a delegation with its child session *)

Lemma stringField_iff (k : string) (m : value) (expected : string) :
  stringField k m expected = true <-> get k m = VStr expected.
Proof.
  unfold stringField. destruct (get k m); split; intros H; try discriminate.
  - apply String.eqb_eq in H. now subst.
  - injection H as ->. apply String.eqb_refl.
Qed.

Lemma inWindow_iff (m : value) (lo hi : Z) :
  inWindow m lo hi = true <-> exists c, createdOf m = Some c /\ lo <= c <= hi.
Proof.
  unfold inWindow. destruct (createdOf m) as [c|]; split.
  - intros H. apply andb_true_iff in H. exists c. split; [reflexivity|lia].
  - intros (c' & E & H). injection E as <-. apply andb_true_iff. lia.
  - discriminate.
  - intros (c' & E & _). discriminate.
Qed.

Section CorrelateFacts.
Context {rt : Runtime} {ing : Ingest}.

Lemma candidatesFor_In (title : string) (metas : list value) (parent : string)
    (startedAt : Z) (m : value) :
  In m (candidatesFor title metas parent startedAt)
  <-> In m metas /\ isCandidate parent title startedAt m.
Proof.
  unfold candidatesFor, isCandidate. rewrite filter_In, !andb_true_iff.
  rewrite !stringField_iff, inWindow_iff. tauto.
Qed.

Lemma compareCandidates_total :
  collates rt -> forall a b, compareCandidates a b <= 0 \/ compareCandidates b a <= 0.
Proof.
  intros [Ht _] a b. unfold compareCandidates.
  destruct (createdOrZero a =? createdOrZero b) eqn:E.
  - apply Z.eqb_eq in E. rewrite E, Z.eqb_refl. simpl. apply Ht.
  - rewrite Z.eqb_sym, E. simpl. lia.
Qed.

Lemma compareCandidates_trans :
  collates rt -> forall a b c,
    compareCandidates a b <= 0 -> compareCandidates b c <= 0 -> compareCandidates a c <= 0.
Proof.
  intros [_ Htr] a b c. unfold compareCandidates.
  destruct (createdOrZero a =? createdOrZero b) eqn:E1;
    destruct (createdOrZero b =? createdOrZero c) eqn:E2;
    destruct (createdOrZero a =? createdOrZero c) eqn:E3; simpl;
    rewrite ?Z.eqb_eq, ?Z.eqb_neq in *; try lia.
  apply Htr.
Qed.

Lemma compareCandidates_le (a b : value) :
  compareCandidates a b <= 0 ->
  createdOrZero b <= createdOrZero a
  /\ (createdOrZero b = createdOrZero a -> localeCompare (idOf a) (idOf b) <= 0).
Proof.
  unfold compareCandidates.
  destruct (createdOrZero a =? createdOrZero b) eqn:E; simpl;
    rewrite ?Z.eqb_eq, ?Z.eqb_neq in *; intros H; split; intros; try lia; assumption.
Qed.

(** The candidate that the sort puts first: the newest one and, among the
    newest, one whose id no other id precedes. *)
Lemma first_candidate (title : string) (metas : list value) (parent : string)
    (startedAt : Z) :
  collates rt ->
  (exists m, In m metas /\ isCandidate parent title startedAt m) ->
  exists c,
    In c metas /\ isCandidate parent title startedAt c
    /\ firstId (sortBy compareCandidates (candidatesFor title metas parent startedAt))
       = firstId [c]
    /\ (forall c', In c' metas -> isCandidate parent title startedAt c' ->
          createdOrZero c' <= createdOrZero c)
    /\ (forall c', In c' metas -> isCandidate parent title startedAt c' ->
          createdOrZero c' = createdOrZero c ->
          localeCompare (idOf c) (idOf c') <= 0).
Proof.
  intros Hc (m & Hm & Hcand).
  destruct (sortBy compareCandidates (candidatesFor title metas parent startedAt))
    as [|c rest] eqn:E.
  - apply sortBy_nil_iff in E.
    assert (Hin : In m (candidatesFor title metas parent startedAt)).
    { apply candidatesFor_In. now split. }
    rewrite E in Hin. contradiction.
  - destruct (sortBy_head compareCandidates (compareCandidates_total Hc)
                (compareCandidates_trans Hc) _ _ _ E) as [Hin Hmin].
    apply candidatesFor_In in Hin. destruct Hin as [Hin Hcc].
    exists c. split; [assumption|]. split; [assumption|]. split; [reflexivity|].
    split.
    + intros c' Hin' Hc'. apply (compareCandidates_le c c').
      apply Hmin, candidatesFor_In. now split.
    + intros c' Hin' Hc' Heq.
      apply (compareCandidates_le c c'); [|assumption].
      apply Hmin, candidatesFor_In. now split.
Qed.

(** C4 (as amended): for a background-mode delegation, when one or more
    sessions satisfy the conditions on the parent, the title
    "Background: " + description and the creation time in
    [startedAt, startedAt + 60000], the correlator selects a candidate with
    the maximum creation time and, among the candidates created at that
    time, the one whose id comes first in the order of [localeCompare]. *)
Theorem background_session_is_newest_then_first_id
    (allSessionMetas : list value) (parentSessionId description : string) (startedAt : Z) :
  collates rt ->
  (exists m, In m allSessionMetas
             /\ isCandidate parentSessionId ("Background: " ++ description) startedAt m) ->
  exists c,
    In c allSessionMetas
    /\ isCandidate parentSessionId ("Background: " ++ description) startedAt c
    /\ findBackgroundSessionId allSessionMetas parentSessionId description startedAt
       = firstId [c]
    /\ (forall c', In c' allSessionMetas ->
          isCandidate parentSessionId ("Background: " ++ description) startedAt c' ->
          createdOrZero c' <= createdOrZero c)
    /\ (forall c', In c' allSessionMetas ->
          isCandidate parentSessionId ("Background: " ++ description) startedAt c' ->
          createdOrZero c' = createdOrZero c ->
          localeCompare (idOf c) (idOf c') <= 0).
Proof.
  intros Hc Hex. unfold findBackgroundSessionId. now apply first_candidate.
Qed.

Lemma no_candidate_no_session
    (allSessionMetas : list value) (parentSessionId description : string) (startedAt : Z) :
  (forall m, In m allSessionMetas ->
             ~ isCandidate parentSessionId ("Background: " ++ description) startedAt m) ->
  findBackgroundSessionId allSessionMetas parentSessionId description startedAt = None.
Proof.
  intros H. unfold findBackgroundSessionId.
  destruct (candidatesFor _ allSessionMetas parentSessionId startedAt) as [|c r] eqn:E.
  - reflexivity.
  - exfalso. assert (Hin : In c (c :: r)) by now left.
    rewrite <- E in Hin. apply candidatesFor_In in Hin. destruct Hin as [Hin Hc].
    exact (H c Hin Hc).
Qed.

End CorrelateFacts.

Lemma exampleRuntime_collates : collates exampleRuntime.
Proof.
  split; simpl.
  - apply codeUnitCompare_total.
  - apply codeUnitCompare_trans.
Qed.

(** C4, counterexample: two candidates with the same creation time and
    ids "ses_zzz" and "ses_aaa"; the correlator selects "ses_aaa", which
    is the smaller of the two ids. *)
Lemma tie_selects_the_smaller_id :
  candidatesFor "Background: Tie-break test" tiedSessions "ses_main" 1000 = tiedSessions
  /\ map createdOf tiedSessions = [Some 1500; Some 1500]
  /\ map idOf tiedSessions = ["ses_zzz"; "ses_aaa"]
  /\ @findBackgroundSessionId exampleRuntime tiedSessions "ses_main" "Tie-break test" 1000
     = Some "ses_aaa"
  /\ @localeCompare exampleRuntime "ses_aaa" "ses_zzz" = -1.
Proof. repeat split; reflexivity. Qed.

Lemma tiedSessions_candidate :
  isCandidate "ses_main" ("Background: " ++ "Tie-break test") 1000
    (sessionDoc "ses_zzz" "ses_main" "Background: Tie-break test" 1500).
Proof.
  repeat split. exists 1500. split; [reflexivity | lia].
Qed.

Lemma background_session_is_newest_then_first_id_witness :
  exists c,
    In c tiedSessions
    /\ isCandidate "ses_main" ("Background: " ++ "Tie-break test") 1000 c
    /\ @findBackgroundSessionId exampleRuntime tiedSessions "ses_main" "Tie-break test" 1000
       = @firstId [c]
    /\ (forall c', In c' tiedSessions ->
          isCandidate "ses_main" ("Background: " ++ "Tie-break test") 1000 c' ->
          createdOrZero c' <= createdOrZero c)
    /\ (forall c', In c' tiedSessions ->
          isCandidate "ses_main" ("Background: " ++ "Tie-break test") 1000 c' ->
          createdOrZero c' = createdOrZero c ->
          @localeCompare exampleRuntime (idOf c) (idOf c') <= 0).
Proof.
  apply (@background_session_is_newest_then_first_id exampleRuntime
           tiedSessions "ses_main" "Tie-break test" 1000 exampleRuntime_collates).
  exists (sessionDoc "ses_zzz" "ses_main" "Background: Tie-break test" 1500).
  split; [simpl; auto | exact tiedSessions_candidate].
Defined.

(** *** The rows of [deriveBackgroundTasks] *)

Lemma recentlyActive_iff (stats : SessionStats) (nowMs : Z) :
  recentlyActive stats nowMs = true <-> activeWithin15s stats nowMs.
Proof.
  unfold recentlyActive, activeWithin15s. destruct (lastUpdateAt stats) as [t|]; split.
  - intros H. apply andb_true_iff in H. destruct H as [H1 H2].
    apply negb_true_iff, Z.eqb_neq in H1. apply Z.leb_le in H2. eauto.
  - intros (t' & E & H1 & H2). injection E as <-. apply andb_true_iff. split.
    + now apply negb_true_iff, Z.eqb_neq.
    + now apply Z.leb_le.
  - discriminate.
  - intros (t' & E & _). discriminate.
Qed.

Lemma formatTimeline_not_empty (startedAt endAtMs : Z) (t : string) :
  formatTimeline (Some startedAt) endAtMs = Some t -> t <> "".
Proof.
  unfold formatTimeline. destruct (formatIsoNoMs startedAt) as [start|]; [|discriminate].
  intros H. injection H as <-. destruct start; discriminate.
Qed.

Section RowFacts.
Context {rt : Runtime} {ing : Ingest}.
Variable storage : OpenCodeStorageRoots.
Variable mainSessionId : string.
Variable nowMs : Z.
Variable fsLike : FsLike.

Lemma statusOf_unlinked (sid : option string) (s1 s2 : SessionStats) :
  linked sid = false -> statusOf sid s1 nowMs = statusOf sid s2 nowMs.
Proof. intros H. unfold statusOf. now rewrite H. Qed.

Lemma makeRow_invariant (part : value) (description agent : string) (startedAt : Z)
    (sid : option string) (row : BackgroundTaskRow) :
  makeRow storage nowMs fsLike part description agent startedAt sid = Some row ->
  rowInvariant storage nowMs fsLike row.
Proof.
  unfold makeRow, rowInvariant, rowStats.
  set (stats := if linked sid then _ else _).
  set (st := statusOf sid stats nowMs).
  set (tl := if isUnknown st then Some "" else _).
  intros H. destruct tl as [t|] eqn:Et; [|discriminate].
  injection H as <-. simpl.
  assert (Hst : st = statusOf sid
                  (readBackgroundStats storage fsLike
                     match sid with Some s0 => s0 | None => "" end) nowMs).
  { unfold st, stats. destruct (linked sid) eqn:L; [reflexivity|].
    now apply statusOf_unlinked. }
  split; [exact Hst|]. split.
  - unfold tl in Et. destruct (isUnknown st) eqn:U.
    + injection Et as <-. split; [|reflexivity]. intros _. now destruct st.
    + apply formatTimeline_not_empty in Et. split; [contradiction|].
      intros E. rewrite E in U. discriminate.
  - unfold stats. now destruct (linked sid).
Qed.

Lemma partBody_cases (allSessionMetas : list value) (startedAt : Z)
    (rows rows' : list BackgroundTaskRow) (part : value) :
  partBody storage mainSessionId nowMs fsLike allSessionMetas startedAt rows part = Some rows' ->
  rows' = rows
  \/ exists description agent sid row,
       makeRow storage nowMs fsLike part description agent startedAt sid = Some row
       /\ rows' = rows ++ [row].
Proof.
  unfold partBody. intros H.
  repeat match type of H with
         | (if ?c then _ else _) = _ => destruct c eqn:?
         | match ?x with _ => _ end = _ => destruct x eqn:?
         end;
    try discriminate;
    injection H as <-;
    first [ left; reflexivity
          | right; do 4 eexists; split; [eassumption | reflexivity] ].
Qed.

Lemma scanParts_steps (allSessionMetas : list value) (startedAt : Z) (parts : list value) :
  forall rows out,
    scanParts storage mainSessionId nowMs fsLike allSessionMetas startedAt parts rows = Some out ->
    exists added,
      out = rows ++ added
      /\ (List.length added <= List.length parts)%nat
      /\ Forall (rowInvariant storage nowMs fsLike) added.
Proof.
  induction parts as [|p rest IH]; intros rows out H; simpl in H.
  - injection H as <-. exists []. rewrite app_nil_r. repeat split; [simpl; lia | constructor].
  - destruct (partBody storage mainSessionId nowMs fsLike allSessionMetas startedAt rows p)
      as [rows'|] eqn:E; [|discriminate].
    destruct (IH _ _ H) as (added & -> & Hlen & Hinv).
    apply partBody_cases in E. destruct E as [->|(d & a & sid & row & Hrow & ->)].
    + exists added. repeat split; [simpl; lia | assumption].
    + exists (row :: added). rewrite <- app_assoc. repeat split; [simpl; lia|].
      constructor; [|assumption]. eapply makeRow_invariant; eassumption.
Qed.

(** The scan stops at the first message after which 50 rows or more are
    there: with at most [k] tool parts in a message, at most 49 + k rows. *)
Lemma scanMessages_steps (allSessionMetas : list value) (k : nat) (ordered : list value) :
  Forall (fun meta =>
            (List.length (readToolPartsForMessage storage (idOf meta) fsLike) <= k)%nat)
         ordered ->
  forall rows out,
    (List.length rows < 50)%nat ->
    Forall (rowInvariant storage nowMs fsLike) rows ->
    scanMessages storage mainSessionId nowMs fsLike allSessionMetas ordered rows = Some out ->
    (List.length out <= 49 + k)%nat /\ Forall (rowInvariant storage nowMs fsLike) out.
Proof.
  induction 1 as [|meta rest Hk _ IH]; intros rows out Hlt Hinv H; cbn [scanMessages] in H.
  - injection H as <-. split; [lia | assumption].
  - destruct (createdOf meta) as [startedAt|]; [|now apply (IH rows)].
    destruct (scanParts storage mainSessionId nowMs fsLike allSessionMetas startedAt
                (readToolPartsForMessage storage (idOf meta) fsLike) rows)
      as [rows'|] eqn:E; [|discriminate].
    apply scanParts_steps in E. destruct E as (added & -> & Hlen & Hadd).
    assert (Hall : Forall (rowInvariant storage nowMs fsLike) (rows ++ added)).
    { apply Forall_app. now split. }
    destruct (50 <=? List.length (rows ++ added))%nat eqn:E50.
    + injection H as <-. split; [|assumption]. rewrite length_app. lia.
    + apply Nat.leb_gt in E50. now apply (IH (rows ++ added)).
Qed.

Lemma deriveBackgroundTasks_rows (rows : list BackgroundTaskRow) :
  deriveBackgroundTasks storage mainSessionId nowMs fsLike = Some rows ->
  Forall (rowInvariant storage nowMs fsLike) rows.
Proof.
  unfold deriveBackgroundTasks. intros H.
  set (ordered := sortBy _ _) in H.
  set (k := fold_right Nat.max 0%nat
              (map (fun meta => List.length (readToolPartsForMessage storage (idOf meta) fsLike))
                 ordered)).
  assert (Hk : Forall (fun meta =>
             (List.length (readToolPartsForMessage storage (idOf meta) fsLike) <= k)%nat)
             ordered).
  { unfold k. clear H. induction ordered as [|m r IH]; constructor.
    - simpl. lia.
    - eapply Forall_impl; [|exact IH]. simpl. intros a Ha. lia. }
  apply (scanMessages_steps _ k ordered Hk [] rows) in H.
  - apply H.
  - simpl. lia.
  - constructor.
Qed.

Lemma deriveBackgroundTasks_bound (k : nat) (rows : list BackgroundTaskRow) :
  (forall messageID,
     (List.length (readToolPartsForMessage storage messageID fsLike) <= k)%nat) ->
  deriveBackgroundTasks storage mainSessionId nowMs fsLike = Some rows ->
  (List.length rows <= 49 + k)%nat.
Proof.
  intros Hk H. unfold deriveBackgroundTasks in H.
  eapply scanMessages_steps with (rows := []) (out := rows); [| | |exact H].
  - apply Forall_forall. intros meta _. apply Hk.
  - simpl. lia.
  - constructor.
Qed.

(** C6 (as amended): for every row of [deriveBackgroundTasks], the status
    is "queued" exactly when no child session was linked; "running" exactly
    when a session was linked, its last activity has a time stamp other than
    zero and [nowMs] is at most 15000 ms past it; "completed" exactly when a
    session was linked, it is not running in that sense and it has at least
    one tool call; "unknown" otherwise; and the timeline is empty exactly
    when the status is "unknown". *)
Theorem delegation_row_status (rows : list BackgroundTaskRow) (row : BackgroundTaskRow) :
  deriveBackgroundTasks storage mainSessionId nowMs fsLike = Some rows ->
  In row rows ->
  (status row = queued <-> linked (sessionId row) = false)
  /\ (status row = running <->
       linked (sessionId row) = true
       /\ activeWithin15s (rowStats storage fsLike row) nowMs)
  /\ (status row = completed <->
       linked (sessionId row) = true
       /\ ~ activeWithin15s (rowStats storage fsLike row) nowMs
       /\ 0 < statsToolCalls (rowStats storage fsLike row))
  /\ (status row = unknown <->
       linked (sessionId row) = true
       /\ ~ activeWithin15s (rowStats storage fsLike row) nowMs
       /\ statsToolCalls (rowStats storage fsLike row) <= 0)
  /\ (timeline row = "" <-> status row = unknown).
Proof.
  intros H Hin. apply deriveBackgroundTasks_rows in H.
  rewrite Forall_forall in H. destruct (H row Hin) as (Hst & Htl & _).
  pose proof (recentlyActive_iff (rowStats storage fsLike row) nowMs) as Hra.
  split; [|split; [|split; [|split; [|exact Htl]]]];
    rewrite Hst; unfold statusOf;
    destruct (linked (sessionId row));
    destruct (recentlyActive (rowStats storage fsLike row) nowMs);
    destruct (0 <? statsToolCalls (rowStats storage fsLike row)) eqn:E;
    rewrite ?Z.ltb_lt, ?Z.ltb_ge in E; simpl;
    intuition (try discriminate; try congruence; try lia).
Qed.

End RowFacts.

Example scan_repo_scenario :
  @deriveBackgroundTasks exampleRuntime exampleIngest exampleStorage "ses_main" 3000
    (fsOf diskScanRepo)
  = Some [scanRepoRow]
  /\ option_map (map (fun r => (status r, timeline r)))
       (@deriveBackgroundTasks exampleRuntime exampleIngest exampleStorage "ses_main" 20000
          (fsOf diskScanRepo))
     = Some [(completed, "1970-01-01T00:00:01Z: 1s")].
Proof. split; vm_compute; reflexivity. Qed.

Example unlinked_sync_task_is_queued :
  option_map
    (map (fun r => (description r, agent r, sessionId r, toolCalls r, lastTool r, status r)))
    (@deriveBackgroundTasks exampleRuntime exampleIngest exampleStorage "ses_main" 3000
       (fsOf diskUnlinked))
  = Some [("Quick analysis", "sisyphus-junior (quick)", None, None, None, queued)].
Proof. vm_compute. reflexivity. Qed.

Example fallback_task_session_is_unknown :
  option_map (map (fun r => (sessionId r, toolCalls r, status r, timeline r)))
    (@deriveBackgroundTasks exampleRuntime exampleIngest exampleStorage "ses_main"
       1767225600000 (fsOf diskFallback))
  = Some [(Some "ses_task", Some 0, unknown, "")].
Proof. vm_compute. reflexivity. Qed.

(** C5, the failing input: a main session whose one message holds 51
    [delegate_task] parts gives 51 rows; the test [rows.length >= 50] is
    made once a message is finished, not after each part. *)
Theorem fifty_one_parts_give_fifty_one_rows :
  List.length (readToolPartsForMessage exampleStorage "msg_1" (fsOf (diskManyParts 51)))
  = 51%nat
  /\ option_map (@List.length BackgroundTaskRow)
       (@deriveBackgroundTasks exampleRuntime exampleIngest exampleStorage "ses_main" 3000
          (fsOf (diskManyParts 51)))
     = Some 51%nat.
Proof. split; vm_compute; reflexivity. Qed.

(** C6, counterexample: a linked session whose last activity is at time
    stamp 0, read at [nowMs] = 1000: the activity is within 15000 ms of
    [nowMs], and the status is "completed", not "running". *)
Lemma epoch_activity_is_not_running :
  option_map (map (fun r => (sessionId r, status r, timeline r)))
    (@deriveBackgroundTasks exampleRuntime exampleIngest exampleStorage "ses_main" 1000
       (fsOf diskEpoch))
  = Some [(Some "ses_child", completed, "1970-01-01T00:00:00Z: 0s")]
  /\ lastUpdateAt
       (@readBackgroundStats exampleRuntime exampleIngest exampleStorage (fsOf diskEpoch)
          "ses_child")
     = Some 0
  /\ within15s
       (@readBackgroundStats exampleRuntime exampleIngest exampleStorage (fsOf diskEpoch)
          "ses_child")
       1000.
Proof.
  split; [vm_compute; reflexivity|]. split; [vm_compute; reflexivity|].
  exists 0. split; [vm_compute; reflexivity | lia].
Qed.

Lemma delegation_row_status_witness :
  (status scanRepoRow = queued <-> linked (sessionId scanRepoRow) = false)
  /\ (status scanRepoRow = running <->
       linked (sessionId scanRepoRow) = true
       /\ activeWithin15s
            (@rowStats exampleRuntime exampleIngest exampleStorage (fsOf diskScanRepo)
               scanRepoRow) 3000)
  /\ (status scanRepoRow = completed <->
       linked (sessionId scanRepoRow) = true
       /\ ~ activeWithin15s
              (@rowStats exampleRuntime exampleIngest exampleStorage (fsOf diskScanRepo)
                 scanRepoRow) 3000
       /\ 0 < statsToolCalls
                (@rowStats exampleRuntime exampleIngest exampleStorage (fsOf diskScanRepo)
                   scanRepoRow))
  /\ (status scanRepoRow = unknown <->
       linked (sessionId scanRepoRow) = true
       /\ ~ activeWithin15s
              (@rowStats exampleRuntime exampleIngest exampleStorage (fsOf diskScanRepo)
                 scanRepoRow) 3000
       /\ statsToolCalls
            (@rowStats exampleRuntime exampleIngest exampleStorage (fsOf diskScanRepo)
               scanRepoRow) <= 0)
  /\ (timeline scanRepoRow = "" <-> status scanRepoRow = unknown).
Proof.
  apply (@delegation_row_status exampleRuntime exampleIngest exampleStorage "ses_main" 3000
           (fsOf diskScanRepo) [scanRepoRow] scanRepoRow).
  - vm_compute. reflexivity.
  - left. reflexivity.
Defined.

End BackgroundTasksFacts.

Module TimeSeriesUiFacts.
Import Js TimeSeriesUi.

Lemma zeros_Some (n : Z) (z : list Z) :
  zeros n = Some z -> z = repeat 0 (Z.to_nat n) /\ Z.of_nat (List.length z) = n.
Proof.
  unfold zeros. destruct ((0 <=? n) && (n <=? 4294967295)) eqn:E; [|discriminate].
  intros H. injection H as <-. split; [reflexivity|].
  rewrite repeat_length. apply andb_true_iff in E. lia.
Qed.

(** What [trimmed] and [padded] make of the parsed counts: as many entries
    as there are buckets, the last ones of a longer source, a shorter source
    followed by zeros. *)
Lemma fitToBuckets_Some (b : Z) (parsed out : list Z) :
  fitToBuckets b parsed = Some out ->
  0 <= b ->
  Z.of_nat (List.length out) = b
  /\ (Z.of_nat (List.length parsed) < b ->
      out = parsed ++ repeat 0 (Z.to_nat (b - Z.of_nat (List.length parsed))))
  /\ (b <= Z.of_nat (List.length parsed) ->
      out = skipn (Z.to_nat (Z.of_nat (List.length parsed) - b)) parsed).
Proof.
  unfold fitToBuckets. intros H Hb.
  destruct (b <? Z.of_nat (List.length parsed)) eqn:E1.
  - apply Z.ltb_lt in E1.
    assert (Hlen : Z.of_nat (List.length
                     (skipn (Z.to_nat (Z.of_nat (List.length parsed) - b)) parsed)) = b).
    { rewrite length_skipn. lia. }
    rewrite Hlen, Z.ltb_irrefl in H. injection H as <-.
    split; [exact Hlen|]. split; [lia | reflexivity].
  - apply Z.ltb_ge in E1.
    destruct (Z.of_nat (List.length parsed) <? b) eqn:E2.
    + apply Z.ltb_lt in E2.
      destruct (zeros (b - Z.of_nat (List.length parsed))) as [z|] eqn:Ez; [|discriminate].
      injection H as <-. apply zeros_Some in Ez. destruct Ez as [-> Hz].
      split; [|split; [reflexivity | lia]].
      rewrite length_app, repeat_length. lia.
    + apply Z.ltb_ge in E2. injection H as <-.
      assert (Heq : Z.of_nat (List.length parsed) = b) by lia.
      split; [exact Heq|]. split; [lia|].
      intros _. rewrite Heq, Z.sub_diag. reflexivity.
Qed.

Lemma mapSeries_Some (f : string * string * string -> option TimeSeriesSeries)
    (defs : list (string * string * string)) (l : list TimeSeriesSeries) :
  mapSeries f defs = Some l -> Forall2 (fun d s => f d = Some s) defs l.
Proof.
  revert l. induction defs as [|d r IH]; intros l H; simpl in H.
  - injection H as <-. constructor.
  - destruct (f d) as [s|] eqn:E; [|discriminate].
    destruct (mapSeries f r) as [l'|]; [|discriminate].
    injection H as <-. constructor; [assumption | now apply IH].
Qed.

Section NormalizeFacts.
Context {rt : Runtime}.

Lemma normalize_default (input : value) (nowMsFallback : Z) (ts : TimeSeries) :
  isObjectNotNull input = false ->
  normalizeTimeSeries input nowMsFallback = Some ts ->
  1 <= buckets ts /\ Forall (fitted input (buckets ts)) (series ts).
Proof.
  intros Hin H. unfold normalizeTimeSeries in H. rewrite Hin in H. simpl negb in H.
  cbv iota in H. vm_compute in H. injection H as <-.
  simpl buckets. split; [lia|].
  simpl series. unfold fitted, sourceValues. rewrite Hin. simpl negb. cbv iota.
  repeat constructor; simpl; intros; lia.
Qed.

(** What [normalizeTimeSeries] does with the values (C9 asks for zeros at
    the front): in every time series it returns, each of the five series
    has exactly [buckets] values; when the source series had fewer than
    [buckets] entries, the entries of the source come first, in their
    order, and the zeros follow them; of a longer source the last [buckets]
    entries are kept. *)
Theorem values_have_buckets_entries_zeros_last
    (input : value) (nowMsFallback : Z) (ts : TimeSeries) :
  normalizeTimeSeries input nowMsFallback = Some ts ->
  1 <= buckets ts
  /\ map id (series ts) = map (fun def => fst (fst def)) TIME_SERIES_SERIES_DEFS
  /\ Forall (fun s =>
               Z.of_nat (List.length (values s)) = buckets ts
               /\ (Z.of_nat (List.length (sourceValues input (id s))) < buckets ts ->
                   values s
                   = sourceValues input (id s)
                     ++ repeat 0
                          (Z.to_nat
                             (buckets ts
                              - Z.of_nat (List.length (sourceValues input (id s))))))
               /\ (buckets ts <= Z.of_nat (List.length (sourceValues input (id s))) ->
                   values s
                   = skipn
                       (Z.to_nat
                          (Z.of_nat (List.length (sourceValues input (id s))) - buckets ts))
                       (sourceValues input (id s))))
            (series ts).
Proof.
  intros H. destruct (isObjectNotNull input) eqn:Hin.
  - unfold normalizeTimeSeries in H. rewrite Hin in H. simpl negb in H. cbv iota in H.
    cbv zeta in H.
    set (b := Z.max 1 _) in H.
    destruct (mapSeries _ TIME_SERIES_SERIES_DEFS) as [l|] eqn:E; [|discriminate].
    injection H as <-. simpl buckets. simpl series.
    apply mapSeries_Some in E.
    split; [unfold b; lia|]. split.
    + clear -E. induction E as [|d s r l Hd _ IH]; simpl; [reflexivity|].
      rewrite IH. f_equal.
      destruct (fitToBuckets _ _); [|discriminate]. now injection Hd as <-.
    + assert (Hb : 0 <= b) by (unfold b; lia).
      clear -E Hb Hin. induction E as [|d s r l Hd _ IH]; constructor; [|exact IH].
      destruct (fitToBuckets b _) as [padded|] eqn:Ef; [|discriminate].
      injection Hd as <-. simpl.
      unfold sourceValues. rewrite Hin. simpl negb. cbv iota.
      exact (fitToBuckets_Some _ _ _ Ef Hb).
  - destruct (normalize_default input nowMsFallback ts Hin H) as [H1 H2].
    split; [exact H1|]. split; [|exact H2].
    unfold normalizeTimeSeries in H. rewrite Hin in H. simpl negb in H. cbv iota in H.
    vm_compute in H. injection H as <-. reflexivity.
Qed.

End NormalizeFacts.

(** C9, the failing input: with three buckets and a source series of one
    entry, 5, the values are 5, 0, 0, where the claim asks for 0, 0, 5.  A
    longer source is cut at its old end, so the last index is the newest
    bucket, the one the chart draws at [anchorMs]; the zeros appended here
    move the entry of a short series to the oldest bucket. *)
Lemma short_series_is_padded_at_the_end :
  @normalizeTimeSeries exampleRuntime shortSeriesInput 5001 = Some shortSeriesOutput
  /\ @sourceValues exampleRuntime shortSeriesInput "overall-main" = [5]
  /\ option_map (fun ts => map values (series ts))
       (@normalizeTimeSeries exampleRuntime shortSeriesInput 5001)
     = Some [[5; 0; 0]; [0; 0; 0]; [0; 0; 0]; [2; 3; 4]; [0; 0; 0]]
  /\ leftPadded 3 [5] = [0; 0; 5].
Proof. repeat split; vm_compute; reflexivity. Qed.

Lemma values_have_buckets_entries_zeros_last_witness :
  1 <= buckets shortSeriesOutput
  /\ map id (series shortSeriesOutput)
     = map (fun def => fst (fst def)) TIME_SERIES_SERIES_DEFS
  /\ Forall (fun s =>
               Z.of_nat (List.length (values s)) = buckets shortSeriesOutput
               /\ (Z.of_nat (List.length (@sourceValues exampleRuntime shortSeriesInput (id s)))
                   < buckets shortSeriesOutput ->
                   values s
                   = @sourceValues exampleRuntime shortSeriesInput (id s)
                     ++ repeat 0
                          (Z.to_nat
                             (buckets shortSeriesOutput
                              - Z.of_nat
                                  (List.length
                                     (@sourceValues exampleRuntime shortSeriesInput (id s))))))
               /\ (buckets shortSeriesOutput
                   <= Z.of_nat (List.length (@sourceValues exampleRuntime shortSeriesInput (id s))) ->
                   values s
                   = skipn
                       (Z.to_nat
                          (Z.of_nat
                             (List.length (@sourceValues exampleRuntime shortSeriesInput (id s)))
                           - buckets shortSeriesOutput))
                       (@sourceValues exampleRuntime shortSeriesInput (id s))))
            (series shortSeriesOutput).
Proof.
  apply (@values_have_buckets_entries_zeros_last exampleRuntime shortSeriesInput 5001
           shortSeriesOutput).
  vm_compute. reflexivity.
Defined.

End TimeSeriesUiFacts.

Module DashboardFacts.
Import Js Dashboard.

(** *** The store *)

Lemma mustRecompute_iff (pollIntervalMs now : Z) (st : Store) :
  mustRecompute pollIntervalMs now st = true
  <-> cached st = None \/ dirty st = true \/ pollIntervalMs < now - lastComputedAt st.
Proof.
  unfold mustRecompute. rewrite !orb_true_iff, negb_true_iff, Z.ltb_lt.
  destruct (cached st); simpl; intuition (try discriminate; try congruence).
Qed.

Lemma getSnapshot_recomputed (pollIntervalMs : Z) (build : option value) (now : Z) (st : Store) :
  recomputed (getSnapshot pollIntervalMs build now st) = mustRecompute pollIntervalMs now st.
Proof.
  unfold getSnapshot. destruct (mustRecompute pollIntervalMs now st); [|reflexivity].
  destruct build; reflexivity.
Qed.

(** C7: after every sequence of events of a dashboard store (reads and
    change notifications), a call of [getSnapshot] recomputes the payload if
    and only if no snapshot is cached, the dirty flag is set, or more than
    the poll interval has passed since the last computation; a call that
    recomputes stores the new payload, the time of the call and a cleared
    flag, and returns the new payload (when [buildDashboardPayload] throws,
    the error passes through and the store is left as it was); a call that
    does not recompute returns the cached snapshot and leaves the store
    unchanged. *)
Theorem getSnapshot_recomputes_iff_stale
    (pollIntervalMs : Z) (events : list Event) (now : Z) (build : option value) :
  let st := fst (runStore pollIntervalMs events createDashboardStore) in
  let o := getSnapshot pollIntervalMs build now st in
  (recomputed o = true
   <-> cached st = None \/ dirty st = true \/ pollIntervalMs < now - lastComputedAt st)
  /\ (recomputed o = true ->
      forall payload, build = Some payload ->
        returned o = Some payload
        /\ after o = {| lastComputedAt := now; dirty := false; cached := Some payload |})
  /\ (recomputed o = true -> build = None -> returned o = None /\ after o = st)
  /\ (recomputed o = false -> returned o = cached st /\ after o = st).
Proof.
  cbv zeta. set (st := fst _).
  split; [rewrite getSnapshot_recomputed; apply mustRecompute_iff|].
  unfold getSnapshot. destruct (mustRecompute pollIntervalMs now st).
  - destruct build as [p|]; simpl; repeat split; intros; try discriminate;
      try congruence.
  - simpl. repeat split; intros; try discriminate; reflexivity.
Qed.

(** X22: A second read within the poll interval, with no change in between,
    returns the snapshot of the first and computes nothing. *)
Lemma second_read_is_cached (pollIntervalMs : Z) (st : Store) (now1 now2 : Z)
    (build1 build2 : option value) (payload : value) :
  returned (getSnapshot pollIntervalMs build1 now1 st) = Some payload ->
  now2 - lastComputedAt (after (getSnapshot pollIntervalMs build1 now1 st)) <= pollIntervalMs ->
  recomputed (getSnapshot pollIntervalMs build2 now2
                (after (getSnapshot pollIntervalMs build1 now1 st))) = false
  /\ returned (getSnapshot pollIntervalMs build2 now2
                 (after (getSnapshot pollIntervalMs build1 now1 st))) = Some payload.
Proof.
  remember (getSnapshot pollIntervalMs build1 now1 st) as o1 eqn:Ho1.
  unfold getSnapshot in Ho1.
  destruct (mustRecompute pollIntervalMs now1 st) eqn:E1.
  - destruct build1 as [p|]; subst o1; simpl; [|discriminate].
    intros H Hle. injection H as ->.
    unfold getSnapshot, mustRecompute. simpl.
    assert (E : (pollIntervalMs <? now2 - now1) = false) by (apply Z.ltb_ge; lia).
    rewrite E. simpl. now split.
  - subst o1. simpl. intros H Hle. unfold getSnapshot.
    assert (E2 : mustRecompute pollIntervalMs now2 st = false).
    { unfold mustRecompute in *. rewrite !orb_false_iff in *.
      destruct E1 as [[Ha Hb] _]. repeat split; try assumption. apply Z.ltb_ge. lia. }
    rewrite E2. simpl. now split.
Qed.

Example store_reads :
  map (fun o => (recomputed o, returned o))
    (snd (runStore (pollIntervalOf None)
            [Read 10000 (Some (VStr "a")); Read 11000 (Some (VStr "b")); Changed;
             Read 11500 (Some (VStr "c")); Read 13501 (Some (VStr "d"))]
            createDashboardStore))
  = [(true, Some (VStr "a")); (false, Some (VStr "a")); (true, Some (VStr "c"));
     (true, Some (VStr "d"))].
Proof. reflexivity. Qed.

(** *** The keys of the payload *)

Lemma number_clean (z : Z) : hasSensitiveKeys (number z) = false.
Proof. reflexivity. Qed.

Lemma optString_clean (o : option string) : hasSensitiveKeys (optString o) = false.
Proof. destruct o; reflexivity. Qed.

Lemma existsb_map_false {A : Type} (f : A -> value) (l : list A) :
  (forall x, In x l -> hasSensitiveKeys (f x) = false) ->
  existsb hasSensitiveKeys (map f l) = false.
Proof.
  induction l as [|x r IH]; intros H; simpl; [reflexivity|].
  rewrite (H x (or_introl eq_refl)). simpl. apply IH. intros y Hy. apply H. now right.
Qed.

Lemma string_clean (v : value) : BackgroundTasks.isString v = true -> hasSensitiveKeys v = false.
Proof. destruct v; simpl; intros H; try discriminate; reflexivity. Qed.

Lemma object_clean (props : list (string * value)) :
  Forall (fun kv => existsb (String.eqb (fst kv)) sensitiveKeys = false
                    /\ hasSensitiveKeys (snd kv) = false) props ->
  hasSensitiveKeys (VObj props) = false.
Proof.
  intros H. change (existsb (fun kv : string * value =>
                      let '(key, child) := kv in
                      existsb (String.eqb key) sensitiveKeys || hasSensitiveKeys child)
                      props = false).
  induction H as [|[k v] r [Hk Hv] _ IH]; simpl; [reflexivity|].
  simpl in Hk, Hv. rewrite Hk, Hv. exact IH.
Qed.

Lemma array_clean {A : Type} (f : A -> value) (l : list A) :
  (forall x, In x l -> hasSensitiveKeys (f x) = false) ->
  hasSensitiveKeys (VArr (map f l)) = false.
Proof. intros H. now apply existsb_map_false. Qed.

Ltac clean_object :=
  apply object_clean;
  repeat (apply Forall_cons; [split; [reflexivity | cbn [snd]] | ]);
  try apply Forall_nil;
  try reflexivity;
  try apply optString_clean.

Lemma planStepValue_clean (p : PlanStep) : hasSensitiveKeys (planStepValue p) = false.
Proof. reflexivity. Qed.

Lemma seriesValue_clean (s : TimeSeriesUi.TimeSeriesSeries) :
  hasSensitiveKeys (seriesValue s) = false.
Proof.
  unfold seriesValue. clean_object.
  apply array_clean. intros z _. apply number_clean.
Qed.

Lemma timeSeriesValue_clean (t : TimeSeriesPayload) :
  hasSensitiveKeys (timeSeriesValue t) = false.
Proof.
  unfold timeSeriesValue. clean_object.
  apply array_clean. intros s _. apply seriesValue_clean.
Qed.

Lemma taskValue_clean (t : BackgroundTasks.BackgroundTaskRow) :
  BackgroundTasks.isString (BackgroundTasks.id t) = true ->
  hasSensitiveKeys (taskValue t) = false.
Proof.
  intros H. unfold taskValue. clean_object. now apply string_clean.
Qed.

Lemma tokenUsageValue_has_input (p : TokenUsage.TokenUsagePayload) :
  hasSensitiveKeys (tokenUsageValue p) = true.
Proof.
  unfold tokenUsageValue.
  change (hasSensitiveKeys (VObj [("rows", ?r); ("totals", ?t)]))
    with ((false || hasSensitiveKeys r) || ((false || hasSensitiveKeys t) || false)).
  change (hasSensitiveKeys (totalsValue (TokenUsage.totals p))) with true.
  now rewrite !orb_true_r.
Qed.

Section PayloadFacts.
Context {rt : Runtime} {ing : Ingest} {co : Collaborators}.
Variable projectRoot : string.
Variable storage : BackgroundTasks.OpenCodeStorageRoots.
Variable nowMs : Z.
Variable fsLike : BackgroundTasks.FsLike.

Lemma mainSessionTasks_clean (l : list value) :
  mainSessionTasks projectRoot storage nowMs = Some l ->
  hasSensitiveKeys (VArr l) = false.
Proof.
  unfold mainSessionTasks, withSession.
  destruct (activeSessionId projectRoot storage) as [sid|]; [|now intros [= <-]].
  destruct (BackgroundTasks.linked (Some sid)); [|now intros [= <-]].
  unfold mainSessionTask.
  destruct (BackgroundTasks.formatTimeline _ _) as [tl|]; [|discriminate].
  intros [= <-].
  change (hasSensitiveKeys (VArr [?x])) with (hasSensitiveKeys x || false).
  rewrite orb_false_r. clean_object.
Qed.

Lemma stepsValue_clean (ps : PlanSteps) :
  hasSensitiveKeys (VArr (if stepsMissing ps then [] else map planStepValue (steps ps)))
  = false.
Proof.
  destruct (stepsMissing ps); [reflexivity|].
  apply array_clean. intros p _. apply planStepValue_clean.
Qed.

(** C1 (as amended): for every artifact tree whose delegation parts carry
    string call ids and every [nowMs], the [raw] field of the payload of
    [buildDashboardPayload], and every other top-level field except
    [tokenUsage], contains no key named prompt, input, output, error or
    state at any depth; [tokenUsage] does: its totals and rows hold the
    token counters under the keys input and output. *)
Theorem raw_has_no_sensitive_key (payload : value) :
  buildDashboardPayload projectRoot storage nowMs fsLike = Some payload ->
  (forall tasks,
     dashboardTasks projectRoot storage nowMs fsLike = Some tasks ->
     Forall (fun t => BackgroundTasks.isString (BackgroundTasks.id t) = true) tasks) ->
  hasSensitiveKeys (get "raw" payload) = false
  /\ (forall k, k <> "tokenUsage" -> hasSensitiveKeys (get k payload) = false)
  /\ hasSensitiveKeys (get "tokenUsage" payload) = true
  /\ exists n, get "input" (get "totals" (get "tokenUsage" payload)) = VNum (Fin n).
Proof.
  unfold buildDashboardPayload. intros H Hids.
  destruct (dashboardTasks projectRoot storage nowMs fsLike) as [tasks|] eqn:Et;
    [|discriminate].
  destruct (mainSessionTasks projectRoot storage nowMs) as [mainTasks|] eqn:Em;
    [|discriminate].
  cbv zeta in H. injection H as <-.
  specialize (Hids tasks eq_refl).
  assert (Hbg : hasSensitiveKeys (VArr (map taskValue tasks)) = false).
  { apply array_clean. intros t Ht. apply taskValue_clean.
    rewrite Forall_forall in Hids. now apply Hids. }
  pose proof (mainSessionTasks_clean _ Em) as Hmain.
  set (mainSession := VObj (("agent", _) :: _)).
  set (planProgress := VObj (("name", _) :: _)).
  set (ts := timeSeriesValue _).
  set (tu := tokenUsageValue _).
  assert (Hms : hasSensitiveKeys mainSession = false).
  { unfold mainSession. clean_object. }
  assert (Hpp : hasSensitiveKeys planProgress = false).
  { unfold planProgress. clean_object. apply stepsValue_clean. }
  assert (Hts : hasSensitiveKeys ts = false) by apply timeSeriesValue_clean.
  assert (Hraw : hasSensitiveKeys
                   (VObj [("mainSession", mainSession); ("planProgress", planProgress);
                          ("backgroundTasks", VArr (map taskValue tasks));
                          ("mainSessionTasks", VArr mainTasks); ("timeSeries", ts)]) = false).
  { clean_object; assumption. }
  split; [exact Hraw|]. split; [|split].
  - intros k Hk. unfold get. cbn [assoc].
    repeat match goal with
           | |- context [String.eqb k ?c] => destruct (String.eqb k c) eqn:?
           end;
      try assumption; try reflexivity.
    exfalso. apply Hk. now apply String.eqb_eq.
  - apply tokenUsageValue_has_input.
  - eexists. reflexivity.
Qed.

End PayloadFacts.

(** C1, counterexample: on an empty artifact tree the payload holds the key
    [input] (and [output]) under [tokenUsage.totals]. *)
Lemma payload_has_input_key :
  option_map hasSensitiveKeys
    (@buildDashboardPayload exampleRuntime exampleIngest exampleCollaborators
       "project" BackgroundTasks.exampleStorage 3000 (BackgroundTasks.fsOf emptyDisk))
  = Some true
  /\ option_map (fun payload => get "input" (get "totals" (get "tokenUsage" payload)))
       (@buildDashboardPayload exampleRuntime exampleIngest exampleCollaborators
          "project" BackgroundTasks.exampleStorage 3000 (BackgroundTasks.fsOf emptyDisk))
     = Some (VNum (Fin 0)).
Proof. split; vm_compute; reflexivity. Qed.

Lemma raw_has_no_sensitive_key_witness :
  hasSensitiveKeys (get "raw" scanRepoPayload) = false
  /\ (forall k, k <> "tokenUsage" -> hasSensitiveKeys (get k scanRepoPayload) = false)
  /\ hasSensitiveKeys (get "tokenUsage" scanRepoPayload) = true
  /\ exists n, get "input" (get "totals" (get "tokenUsage" scanRepoPayload)) = VNum (Fin n).
Proof.
  apply (@raw_has_no_sensitive_key exampleRuntime exampleIngest exampleCollaborators
           "project" BackgroundTasks.exampleStorage 3000
           (BackgroundTasks.fsOf BackgroundTasks.diskScanRepo) scanRepoPayload).
  - vm_compute. reflexivity.
  - intros tasks H. vm_compute in H. injection H as <-. repeat constructor.
Defined.

End DashboardFacts.

(* ------------------------------------------------------------------ *)
(** ** More on src/ingest/token-usage-core.ts *)

Module TokenUsageMore.
Import Js TokenUsage TokenUsageShapes JsFacts TokenUsageFacts.






Section More.
Context {rt : Runtime} {ing : Ingest}.




(** X2: The rows of [aggregateTokenUsage] name each model once. *)
Theorem aggregate_rows_one_per_model (metas : list value) :
  NoDup (map model (rows (aggregateTokenUsage metas))).
Proof.
  pose proof (loop_wellKeyed metas initialState wellKeyed_initial) as Hw.
  unfold aggregateTokenUsage. simpl rows.
  eapply Permutation_NoDup.
  - apply Permutation_map, Permutation_sym, sortBy_perm.
  - rewrite wellKeyed_models by assumption. apply Hw.
Qed.

Lemma compareRows_total :
  collates rt -> forall a b, compareRows a b <= 0 \/ compareRows b a <= 0.
Proof.
  intros [Ht _] a b. unfold compareRows.
  destruct (total (counters b) =? total (counters a)) eqn:E.
  - rewrite Z.eqb_sym, E. simpl. apply Ht.
  - rewrite Z.eqb_sym, E. simpl. rewrite Z.eqb_neq in E. lia.
Qed.

Lemma compareRows_trans :
  collates rt -> forall a b c,
    compareRows a b <= 0 -> compareRows b c <= 0 -> compareRows a c <= 0.
Proof.
  intros [_ Htr] a b c. unfold compareRows.
  destruct (total (counters b) =? total (counters a)) eqn:E1;
    destruct (total (counters c) =? total (counters b)) eqn:E2;
    destruct (total (counters c) =? total (counters a)) eqn:E3; simpl;
    rewrite ?Z.eqb_eq, ?Z.eqb_neq in *; try lia.
  apply Htr.
Qed.

Lemma compareRows_listed (a b : TokenUsageRow) :
  compareRows a b <= 0 -> listedBefore a b.
Proof.
  unfold compareRows, listedBefore.
  destruct (total (counters b) =? total (counters a)) eqn:E; simpl;
    rewrite ?Z.eqb_eq, ?Z.eqb_neq in E; intros H; [right; now split | left; lia].
Qed.

(** X3: The rows of [aggregateTokenUsage] are listed by total, largest first,
    and rows of equal total by model name in the order of [localeCompare]. *)
Theorem aggregate_rows_are_sorted (metas : list value) :
  collates rt ->
  StronglySorted listedBefore (rows (aggregateTokenUsage metas)).
Proof.
  intros Hc. unfold aggregateTokenUsage. simpl rows.
  apply (BackgroundTasksFacts.StronglySorted_weaken (before compareRows)).
  - intros a b. apply compareRows_listed.
  - apply sortBy_sorted; [now apply compareRows_total | now apply compareRows_trans].
Qed.

Lemma loop_ignores_others (l : list value) (st : LoopState) :
  fold_left loopBody (filter isAssistant l) st = fold_left loopBody l st.
Proof.
  revert st. induction l as [|m r IH]; intros st; simpl; [reflexivity|].
  destruct (isAssistant m) eqn:E; simpl.
  - apply IH.
  - rewrite IH. f_equal. rewrite loopBody_cases, E. reflexivity.
Qed.

(** X4: Messages that are not records or whose role is not "assistant" play no
    part: removing them from the input leaves the payload as it is. *)
Theorem aggregate_ignores_other_roles (metas : list value) :
  aggregateTokenUsage (filter isAssistant metas) = aggregateTokenUsage metas.
Proof. unfold aggregateTokenUsage. now rewrite loop_ignores_others. Qed.

Lemma loop_all_seen (extra : list value) (st : LoopState) :
  Forall (fun m => isAssistant m = true ->
                   exists i, readString (get "id" m) = Some i
                             /\ setHas i (seenMessageIds st) = true) extra ->
  fold_left loopBody extra st = st.
Proof.
  induction 1 as [|m r Hm _ IH]; simpl; [reflexivity|].
  assert (E : loopBody st m = st).
  { rewrite loopBody_cases. destruct (isAssistant m); [|reflexivity].
    destruct (Hm eq_refl) as (i & Hi & Hs). now rewrite Hi, Hs. }
  now rewrite E.
Qed.

(** X5: Reading messages again changes nothing: when every assistant message
    of [again] repeats the id of an assistant message of [metas], the
    payload of [metas ++ again] is the payload of [metas]. *)
Theorem aggregate_reread_is_idempotent (metas again : list value) :
  Forall (fun m => isAssistant m = true ->
                   existsb (sameMessageId m) (filter isAssistant metas) = true) again ->
  aggregateTokenUsage (metas ++ again) = aggregateTokenUsage metas.
Proof.
  intros H. unfold aggregateTokenUsage. rewrite fold_left_app.
  rewrite loop_all_seen; [reflexivity|].
  eapply Forall_impl; [|exact H]. intros m Hm Ha. specialize (Hm Ha).
  destruct (readString (get "id" m)) as [i|] eqn:Hid.
  - exists i. split; [reflexivity|].
    rewrite loop_seen. rewrite (sameMessageId_with_id m i _ Hid) in Hm.
    now rewrite Hm.
  - now rewrite (sameMessageId_no_id m _ Hid) in Hm.
Qed.

End More.


Lemma aggregate_rows_are_sorted_witness :
  StronglySorted (@listedBefore exampleRuntime)
    (rows (@aggregateTokenUsage exampleRuntime exampleIngest threeMetas)).
Proof.
  apply (@aggregate_rows_are_sorted exampleRuntime exampleIngest threeMetas).
  exact BackgroundTasksFacts.exampleRuntime_collates.
Defined.

Lemma aggregate_reread_is_idempotent_witness :
  @aggregateTokenUsage exampleRuntime exampleIngest (threeMetas ++ threeMetas)
  = @aggregateTokenUsage exampleRuntime exampleIngest threeMetas.
Proof.
  apply (@aggregate_reread_is_idempotent exampleRuntime exampleIngest threeMetas threeMetas).
  repeat constructor.
Defined.

Example three_metas_rows :
  map (fun r => (model r, total (counters r)))
    (rows (@aggregateTokenUsage exampleRuntime exampleIngest threeMetas))
  = [("b/m", 9); ("a/m", 4)].
Proof. reflexivity. Qed.

End TokenUsageMore.

(* ------------------------------------------------------------------ *)
(** ** src/ingest/token-usage.ts *)

Module TokenUsageFsFacts.
Import Js TokenUsageFs TokenUsageFsShapes.

Lemma flat_map_nil_iff {A B : Type} (f : A -> list B) (l : list A) :
  flat_map f l = [] <-> forall x, In x l -> f x = [].
Proof.
  induction l as [|x r IH]; simpl.
  - split; [intros _ y [] | reflexivity].
  - split.
    + intros H. apply app_eq_nil in H. destruct H as [H1 H2].
      intros y [<-|Hy]; [assumption | now apply IH].
    + intros H. rewrite (H x (or_introl eq_refl)). simpl. apply IH.
      intros y Hy. apply H. now right.
Qed.

Lemma setHas_In (i : string) (l : list string) : setHas i l = true <-> In i l.
Proof.
  unfold setHas. rewrite existsb_exists. split.
  - intros (x & Hx & E). apply String.eqb_eq in E. now subst.
  - intros H. exists i. split; [assumption | apply String.eqb_refl].
Qed.

Lemma pushSessionId_known (ids : list string) (v : option string) :
  (normalizeSessionId v = None
   \/ exists i, normalizeSessionId v = Some i /\ In i ids) ->
  pushSessionId ids v = ids.
Proof.
  unfold pushSessionId. intros [->|(i & -> & Hin)]; [reflexivity|].
  apply setHas_In in Hin. now rewrite Hin.
Qed.

Lemma pushSessionId_NoDup (ids : list string) (v : option string) :
  NoDup ids -> NoDup (pushSessionId ids v).
Proof.
  intros H. unfold pushSessionId. destruct (normalizeSessionId v) as [i|]; [|assumption].
  destruct (setHas i ids) eqn:E; [assumption|].
  apply NoDup_rev in H. rewrite <- (rev_involutive (ids ++ [i])).
  apply NoDup_rev. rewrite rev_app_distr. simpl. constructor; [|assumption].
  rewrite <- in_rev. intros Hin. apply setHas_In in Hin. congruence.
Qed.

Lemma pushSessionId_In (ids : list string) (v : option string) (i : string) :
  In i (pushSessionId ids v) <-> In i ids \/ normalizeSessionId v = Some i.
Proof.
  unfold pushSessionId. destruct (normalizeSessionId v) as [j|].
  - destruct (setHas j ids) eqn:E.
    + apply setHas_In in E. split; [auto|]. intros [H|H]; [assumption|]. congruence.
    + rewrite in_app_iff. simpl. split.
      * intros [H|[->|[]]]; auto.
      * intros [H|H]; [auto|]. injection H as ->. auto.
  - split; [auto|]. intros [H|H]; [assumption | discriminate].
Qed.

Lemma collect_In (vs : list (option string)) :
  forall (ids : list string) (i : string),
    In i (fold_left pushSessionId vs ids)
    <-> In i ids \/ exists v, In v vs /\ normalizeSessionId v = Some i.
Proof.
  induction vs as [|v r IH]; intros ids i; simpl.
  - split; [auto|]. intros [H|(v & [] & _)]. assumption.
  - rewrite IH, pushSessionId_In. split.
    + intros [[H|H]|(w & Hw & E)]; eauto.
    + intros [H|(w & [<-|Hw] & E)]; eauto.
Qed.

Lemma collect_NoDup (vs : list (option string)) :
  forall ids, NoDup ids -> NoDup (fold_left pushSessionId vs ids).
Proof.
  induction vs as [|v r IH]; intros ids H; simpl; [assumption|].
  now apply IH, pushSessionId_NoDup.
Qed.

Lemma normalizeSessionId_Some (v : option string) (i : string) :
  normalizeSessionId v = Some i -> i <> "" /\ exists s, v = Some s /\ i = trim s.
Proof.
  unfold normalizeSessionId. destruct v as [s|]; [|discriminate].
  destruct (String.eqb (trim s) "") eqn:E; [discriminate|].
  intros H. injection H as <-. apply String.eqb_neq in E. eauto.
Qed.

(** X6: The sessions [deriveTokenUsage] reads: the trimmed, non-blank ids among
    the main session and the background sessions, each once. *)
Theorem session_ids_are_trimmed_and_distinct
    (mainSessionId : option string) (backgroundSessionIds : list (option string)) :
  NoDup (collectSessionIds mainSessionId backgroundSessionIds)
  /\ forall i,
       In i (collectSessionIds mainSessionId backgroundSessionIds)
       <-> i <> ""
           /\ exists s, In (Some s) (mainSessionId :: backgroundSessionIds) /\ i = trim s.
Proof.
  unfold collectSessionIds. split.
  - apply collect_NoDup. constructor.
  - intros i. rewrite collect_In. split.
    + intros [[]|(v & Hv & E)].
      destruct (normalizeSessionId_Some v i E) as (Hne & s & -> & ->). eauto.
    + intros (Hne & s & Hin & ->). right. exists (Some s). split; [assumption|].
      unfold normalizeSessionId. apply String.eqb_neq in Hne. now rewrite Hne.
Qed.

Section DeriveFacts.
Context {rt : Runtime} {ing : Ingest}.

Lemma deriveTokenUsage_unfold (storage : BackgroundTasks.OpenCodeStorageRoots)
    (mainSessionId : option string) (backgroundSessionIds : list (option string))
    (fsLike : BackgroundTasks.FsLike) :
  deriveTokenUsage storage mainSessionId backgroundSessionIds fsLike
  = TokenUsage.aggregateTokenUsage
      (flat_map
         (fun sessionId =>
            let messageDir := getMessageDir (BackgroundTasks.message storage) sessionId in
            if String.eqb messageDir "" then [] else readSessionMetas messageDir fsLike)
         (collectSessionIds mainSessionId backgroundSessionIds)).
Proof. reflexivity. Qed.

(** X7: A background id that is null, blank or already listed (as the main
    session or as an earlier background session) changes nothing. *)
Theorem blank_and_repeated_session_ids_are_ignored
    (storage : BackgroundTasks.OpenCodeStorageRoots)
    (mainSessionId : option string) (backgroundSessionIds : list (option string))
    (extra : option string) (fsLike : BackgroundTasks.FsLike) :
  (normalizeSessionId extra = None
   \/ exists i, normalizeSessionId extra = Some i
                /\ In i (collectSessionIds mainSessionId backgroundSessionIds)) ->
  deriveTokenUsage storage mainSessionId (backgroundSessionIds ++ [extra]) fsLike
  = deriveTokenUsage storage mainSessionId backgroundSessionIds fsLike.
Proof.
  intros H. rewrite !deriveTokenUsage_unfold.
  assert (E : collectSessionIds mainSessionId (backgroundSessionIds ++ [extra])
              = collectSessionIds mainSessionId backgroundSessionIds).
  { unfold collectSessionIds.
    change (mainSessionId :: backgroundSessionIds ++ [extra])
      with ((mainSessionId :: backgroundSessionIds) ++ [extra]).
    rewrite fold_left_app. simpl. now apply pushSessionId_known. }
  now rewrite E.
Qed.

(** X8: When no session has a readable message directory, the payload is
    empty: no row, and totals of zero. *)
Theorem missing_directories_give_empty_usage
    (storage : BackgroundTasks.OpenCodeStorageRoots)
    (mainSessionId : option string) (backgroundSessionIds : list (option string))
    (fsLike : BackgroundTasks.FsLike) :
  (forall i, In i (collectSessionIds mainSessionId backgroundSessionIds) ->
             BackgroundTasks.readdirSync fsLike
               (getMessageDir (BackgroundTasks.message storage) i) = None) ->
  deriveTokenUsage storage mainSessionId backgroundSessionIds fsLike = emptyPayload.
Proof.
  intros H. rewrite deriveTokenUsage_unfold.
  rewrite (proj2 (flat_map_nil_iff _ _)); [reflexivity|].
  intros i Hi. cbv zeta.
  destruct (String.eqb _ ""); [reflexivity|].
  unfold readSessionMetas, BackgroundTasks.listJsonFiles.
  rewrite (H i Hi). now destruct (String.eqb _ "").
Qed.

End DeriveFacts.

Lemma blank_and_repeated_session_ids_are_ignored_witness :
  @deriveTokenUsage exampleRuntime exampleIngest BackgroundTasks.exampleStorage
    (Some "ses_main") ([Some "ses_bg"; None; Some "  "] ++ [Some " ses_bg "])
    (BackgroundTasks.fsOf diskTwoSessions)
  = @deriveTokenUsage exampleRuntime exampleIngest BackgroundTasks.exampleStorage
      (Some "ses_main") [Some "ses_bg"; None; Some "  "]
      (BackgroundTasks.fsOf diskTwoSessions).
Proof.
  apply (@blank_and_repeated_session_ids_are_ignored exampleRuntime exampleIngest).
  right. exists "ses_bg". split; [reflexivity | simpl; auto].
Defined.

Lemma missing_directories_give_empty_usage_witness :
  @deriveTokenUsage exampleRuntime exampleIngest BackgroundTasks.exampleStorage
    (Some "ses_missing") [Some "ses_other"] (BackgroundTasks.fsOf Dashboard.emptyDisk)
  = emptyPayload.
Proof.
  apply (@missing_directories_give_empty_usage exampleRuntime exampleIngest).
  intros i _. reflexivity.
Defined.

Example usage_dedupes_across_sessions :
  TokenUsage.input
    (TokenUsage.totals
       (@deriveTokenUsage exampleRuntime exampleIngest BackgroundTasks.exampleStorage
          (Some "ses_main") [Some "ses_bg"; Some ""; Some "  "; None]
          (BackgroundTasks.fsOf diskTwoSessions)))
  = 4.
Proof. reflexivity. Qed.

End TokenUsageFsFacts.

(* ------------------------------------------------------------------ *)
(** ** More on src/ingest/background-tasks.ts *)

Module BackgroundTasksMore.
Import Js BackgroundTasks BackgroundTasksShapes JsFacts BackgroundTasksFacts.

(** *** [clampString] *)

Lemma substring_length (n : nat) (s : string) :
  String.length (substring 0 n s) = Nat.min n (String.length s).
Proof.
  revert n. induction s as [|c r IH]; intros [|n]; simpl; try reflexivity.
  now rewrite IH.
Qed.

Lemma substring_prefix (n : nat) (s : string) : prefix (substring 0 n s) s = true.
Proof.
  revert n. induction s as [|c r IH]; intros [|n]; simpl; try reflexivity.
  destruct (ascii_dec c c); [apply IH | congruence].
Qed.

Lemma prefix_refl (s : string) : prefix s s = true.
Proof.
  induction s as [|c r IH]; simpl; [reflexivity|].
  destruct (ascii_dec c c); [assumption | congruence].
Qed.

(** X9: [clampString] gives null exactly for a value that is not a string or
    is blank; otherwise it gives the trimmed string cut to [maxLen]
    characters, which is not empty when [maxLen] is at least 1. *)
Theorem clampString_is_trimmed_prefix (v : value) (maxLen : nat) :
  (clampString v maxLen = None <-> forall s, v = VStr s -> trim s = "")
  /\ forall r, clampString v maxLen = Some r ->
       exists s, v = VStr s
         /\ prefix r (trim s) = true
         /\ String.length r = Nat.min maxLen (String.length (trim s))
         /\ ((1 <= maxLen)%nat -> r <> "").
Proof.
  unfold clampString. split.
  - destruct v; try (split; [intros _ s0 E; discriminate E | reflexivity]).
    destruct (String.eqb (trim s) "") eqn:E.
    + apply String.eqb_eq in E. split; [intros _ s0 [= <-]; assumption | reflexivity].
    + apply String.eqb_neq in E.
      destruct (String.length (trim s) <=? maxLen)%nat;
        (split; [discriminate | intros H; exfalso; apply E; now apply H]).
  - intros r H. destruct v; try discriminate. exists s. split; [reflexivity|].
    destruct (String.eqb (trim s) "") eqn:E; [discriminate|].
    apply String.eqb_neq in E.
    assert (Hlen : (1 <= String.length (trim s))%nat).
    { destruct (trim s); [congruence | simpl; lia]. }
    destruct (String.length (trim s) <=? maxLen)%nat eqn:L; injection H as <-.
    + apply Nat.leb_le in L. repeat split.
      * apply prefix_refl.
      * lia.
      * intros _. exact E.
    + apply Nat.leb_gt in L. unfold sliceTo. repeat split.
      * apply substring_prefix.
      * apply substring_length.
      * intros Hm Hr.
        pose proof (substring_length maxLen (trim s)) as Hs. rewrite Hr in Hs. simpl in Hs. lia.
Qed.

(** *** The readers *)

Lemma isToolPart_shape (p : value) : isToolPart p = true -> toolPartShape p.
Proof.
  unfold isToolPart, toolPartShape. rewrite !andb_true_iff.
  intros ((((_ & Ht) & Hs) & _) & Ho). repeat split.
  - destruct (get "type" p); try discriminate. apply String.eqb_eq in Ht. now subst.
  - destruct (get "tool" p); try discriminate. eauto.
  - exact Ho.
Qed.

(** X10: The tool parts of a message: nothing when the part directory is
    missing; otherwise the documents of its JSON files that are tool parts
    with a string tool name and a state object, in the order of their file
    names. *)
Theorem tool_parts_reader_contract
    (storage : OpenCodeStorageRoots) (messageID : string) (fsLike : FsLike) :
  let partDir := pathJoin (part storage) messageID in
  let result := readToolPartsForMessage storage messageID fsLike in
  (existsSync fsLike partDir = false -> result = [])
  /\ (readdirSync fsLike partDir = None -> result = [])
  /\ Forall toolPartShape result
  /\ exists files,
       result = map (fun f => readJsonFile (pathJoin partDir f) fsLike) files
       /\ StronglySorted (fun a b => codeUnitCompare a b <= 0) files
       /\ Forall (fun f => In f (listJsonFiles partDir fsLike)
                           /\ isToolPart (readJsonFile (pathJoin partDir f) fsLike) = true)
            files
       /\ forall f, In f (listJsonFiles partDir fsLike) ->
                    existsSync fsLike partDir = true ->
                    isToolPart (readJsonFile (pathJoin partDir f) fsLike) = true ->
                    In f files.
Proof.
  cbv zeta. unfold readToolPartsForMessage.
  set (partDir := pathJoin (part storage) messageID).
  destruct (existsSync fsLike partDir) eqn:Ex; simpl negb; cbv iota.
  - split; [discriminate|]. split.
    { intros H. unfold listJsonFiles. rewrite H. reflexivity. }
    split.
    { apply Forall_forall. intros p Hp. apply filter_In in Hp. now apply isToolPart_shape. }
    exists (filter (fun f => isToolPart (readJsonFile (pathJoin partDir f) fsLike))
              (sortBy codeUnitCompare (listJsonFiles partDir fsLike))).
    split; [apply filter_map_comm|]. split.
    { apply StronglySorted_filter.
      apply (sortBy_sorted codeUnitCompare codeUnitCompare_total codeUnitCompare_trans). }
    split.
    { apply Forall_forall. intros f Hf. apply filter_In in Hf. destruct Hf as [Hf Ht].
      split; [|assumption].
      apply (Permutation_in _ (sortBy_perm codeUnitCompare _)). exact Hf. }
    intros f Hf _ Ht. apply filter_In. split; [|assumption].
    apply (Permutation_in _ (Permutation_sym (sortBy_perm codeUnitCompare _))). exact Hf.
  - split; [reflexivity|]. split; [reflexivity|]. split; [constructor|].
    exists []. repeat split; try constructor. intros f _ H. discriminate.
Qed.

(** X11: The session metas: nothing when the session storage is missing or
    cannot be listed; otherwise exactly the documents with a string id of
    the JSON files in the directories of the storage. *)
Theorem session_metas_reader_contract (sessionStorage : string) (fsLike : FsLike) :
  (existsSync fsLike sessionStorage = false -> readAllSessionMetas sessionStorage fsLike = [])
  /\ (readdirTyped fsLike sessionStorage = None ->
      readAllSessionMetas sessionStorage fsLike = [])
  /\ Forall (fun m => exists s, get "id" m = VStr s) (readAllSessionMetas sessionStorage fsLike)
  /\ forall m,
       In m (readAllSessionMetas sessionStorage fsLike)
       <-> existsSync fsLike sessionStorage = true
           /\ exists projectDirs d f,
                readdirTyped fsLike sessionStorage = Some projectDirs
                /\ In (d, true) projectDirs
                /\ In f (listJsonFiles (pathJoin sessionStorage d) fsLike)
                /\ m = readJsonFile (pathJoin (pathJoin sessionStorage d) f) fsLike
                /\ hasStringId m = true.
Proof.
  assert (Hin : forall m,
       In m (readAllSessionMetas sessionStorage fsLike)
       <-> existsSync fsLike sessionStorage = true
           /\ exists projectDirs d f,
                readdirTyped fsLike sessionStorage = Some projectDirs
                /\ In (d, true) projectDirs
                /\ In f (listJsonFiles (pathJoin sessionStorage d) fsLike)
                /\ m = readJsonFile (pathJoin (pathJoin sessionStorage d) f) fsLike
                /\ hasStringId m = true).
  { intros m. unfold readAllSessionMetas.
    destruct (existsSync fsLike sessionStorage); simpl negb; cbv iota.
    - destruct (readdirTyped fsLike sessionStorage) as [dirs|].
      + rewrite in_flat_map. split.
        * intros ([d isDir] & Hd & Hm). simpl in Hm. destruct isDir; [|contradiction].
          simpl in Hm. apply filter_In in Hm. destruct Hm as [Hm Hid].
          apply in_map_iff in Hm. destruct Hm as (f & <- & Hf).
          split; [reflexivity|]. exists dirs, d, f. auto.
        * intros (_ & dirs' & d & f & E & Hd & Hf & -> & Hid). injection E as <-.
          exists (d, true). split; [assumption|]. simpl.
          apply filter_In. split; [|assumption]. apply in_map_iff. eauto.
      + split; [contradiction|]. intros (_ & dirs & d & f & E & _). discriminate.
    - split; [contradiction|]. intros [E _]. discriminate. }
  split; [|split; [|split; [|exact Hin]]].
  - intros H. unfold readAllSessionMetas. now rewrite H.
  - intros H. unfold readAllSessionMetas. rewrite H.
    now destruct (existsSync fsLike sessionStorage).
  - apply Forall_forall. intros m Hm. apply Hin in Hm.
    destruct Hm as (_ & dirs & d & f & _ & _ & _ & _ & Hid). now apply hasStringId_iff.
Qed.

(** *** The two searches *)

Section SearchFacts.
Context {rt : Runtime} {ing : Ingest}.

Lemma firstId_of_candidates (title : string) (metas : list value) (parent : string)
    (startedAt : Z) (i : string) :
  firstId (sortBy compareCandidates (candidatesFor title metas parent startedAt)) = Some i ->
  exists c, In c metas /\ isCandidate parent title startedAt c /\ get "id" c = VStr i.
Proof.
  destruct (sortBy compareCandidates (candidatesFor title metas parent startedAt))
    as [|c rest] eqn:E; [discriminate|].
  simpl. destruct (get "id" c) as [| | | |s| |] eqn:Hid; try discriminate.
  intros H. injection H as <-.
  assert (Hin : In c (candidatesFor title metas parent startedAt)).
  { apply (Permutation_in _ (sortBy_perm compareCandidates _)). rewrite E. now left. }
  apply candidatesFor_In in Hin. exists c. tauto.
Qed.

Lemma firstId_None (title : string) (metas : list value) (parent : string) (startedAt : Z) :
  Forall (fun m => exists s, get "id" m = VStr s) metas ->
  firstId (sortBy compareCandidates (candidatesFor title metas parent startedAt)) = None ->
  forall m, In m metas -> ~ isCandidate parent title startedAt m.
Proof.
  intros Hids H m Hm Hc.
  destruct (sortBy compareCandidates (candidatesFor title metas parent startedAt))
    as [|c rest] eqn:E.
  - apply sortBy_nil_iff in E.
    assert (Hin : In m (candidatesFor title metas parent startedAt))
      by (apply candidatesFor_In; now split).
    rewrite E in Hin. contradiction.
  - assert (Hin : In c (candidatesFor title metas parent startedAt)).
    { apply (Permutation_in _ (sortBy_perm compareCandidates _)). rewrite E. now left. }
    apply candidatesFor_In in Hin. destruct Hin as [Hin _].
    rewrite Forall_forall in Hids. destruct (Hids c Hin) as [s Hs].
    simpl in H. rewrite Hs in H. discriminate.
Qed.

(** X12: The session that [findBackgroundSessionId] returns is one of the given
    sessions, a child of the parent, titled "Background: " + description
    and created within 60 seconds from the start; and over sessions that
    have string ids it returns null only when there is no such session. *)
Theorem background_session_is_a_candidate
    (allSessionMetas : list value) (parentSessionId description : string) (startedAt : Z) :
  (forall i,
     findBackgroundSessionId allSessionMetas parentSessionId description startedAt = Some i ->
     exists c, In c allSessionMetas
               /\ isCandidate parentSessionId ("Background: " ++ description) startedAt c
               /\ get "id" c = VStr i)
  /\ (Forall (fun m => exists s, get "id" m = VStr s) allSessionMetas ->
      findBackgroundSessionId allSessionMetas parentSessionId description startedAt = None ->
      forall m, In m allSessionMetas ->
                ~ isCandidate parentSessionId ("Background: " ++ description) startedAt m).
Proof.
  unfold findBackgroundSessionId. split.
  - intros i. apply firstId_of_candidates.
  - apply firstId_None.
Qed.

(** X13: The search for a "Task: " session follows the same rule as the search
    for a "Background: " session: among the candidates the newest, and among
    the newest the one whose id comes first in the order of
    [localeCompare]. *)
Theorem task_session_is_newest_then_first_id
    (allSessionMetas : list value) (parentSessionId description : string) (startedAt : Z) :
  collates rt ->
  (exists m, In m allSessionMetas
             /\ isCandidate parentSessionId ("Task: " ++ description) startedAt m) ->
  exists c,
    In c allSessionMetas
    /\ isCandidate parentSessionId ("Task: " ++ description) startedAt c
    /\ findTaskSessionId allSessionMetas parentSessionId description startedAt = firstId [c]
    /\ (forall c', In c' allSessionMetas ->
          isCandidate parentSessionId ("Task: " ++ description) startedAt c' ->
          createdOrZero c' <= createdOrZero c)
    /\ (forall c', In c' allSessionMetas ->
          isCandidate parentSessionId ("Task: " ++ description) startedAt c' ->
          createdOrZero c' = createdOrZero c ->
          localeCompare (idOf c) (idOf c') <= 0).
Proof.
  intros Hc Hex. unfold findTaskSessionId. now apply first_candidate.
Qed.

End SearchFacts.

Lemma task_session_is_newest_then_first_id_witness :
  exists c,
    In c tiedTaskSessions
    /\ isCandidate "ses_main" ("Task: " ++ "Task tie-break test") 1000 c
    /\ @findTaskSessionId exampleRuntime tiedTaskSessions "ses_main" "Task tie-break test" 1000
       = @firstId [c]
    /\ (forall c', In c' tiedTaskSessions ->
          isCandidate "ses_main" ("Task: " ++ "Task tie-break test") 1000 c' ->
          createdOrZero c' <= createdOrZero c)
    /\ (forall c', In c' tiedTaskSessions ->
          isCandidate "ses_main" ("Task: " ++ "Task tie-break test") 1000 c' ->
          createdOrZero c' = createdOrZero c ->
          @localeCompare exampleRuntime (idOf c) (idOf c') <= 0).
Proof.
  apply (@task_session_is_newest_then_first_id exampleRuntime
           tiedTaskSessions "ses_main" "Task tie-break test" 1000 exampleRuntime_collates).
  exists (sessionDoc "ses_task_zzz" "ses_main" "Task: Task tie-break test" 1500).
  split; [simpl; auto|]. repeat split. exists 1500. split; [reflexivity | lia].
Defined.

Example task_tie_gives_aaa :
  @findTaskSessionId exampleRuntime tiedTaskSessions "ses_main" "Task tie-break test" 1000
  = Some "ses_task_aaa".
Proof. reflexivity. Qed.

End BackgroundTasksMore.

(* ------------------------------------------------------------------ *)
(** ** The statistics of a session and the rows of the table *)

Module BackgroundTasksRows.
Import Js BackgroundTasks BackgroundTasksShapes JsFacts BackgroundTasksFacts.

Lemma string_length_app (a b : string) :
  String.length (a ++ b) = (String.length a + String.length b)%nat.
Proof. induction a as [|c r IH]; simpl; [reflexivity | now rewrite IH]. Qed.

Lemma clampString_length (v : value) (maxLen : nat) (r : string) :
  clampString v maxLen = Some r ->
  (String.length r <= maxLen)%nat /\ ((1 <= maxLen)%nat -> (1 <= String.length r)%nat).
Proof.
  unfold clampString. destruct v; try discriminate.
  destruct (String.eqb (trim s) "") eqn:E; [discriminate|].
  apply String.eqb_neq in E.
  assert (Hlen : (1 <= String.length (trim s))%nat).
  { destruct (trim s); [congruence | simpl; lia]. }
  destruct (String.length (trim s) <=? maxLen)%nat eqn:L; intros H; injection H as <-.
  - apply Nat.leb_le in L. lia.
  - apply Nat.leb_gt in L. unfold sliceTo.
    rewrite BackgroundTasksMore.substring_length. lia.
Qed.

Lemma agentOf_length (input : value) :
  (1 <= String.length (agentOf input) <= 48)%nat.
Proof.
  unfold agentOf, AGENT_MAX.
  destruct (clampString (get "subagent_type" input) 30) as [a|] eqn:Ea.
  - apply clampString_length in Ea. lia.
  - destruct (clampString (get "category" input) 30) as [c|] eqn:Ec.
    + apply clampString_length in Ec. rewrite !string_length_app. simpl. lia.
    + simpl. lia.
Qed.

Lemma tool_parts_are_tool_parts (storage : OpenCodeStorageRoots) (messageID : string)
    (fsLike : FsLike) :
  Forall (fun p => isToolPart p = true) (readToolPartsForMessage storage messageID fsLike).
Proof.
  unfold readToolPartsForMessage.
  destruct (negb _); [constructor|].
  apply Forall_forall. intros p Hp. now apply filter_In in Hp.
Qed.

Lemma isToolPart_toolOf (p : value) : isToolPart p = true -> exists t, toolOf p = Some t.
Proof.
  unfold isToolPart, toolOf. rewrite !andb_true_iff. intros ((((_ & _) & Hs) & _) & _).
  destruct (get "tool" p); try discriminate. eauto.
Qed.

(** *** [deriveBackgroundSessionStats] *)

Section StatsFacts.
Context {rt : Runtime} {ing : Ingest}.
Variable storage : OpenCodeStorageRoots.
Variable fsLike : FsLike.

(** The loop over the parts of one message. *)
Lemma count_parts_loop (parts : list value) :
  forall st,
    let r :=
      fold_left
        (fun s p =>
           {| statsToolCalls := statsToolCalls s + 1; statsLastTool := toolOf p;
              lastUpdateAt := lastUpdateAt s |})
        parts st in
    statsToolCalls r = statsToolCalls st + Z.of_nat (List.length parts)
    /\ lastUpdateAt r = lastUpdateAt st
    /\ (parts = [] -> statsLastTool r = statsLastTool st)
    /\ (parts <> [] -> Forall (fun p => isToolPart p = true) parts ->
        exists t, statsLastTool r = Some t).
Proof.
  induction parts as [|p rest IH]; intros st; cbv zeta.
  - simpl. repeat split; try lia. intros H. congruence.
  - cbn [fold_left].
    destruct (IH {| statsToolCalls := statsToolCalls st + 1; statsLastTool := toolOf p;
                    lastUpdateAt := lastUpdateAt st |}) as (Hc & Hu & Hnil & Hlast).
    cbn [statsToolCalls lastUpdateAt statsLastTool] in *.
    repeat split.
    + rewrite Hc. cbn [List.length]. lia.
    + exact Hu.
    + discriminate.
    + intros _ Hall. inversion Hall as [|? ? Hp Hrest]; subst.
      destruct rest as [|q rest'].
      * rewrite (Hnil eq_refl). now apply isToolPart_toolOf.
      * apply Hlast; [discriminate | assumption].
Qed.

Lemma replayMessage_facts (st : SessionStats) (meta : value) :
  let r := replayMessage storage fsLike st meta in
  statsToolCalls r
  = statsToolCalls st
    + Z.of_nat (List.length (readToolPartsForMessage storage (idOf meta) fsLike))
  /\ lastUpdateAt r
     = match createdOf meta with Some c => Some c | None => lastUpdateAt st end
  /\ (tallied st -> tallied r).
Proof.
  cbv zeta. unfold replayMessage.
  set (st1 := match createdOf meta with Some _ => _ | None => st end).
  assert (H1 : statsToolCalls st1 = statsToolCalls st /\ statsLastTool st1 = statsLastTool st
               /\ lastUpdateAt st1
                  = match createdOf meta with Some c => Some c | None => lastUpdateAt st end).
  { unfold st1. destruct (createdOf meta); repeat split. }
  destruct H1 as (E1 & E2 & E3).
  destruct (count_parts_loop (readToolPartsForMessage storage (idOf meta) fsLike) st1)
    as (Hc & Hu & Hnil & Hlast).
  split; [rewrite Hc, E1; reflexivity|]. split; [rewrite Hu; exact E3|].
  intros [Hpos Hiff]. unfold tallied. rewrite Hc, E1.
  destruct (readToolPartsForMessage storage (idOf meta) fsLike) as [|p rest] eqn:Ep.
  - rewrite (Hnil eq_refl), E2. simpl. rewrite Z.add_0_r. now split.
  - destruct Hlast as [t Ht].
    + discriminate.
    + rewrite <- Ep. apply tool_parts_are_tool_parts.
    + rewrite Ht. cbn [List.length]. split; [lia|].
      split; [discriminate | lia].
Qed.

Lemma replay_loop (metas : list value) :
  forall st,
    let r := fold_left (replayMessage storage fsLike) metas st in
    statsToolCalls r = statsToolCalls st + countParts storage fsLike metas
    /\ lastUpdateAt r = lastCreated (lastUpdateAt st) metas
    /\ (tallied st -> tallied r).
Proof.
  induction metas as [|m rest IH]; intros st; cbv zeta.
  - simpl. unfold countParts. simpl. split; [lia|]. split; [reflexivity | tauto].
  - cbn [fold_left].
    destruct (IH (replayMessage storage fsLike st m)) as (Hc & Hu & Ht).
    destruct (replayMessage_facts st m) as (Hc1 & Hu1 & Ht1).
    split; [|split].
    + rewrite Hc, Hc1. unfold countParts. simpl. lia.
    + rewrite Hu, Hu1. reflexivity.
    + intros H. apply Ht, Ht1, H.
Qed.

Lemma countParts_perm (l1 l2 : list value) :
  Permutation l1 l2 -> countParts storage fsLike l1 = countParts storage fsLike l2.
Proof.
  unfold countParts. induction 1; simpl; lia.
Qed.

Lemma stats_tally (metas : list value) :
  let stats := deriveBackgroundSessionStats storage metas fsLike in
  statsToolCalls stats = countParts storage fsLike metas /\ tallied stats.
Proof.
  cbv zeta. unfold deriveBackgroundSessionStats.
  destruct (replay_loop (sortBy compareReplay metas)
              {| statsToolCalls := 0; statsLastTool := None; lastUpdateAt := None |})
    as (Hc & _ & Ht).
  split.
  - rewrite Hc. simpl. apply countParts_perm, sortBy_perm.
  - apply Ht. split; simpl; [lia | tauto].
Qed.

(** X14: The tool calls of a session are the tool parts of its messages, added
    up, whatever the order of the messages; and the last tool is null
    exactly when there is no tool call. *)
Theorem session_stats_count_tool_parts (metas : list value) :
  let stats := deriveBackgroundSessionStats storage metas fsLike in
  statsToolCalls stats = countParts storage fsLike metas
  /\ 0 <= statsToolCalls stats
  /\ (statsLastTool stats = None <-> statsToolCalls stats = 0)
  /\ forall metas', Permutation metas metas' ->
       statsToolCalls (deriveBackgroundSessionStats storage metas' fsLike)
       = statsToolCalls stats.
Proof.
  cbv zeta. destruct (stats_tally metas) as (Hc & Hpos & Hiff).
  repeat split; try assumption; try apply Hiff.
  intros metas' Hp. destruct (stats_tally metas') as (Hc' & _).
  rewrite Hc, Hc'. symmetry. now apply countParts_perm.
Qed.

Lemma compareReplay_total :
  collates rt -> forall a b, compareReplay a b <= 0 \/ compareReplay b a <= 0.
Proof.
  intros [Ht _] a b. unfold compareReplay.
  destruct (createdOrZero a =? createdOrZero b) eqn:E.
  - apply Z.eqb_eq in E. rewrite E, Z.eqb_refl. simpl. apply Ht.
  - rewrite Z.eqb_sym, E. simpl. lia.
Qed.

Lemma compareReplay_trans :
  collates rt -> forall a b c,
    compareReplay a b <= 0 -> compareReplay b c <= 0 -> compareReplay a c <= 0.
Proof.
  intros [_ Htr] a b c. unfold compareReplay.
  destruct (createdOrZero a =? createdOrZero b) eqn:E1;
    destruct (createdOrZero b =? createdOrZero c) eqn:E2;
    destruct (createdOrZero a =? createdOrZero c) eqn:E3; simpl;
    rewrite ?Z.eqb_eq, ?Z.eqb_neq in *; try lia.
  apply Htr.
Qed.

Lemma compareReplay_le (a b : value) :
  compareReplay a b <= 0 -> createdOrZero a <= createdOrZero b.
Proof.
  unfold compareReplay.
  destruct (createdOrZero a =? createdOrZero b) eqn:E; simpl;
    rewrite ?Z.eqb_eq, ?Z.eqb_neq in *; lia.
Qed.

(** Over messages in the order of their creation times, the last time
    stamp is the greatest. *)
Lemma lastCreated_sorted (metas : list value) :
  StronglySorted (before compareReplay) metas ->
  forall acc,
    (forall a m c, acc = Some a -> In m metas -> createdOf m = Some c -> a <= c) ->
    (lastCreated acc metas = None <->
       acc = None /\ forall m, In m metas -> createdOf m = None)
    /\ forall t, lastCreated acc metas = Some t ->
         (acc = Some t \/ exists m, In m metas /\ createdOf m = Some t)
         /\ (forall a, acc = Some a -> a <= t)
         /\ (forall m c, In m metas -> createdOf m = Some c -> c <= t).
Proof.
  induction 1 as [|x r Hr IH Hx]; intros acc Hacc.
  - simpl. split.
    + split; [intros ->; split; [reflexivity | contradiction] | tauto].
    + intros t ->. split; [now left|]. split.
      * intros a [= <-]. lia.
      * contradiction.
  - unfold lastCreated. cbn [fold_left]. fold (lastCreated
      (match createdOf x with Some c => Some c | None => acc end) r).
    rewrite Forall_forall in Hx.
    destruct (createdOf x) as [cx|] eqn:Ex.
    + destruct (IH (Some cx)) as [Hn Hs].
      { intros a m c [= <-] Hm Hc. pose proof (compareReplay_le _ _ (Hx m Hm)) as Hle.
        unfold createdOrZero in Hle. now rewrite Ex, Hc in Hle. }
      split.
      * split.
        -- intros H. apply Hn in H. destruct H; discriminate.
        -- intros [_ H]. specialize (H x (or_introl eq_refl)). congruence.
      * intros t Ht. destruct (Hs t Ht) as (Hfrom & Hlow & Hup).
        split; [|split].
        -- right. destruct Hfrom as [[= <-]|(m & Hm & Hc)].
           ++ exists x. split; [now left | assumption].
           ++ exists m. split; [now right | assumption].
        -- intros a Ea. specialize (Hlow cx eq_refl).
           specialize (Hacc a x cx Ea (or_introl eq_refl) Ex). lia.
        -- intros m c [<-|Hm] Hc.
           ++ rewrite Ex in Hc. injection Hc as <-. now apply Hlow.
           ++ now apply (Hup m).
    + destruct (IH acc) as [Hn Hs].
      { intros a m c Ea Hm Hc. apply (Hacc a m c Ea); [now right | assumption]. }
      split.
      * split.
        -- intros H. apply Hn in H. destruct H as [-> H]. split; [reflexivity|].
           intros m [<-|Hm]; [assumption | now apply H].
        -- intros [-> H]. apply Hn. split; [reflexivity|].
           intros m Hm. apply H. now right.
      * intros t Ht. destruct (Hs t Ht) as (Hfrom & Hlow & Hup).
        split; [|split].
        -- destruct Hfrom as [->|(m & Hm & Hc)]; [now left|].
           right. exists m. split; [now right | assumption].
        -- exact Hlow.
        -- intros m c [<-|Hm] Hc; [congruence | now apply (Hup m)].
Qed.

(** X15: With a [localeCompare] that is a collation, the last update of a
    session is the latest creation time among its messages, and null
    exactly when no message has a creation time. *)
Theorem session_stats_last_update_is_latest (metas : list value) :
  collates rt ->
  let stats := deriveBackgroundSessionStats storage metas fsLike in
  (lastUpdateAt stats = None <-> forall m, In m metas -> createdOf m = None)
  /\ forall t, lastUpdateAt stats = Some t -> latestCreated metas t.
Proof.
  intros Hc. cbv zeta. unfold deriveBackgroundSessionStats.
  destruct (replay_loop (sortBy compareReplay metas)
              {| statsToolCalls := 0; statsLastTool := None; lastUpdateAt := None |})
    as (_ & Hu & _).
  rewrite Hu. cbn [lastUpdateAt].
  destruct (lastCreated_sorted (sortBy compareReplay metas)
              (sortBy_sorted compareReplay (compareReplay_total Hc) (compareReplay_trans Hc)
                 metas)
              None) as [Hn Hs]; [discriminate|].
  pose proof (sortBy_perm compareReplay metas) as Hp.
  split.
  - rewrite Hn. split.
    + intros [_ H] m Hm. apply H. now apply (Permutation_in _ (Permutation_sym Hp)).
    + intros H. split; [reflexivity|]. intros m Hm. apply H.
      now apply (Permutation_in _ Hp).
  - intros t Ht. destruct (Hs t Ht) as (Hfrom & _ & Hup). split.
    + destruct Hfrom as [E|(m & Hm & Hcm)]; [discriminate|].
      exists m. split; [now apply (Permutation_in _ Hp) | assumption].
    + intros m c Hm Hcm. apply (Hup m); [|assumption].
      now apply (Permutation_in _ (Permutation_sym Hp)).
Qed.

End StatsFacts.

Lemma session_stats_last_update_is_latest_witness :
  let metas := readRecentMessageMetas "st/message/ses_c" 200 (fsOf diskReplay) in
  let stats :=
    @deriveBackgroundSessionStats exampleRuntime exampleStorage metas (fsOf diskReplay) in
  (lastUpdateAt stats = None <-> forall m, In m metas -> createdOf m = None)
  /\ forall t, lastUpdateAt stats = Some t -> latestCreated metas t.
Proof.
  exact (@session_stats_last_update_is_latest exampleRuntime exampleStorage (fsOf diskReplay)
           (readRecentMessageMetas "st/message/ses_c" 200 (fsOf diskReplay))
           exampleRuntime_collates).
Defined.

Example replay_of_two_messages :
  let metas := readRecentMessageMetas "st/message/ses_c" 200 (fsOf diskReplay) in
  map idOf metas = ["m1"; "m2"]
  /\ @deriveBackgroundSessionStats exampleRuntime exampleStorage metas (fsOf diskReplay)
     = {| statsToolCalls := 3; statsLastTool := Some "grep"; lastUpdateAt := Some 2000 |}.
Proof. split; vm_compute; reflexivity. Qed.

End BackgroundTasksRows.

(* ------------------------------------------------------------------ *)
(** ** The table of [deriveBackgroundTasks] *)

Module BackgroundTasksTable.
Import Js BackgroundTasks BackgroundTasksShapes BackgroundTasksFailures.
Import JsFacts BackgroundTasksFacts BackgroundTasksRows.

Section TableFacts.
Context {rt : Runtime} {ing : Ingest}.
Variable storage : OpenCodeStorageRoots.
Variable mainSessionId : string.
Variable nowMs : Z.
Variable fsLike : FsLike.

(** The body of the loop over the parts, with the input and the agent
    named. *)
Lemma partBody_unfold (allSessionMetas : list value) (startedAt : Z)
    (rows : list BackgroundTaskRow) (part : value) :
  partBody storage mainSessionId nowMs fsLike allSessionMetas startedAt rows part
  = if negb (stringField "tool" part "delegate_task") then Some rows
    else if negb (truthy (get "state" part) && isObjectNotNull (get "state" part))
    then Some rows
    else if negb (isObjectNotNull (delegationInput part)) then Some rows
    else
      match get "run_in_background" (delegationInput part) with
      | VBool runInBackground =>
          match clampString (get "description" (delegationInput part)) DESCRIPTION_MAX with
          | None => Some rows
          | Some d =>
              match correlate storage mainSessionId fsLike allSessionMetas runInBackground
                      (delegationInput part) d startedAt with
              | None => None
              | Some sid =>
                  match makeRow storage nowMs fsLike part d (agentOf (delegationInput part))
                          startedAt sid with
                  | None => None
                  | Some row => Some (rows ++ [row])
                  end
              end
          end
      | _ => Some rows
      end.
Proof. reflexivity. Qed.

Lemma makeRow_fields (part : value) (d a : string) (startedAt : Z) (sid : option string)
    (row : BackgroundTaskRow) :
  makeRow storage nowMs fsLike part d a startedAt sid = Some row ->
  id row = get "callID" part /\ description row = d /\ agent row = a /\ sessionId row = sid
  /\ (linked sid = false ->
      status row = queued /\ toolCalls row = None /\ lastTool row = None
      /\ lastModel row = None)
  /\ (linked sid = true ->
      exists s, sid = Some s
        /\ toolCalls row = Some (statsToolCalls (readBackgroundStats storage fsLike s))
        /\ lastTool row = statsLastTool (readBackgroundStats storage fsLike s)).
Proof.
  unfold makeRow.
  set (stats := if linked sid then _ else _).
  set (st := statusOf sid stats nowMs).
  destruct (if isUnknown st then Some "" else _) as [t|] eqn:Et; [|discriminate].
  intros H. injection H as <-. cbn.
  repeat split.
  - unfold st, statusOf. now rewrite H.
  - now rewrite H.
  - unfold stats. now rewrite H.
  - now rewrite H.
  - intros L. destruct sid as [s|]; [|discriminate]. exists s.
    unfold stats. rewrite L. repeat split.
Qed.

Lemma makeRow_None (part : value) (d a : string) (startedAt : Z) (sid : option string) :
  makeRow storage nowMs fsLike part d a startedAt sid = None ->
  8640000000000000 < Z.abs startedAt.
Proof.
  unfold makeRow.
  set (stats := if linked sid then _ else _).
  set (st := statusOf sid stats nowMs).
  set (e := if isCompleted st then _ else _).
  destruct (isUnknown st); [discriminate|].
  unfold formatTimeline, formatIsoNoMs, toISOString.
  destruct (Z.abs startedAt <=? 8640000000000000) eqn:E.
  - destruct (civilFromDays (startedAt / 86400000)) as [[y m] dd]. discriminate.
  - intros _. now apply Z.leb_gt in E.
Qed.

Lemma correlate_None (allSessionMetas : list value) (b : bool) (input : value) (d : string)
    (startedAt : Z) :
  correlate storage mainSessionId fsLike allSessionMetas b input d startedAt = None ->
  b = false
  /\ exists r,
       get "resume" input = VStr r
       /\ existsSync fsLike (getMessageDir (message storage) (trim r)) = true
       /\ readdirSync fsLike (getMessageDir (message storage) (trim r)) = None.
Proof.
  unfold correlate. destruct b; [discriminate|].
  destruct (resumedSession storage fsLike input) as [res|] eqn:E.
  - destruct (linked res); [discriminate|].
    destruct (linked (findBackgroundSessionId _ _ _ _)); discriminate.
  - intros _. split; [reflexivity|]. unfold resumedSession in E.
    destruct (get "resume" input) as [| | | |r| |]; try discriminate.
    exists r. split; [reflexivity|].
    destruct (negb (String.eqb (trim r) "")); [|discriminate].
    destruct (existsSync fsLike (getMessageDir (message storage) (trim r))); [|discriminate].
    split; [reflexivity|].
    destruct (readdirSync fsLike (getMessageDir (message storage) (trim r))) as [entries|];
      [|reflexivity].
    destruct (0 <? List.length entries)%nat; discriminate.
Qed.

Lemma partBody_pushed (allSessionMetas : list value) (meta : value) (startedAt : Z)
    (rows rows' : list BackgroundTaskRow) (part : value) :
  In meta (readRecentMessageMetas (getMessageDir (message storage) mainSessionId) 200 fsLike) ->
  createdOf meta = Some startedAt ->
  In part (readToolPartsForMessage storage (idOf meta) fsLike) ->
  partBody storage mainSessionId nowMs fsLike allSessionMetas startedAt rows part = Some rows' ->
  rows' = rows
  \/ exists row, pushed storage mainSessionId nowMs fsLike row /\ rows' = rows ++ [row].
Proof.
  intros Hmeta Hcreated Hpart. rewrite partBody_unfold.
  destruct (negb (stringField "tool" part "delegate_task")) eqn:Et;
    [intros [= <-]; now left|].
  apply negb_false_iff, stringField_iff in Et.
  destruct (negb (truthy (get "state" part) && isObjectNotNull (get "state" part)));
    [intros [= <-]; now left|].
  destruct (negb (isObjectNotNull (delegationInput part))); [intros [= <-]; now left|].
  destruct (get "run_in_background" (delegationInput part)) as [| |b| | | |] eqn:Eb;
    try (intros [= <-]; now left).
  destruct (clampString (get "description" (delegationInput part)) DESCRIPTION_MAX)
    as [d|] eqn:Ed; [|intros [= <-]; now left].
  destruct (correlate _ _ _ _ _ _ _ _) as [sid|]; [|discriminate].
  destruct (makeRow _ _ _ _ _ _ _ _) as [row|] eqn:Er; [|discriminate].
  intros [= <-]. right. exists row. split; [|reflexivity].
  exists meta, part, startedAt, sid, d. repeat split; try assumption. now exists b.
Qed.

Lemma partBody_fails (allSessionMetas : list value) (startedAt : Z)
    (rows : list BackgroundTaskRow) (part : value) :
  partBody storage mainSessionId nowMs fsLike allSessionMetas startedAt rows part = None ->
  get "tool" part = VStr "delegate_task"
  /\ (8640000000000000 < Z.abs startedAt
      \/ exists r,
           get "run_in_background" (delegationInput part) = VBool false
           /\ get "resume" (delegationInput part) = VStr r
           /\ existsSync fsLike (getMessageDir (message storage) (trim r)) = true
           /\ readdirSync fsLike (getMessageDir (message storage) (trim r)) = None).
Proof.
  rewrite partBody_unfold.
  destruct (negb (stringField "tool" part "delegate_task")) eqn:Et; [discriminate|].
  apply negb_false_iff, stringField_iff in Et.
  destruct (negb (truthy (get "state" part) && isObjectNotNull (get "state" part)));
    [discriminate|].
  destruct (negb (isObjectNotNull (delegationInput part))); [discriminate|].
  destruct (get "run_in_background" (delegationInput part)) as [| |b| | | |] eqn:Eb;
    try discriminate.
  destruct (clampString (get "description" (delegationInput part)) DESCRIPTION_MAX)
    as [d|] eqn:Ed; [|discriminate].
  destruct (correlate _ _ _ _ _ _ _ _) as [sid|] eqn:Ec.
  - destruct (makeRow _ _ _ _ _ _ _ _) as [row|] eqn:Er; [discriminate|].
    intros _. split; [assumption|]. left. eapply makeRow_None; eassumption.
  - intros _. split; [assumption|]. right.
    apply correlate_None in Ec. destruct Ec as (-> & r & Hr & He & Hd).
    exists r. auto.
Qed.

Lemma scanParts_pushed (allSessionMetas : list value) (meta : value) (startedAt : Z)
    (parts : list value) :
  In meta (readRecentMessageMetas (getMessageDir (message storage) mainSessionId) 200 fsLike) ->
  createdOf meta = Some startedAt ->
  (forall p, In p parts -> In p (readToolPartsForMessage storage (idOf meta) fsLike)) ->
  forall rows,
    Forall (pushed storage mainSessionId nowMs fsLike) rows ->
    match scanParts storage mainSessionId nowMs fsLike allSessionMetas startedAt parts rows with
    | Some out => Forall (pushed storage mainSessionId nowMs fsLike) out
    | None => failureCause storage mainSessionId fsLike
    end.
Proof.
  intros Hmeta Hcreated. induction parts as [|p rest IH]; intros Hin rows Hrows; simpl.
  - assumption.
  - destruct (partBody storage mainSessionId nowMs fsLike allSessionMetas startedAt rows p)
      as [rows'|] eqn:E.
    + apply IH; [intros q Hq; apply Hin; now right|].
      apply (partBody_pushed _ meta) in E; try assumption; [|apply Hin; now left].
      destruct E as [->|(row & Hrow & ->)]; [assumption|].
      apply Forall_app. split; [assumption | now constructor].
    + apply partBody_fails in E. destruct E as [Ht Hc].
      exists meta, startedAt, p. repeat split; try assumption. apply Hin. now left.
Qed.

Lemma scanMessages_pushed (allSessionMetas : list value) (ordered : list value) :
  (forall m, In m ordered ->
     In m (readRecentMessageMetas (getMessageDir (message storage) mainSessionId) 200 fsLike)) ->
  forall rows,
    Forall (pushed storage mainSessionId nowMs fsLike) rows ->
    match scanMessages storage mainSessionId nowMs fsLike allSessionMetas ordered rows with
    | Some out => Forall (pushed storage mainSessionId nowMs fsLike) out
    | None => failureCause storage mainSessionId fsLike
    end.
Proof.
  induction ordered as [|meta rest IH]; intros Hin rows Hrows; cbn [scanMessages].
  - assumption.
  - assert (Hrest : forall m, In m rest ->
              In m (readRecentMessageMetas (getMessageDir (message storage) mainSessionId)
                      200 fsLike))
      by (intros m Hm; apply Hin; now right).
    destruct (createdOf meta) as [startedAt|] eqn:Ec; [|now apply IH].
    pose proof (scanParts_pushed allSessionMetas meta startedAt
                  (readToolPartsForMessage storage (idOf meta) fsLike)
                  (Hin meta (or_introl eq_refl)) Ec (fun p Hp => Hp) rows Hrows) as Hs.
    destruct (scanParts storage mainSessionId nowMs fsLike allSessionMetas startedAt
                (readToolPartsForMessage storage (idOf meta) fsLike) rows) as [rows'|];
      [|assumption].
    destruct (50 <=? List.length rows')%nat; [assumption | now apply IH].
Qed.

Lemma derive_pushed :
  match deriveBackgroundTasks storage mainSessionId nowMs fsLike with
  | Some rows => Forall (pushed storage mainSessionId nowMs fsLike) rows
  | None => failureCause storage mainSessionId fsLike
  end.
Proof.
  unfold deriveBackgroundTasks. apply scanMessages_pushed; [|constructor].
  intros m Hm. exact (Permutation_in _ (sortBy_perm _ _) Hm).
Qed.

Lemma pushed_builtFrom (row : BackgroundTaskRow) :
  pushed storage mainSessionId nowMs fsLike row -> builtFrom storage mainSessionId fsLike row.
Proof.
  intros (meta & part & startedAt & sid & d & Hm & Hc & Hp & Ht & Hb & Hd & Hr).
  apply makeRow_fields in Hr. destruct Hr as (Hid & Hdesc & Hag & _).
  exists meta, part. repeat split; try assumption.
  - congruence.
  - now rewrite Hdesc.
Qed.

Lemma pushed_rowShape (row : BackgroundTaskRow) :
  pushed storage mainSessionId nowMs fsLike row -> rowShape row.
Proof.
  intros (meta & part & startedAt & sid & d & Hm & Hc & Hp & Ht & Hb & Hd & Hr).
  apply makeRow_fields in Hr. destruct Hr as (Hid & Hdesc & Hag & Hsid & Hun & Hli).
  apply clampString_length in Hd. unfold DESCRIPTION_MAX in Hd.
  unfold rowShape. rewrite Hdesc, Hag, Hsid.
  split; [lia|]. split; [apply agentOf_length|]. split; [exact Hun|].
  intros L. destruct (Hli L) as (s & -> & Htc & Hlt).
  exists (statsToolCalls (readBackgroundStats storage fsLike s)).
  split; [exact Htc|]. rewrite Hlt. unfold readBackgroundStats.
  destruct (stats_tally storage fsLike (readBackgroundMetas storage fsLike s)) as (_ & Hpos & Hiff).
  split; assumption.
Qed.

(** X16: Every row of the table was built from a [delegate_task] part of a
    message of the main session that has a creation time: the id of the row
    is the call id of the part, its description is the description of the
    delegation trimmed and cut to 120 characters, and its agent is the
    subagent type, else "sisyphus-junior (category)", else "unknown". *)
Theorem rows_are_built_from_delegations
    (rows : list BackgroundTaskRow) (row : BackgroundTaskRow) :
  deriveBackgroundTasks storage mainSessionId nowMs fsLike = Some rows ->
  In row rows ->
  builtFrom storage mainSessionId fsLike row.
Proof.
  intros H Hin. pose proof derive_pushed as Hp. rewrite H in Hp.
  rewrite Forall_forall in Hp. now apply pushed_builtFrom, Hp.
Qed.

(** X17: Every row of the table has a description of 1 to 120 characters and
    an agent of 1 to 48 characters; a row with no linked session is queued
    and has no tool calls, last tool or last model; a row with a linked
    session has a tool call count that is not negative, and a last tool
    exactly when that count is not zero. *)
Theorem rows_are_well_shaped (rows : list BackgroundTaskRow) (row : BackgroundTaskRow) :
  deriveBackgroundTasks storage mainSessionId nowMs fsLike = Some rows ->
  In row rows ->
  rowShape row.
Proof.
  intros H Hin. pose proof derive_pushed as Hp. rewrite H in Hp.
  rewrite Forall_forall in Hp. now apply pushed_rowShape, Hp.
Qed.


(** X19: When no message of the main session holds more than [k] tool parts,
    the table has at most 49 + k rows. *)
Theorem rows_are_bounded_by_the_largest_message (k : nat) (rows : list BackgroundTaskRow) :
  Forall (fun meta =>
            (List.length (readToolPartsForMessage storage (idOf meta) fsLike) <= k)%nat)
    (readRecentMessageMetas (getMessageDir (message storage) mainSessionId) 200 fsLike) ->
  deriveBackgroundTasks storage mainSessionId nowMs fsLike = Some rows ->
  (List.length rows <= 49 + k)%nat.
Proof.
  intros Hk H. unfold deriveBackgroundTasks in H.
  eapply scanMessages_steps with (rows := []) (out := rows); [| | |exact H].
  - apply (Permutation_Forall (Permutation_sym (sortBy_perm _ _))). exact Hk.
  - simpl. lia.
  - constructor.
Qed.

End TableFacts.

Lemma rows_are_built_from_delegations_witness :
  @builtFrom exampleStorage "ses_main" exampleIngest (fsOf diskScanRepo) scanRepoRow.
Proof.
  apply (@rows_are_built_from_delegations exampleRuntime exampleIngest exampleStorage
           "ses_main" 3000 (fsOf diskScanRepo) [scanRepoRow] scanRepoRow).
  - vm_compute. reflexivity.
  - left. reflexivity.
Defined.

Lemma rows_are_well_shaped_witness : rowShape scanRepoRow.
Proof.
  apply (@rows_are_well_shaped exampleRuntime exampleIngest exampleStorage
           "ses_main" 3000 (fsOf diskScanRepo) [scanRepoRow] scanRepoRow).
  - vm_compute. reflexivity.
  - left. reflexivity.
Defined.



Lemma rows_are_bounded_by_the_largest_message_witness :
  (List.length [scanRepoRow] <= 49 + 1)%nat.
Proof.
  apply (@rows_are_bounded_by_the_largest_message exampleRuntime exampleIngest exampleStorage
           "ses_main" 3000 (fsOf diskScanRepo) 1%nat [scanRepoRow]).
  - vm_compute. repeat constructor.
  - vm_compute. reflexivity.
Defined.

Example unlistable_resume_directory_throws :
  @deriveBackgroundTasks exampleRuntime exampleIngest exampleStorage "ses_main" 3000
    (fsOf diskResumeFile)
  = None
  /\ existsSync (fsOf diskResumeFile) "st/message/ses_x" = true
  /\ readdirSync (fsOf diskResumeFile) "st/message/ses_x" = None.
Proof. repeat split; vm_compute; reflexivity. Qed.

End BackgroundTasksTable.

(* ------------------------------------------------------------------ *)
(** ** More on src/server/dashboard.ts *)

Module DashboardMore.
Import Js Dashboard DashboardShapes DashboardFacts.

(** *** The store over a run of events *)

Lemma getSnapshot_returns (pollIntervalMs : Z) (build : option value) (now : Z) (st : Store) :
  let o := getSnapshot pollIntervalMs build now st in
  (recomputed o = true -> returned o = build)
  /\ (returned o = None -> recomputed o = true /\ build = None)
  /\ (forall v, returned o = Some v -> build = Some v \/ cached st = Some v)
  /\ (forall v, cached (after o) = Some v -> build = Some v \/ cached st = Some v).
Proof.
  cbv zeta. unfold getSnapshot.
  destruct (mustRecompute pollIntervalMs now st) eqn:E.
  - destruct build as [p|]; simpl; repeat split; auto; discriminate.
  - simpl. unfold mustRecompute in E. rewrite !orb_false_iff in E.
    destruct E as [[E _] _].
    split; [discriminate|]. split; [|split; auto].
    intros H. rewrite H in E. discriminate.
Qed.

Lemma run_reads (pollIntervalMs : Z) (events : list Event) :
  forall st,
    Forall2
      (fun r o =>
         (recomputed o = true -> returned o = snd r)
         /\ (returned o = None -> recomputed o = true /\ snd r = None))
      (reads events) (snd (runStore pollIntervalMs events st)).
Proof.
  induction events as [|[|now build] rest IH]; intros st; simpl.
  - constructor.
  - apply IH.
  - specialize (IH (after (getSnapshot pollIntervalMs build now st))).
    destruct (runStore pollIntervalMs rest (after (getSnapshot pollIntervalMs build now st)))
      as [final outcomes].
    simpl in *. constructor; [|exact IH].
    destruct (getSnapshot_returns pollIntervalMs build now st) as (H1 & H2 & _).
    split; assumption.
Qed.

Lemma run_built (pollIntervalMs : Z) (P : value -> Prop) (events : list Event) :
  (forall now v, In (Read now (Some v)) events -> P v) ->
  forall st,
    (forall v, cached st = Some v -> P v) ->
    Forall (fun o => forall v, returned o = Some v -> P v)
      (snd (runStore pollIntervalMs events st)).
Proof.
  induction events as [|[|now build] rest IH]; intros HP st Hst; simpl.
  - constructor.
  - apply IH; [intros n v Hin; apply (HP n); now right | exact Hst].
  - destruct (getSnapshot_returns pollIntervalMs build now st) as (_ & _ & H3 & H4).
    assert (Hafter : forall v,
              cached (after (getSnapshot pollIntervalMs build now st)) = Some v -> P v).
    { intros v Hv. destruct (H4 v Hv) as [->|Hc]; [|now apply Hst].
      apply (HP now). now left. }
    specialize (IH (fun n v Hin => HP n v (or_intror Hin)) _ Hafter).
    destruct (runStore pollIntervalMs rest (after (getSnapshot pollIntervalMs build now st)))
      as [final outcomes].
    simpl in *. constructor; [|exact IH].
    intros v Hv. destruct (H3 v Hv) as [->|Hc]; [|now apply Hst].
    apply (HP now). now left.
Qed.

(** X20: Over every run of a new store there is one outcome for each read; a
    read that recomputes returns what [buildDashboardPayload] gave then; a
    read returns nothing only when it recomputed and the build threw; and
    every payload that is returned was built at a read of the run. *)
Theorem store_returns_only_built_payloads (pollIntervalMs : Z) (events : list Event) :
  let outcomes := snd (runStore pollIntervalMs events createDashboardStore) in
  Forall2
    (fun r o =>
       (recomputed o = true -> returned o = snd r)
       /\ (returned o = None -> recomputed o = true /\ snd r = None))
    (reads events) outcomes
  /\ Forall (fun o => forall v, returned o = Some v ->
                      exists now, In (Read now (Some v)) events)
       outcomes.
Proof.
  cbv zeta. split; [apply run_reads|].
  apply (run_built pollIntervalMs (fun v => exists now, In (Read now (Some v)) events)).
  - intros now v Hin. now exists now.
  - simpl. discriminate.
Qed.

(** X21: When [buildDashboardPayload] throws in a read, nothing is stored, and
    the next read, at that time or later, builds again and returns what it
    builds. *)
Theorem failed_build_is_retried (pollIntervalMs : Z) (st : Store) (now now' : Z)
    (build' : option value) :
  recomputed (getSnapshot pollIntervalMs None now st) = true ->
  now <= now' ->
  returned (getSnapshot pollIntervalMs None now st) = None
  /\ after (getSnapshot pollIntervalMs None now st) = st
  /\ recomputed (getSnapshot pollIntervalMs build' now'
                   (after (getSnapshot pollIntervalMs None now st))) = true
  /\ returned (getSnapshot pollIntervalMs build' now'
                 (after (getSnapshot pollIntervalMs None now st))) = build'.
Proof.
  rewrite getSnapshot_recomputed. intros H Hle.
  assert (Ha : after (getSnapshot pollIntervalMs None now st) = st).
  { unfold getSnapshot. now rewrite H. }
  assert (H' : mustRecompute pollIntervalMs now' st = true).
  { apply mustRecompute_iff. apply mustRecompute_iff in H.
    destruct H as [H|[H|H]]; [now left | right; now left | right; right; lia]. }
  rewrite Ha. split; [unfold getSnapshot; now rewrite H|]. split; [reflexivity|].
  split; [now rewrite getSnapshot_recomputed|].
  apply (getSnapshot_returns pollIntervalMs build' now' st).
  now rewrite getSnapshot_recomputed.
Qed.

Lemma failed_build_is_retried_witness :
  returned (getSnapshot 2000 None 10000 createDashboardStore) = None
  /\ after (getSnapshot 2000 None 10000 createDashboardStore) = createDashboardStore
  /\ recomputed (getSnapshot 2000 (Some (VStr "a")) 10001
                   (after (getSnapshot 2000 None 10000 createDashboardStore))) = true
  /\ returned (getSnapshot 2000 (Some (VStr "a")) 10001
                 (after (getSnapshot 2000 None 10000 createDashboardStore)))
     = Some (VStr "a").
Proof.
  apply (failed_build_is_retried 2000 createDashboardStore 10000 10001 (Some (VStr "a"))).
  - reflexivity.
  - lia.
Defined.

Lemma second_read_is_cached_witness :
  recomputed (getSnapshot 2000 (Some (VStr "b")) 12000
                (after (getSnapshot 2000 (Some (VStr "a")) 10000 createDashboardStore)))
  = false
  /\ returned (getSnapshot 2000 (Some (VStr "b")) 12000
                 (after (getSnapshot 2000 (Some (VStr "a")) 10000 createDashboardStore)))
     = Some (VStr "a").
Proof.
  apply (second_read_is_cached 2000 createDashboardStore 10000 12000
           (Some (VStr "a")) (Some (VStr "b")) (VStr "a")).
  - reflexivity.
  - simpl. lia.
Defined.

(** *** The payload when no session is active *)

Section IdlePayload.
Context {rt : Runtime} {ing : Ingest} {co : Collaborators}.
Variable projectRoot : string.
Variable storage : BackgroundTasks.OpenCodeStorageRoots.
Variable nowMs : Z.
Variable fsLike : BackgroundTasks.FsLike.

Lemma withSession_idle {A : Type} (f : string -> A) (d : A) :
  BackgroundTasks.linked (activeSessionId projectRoot storage) = false ->
  withSession projectRoot storage f d = d.
Proof.
  unfold withSession. intros H.
  destruct (activeSessionId projectRoot storage) as [s|]; [|reflexivity].
  now rewrite H.
Qed.

Lemma usage_idle :
  BackgroundTasks.linked (activeSessionId projectRoot storage) = false ->
  TokenUsageFs.deriveTokenUsage storage (activeSessionId projectRoot storage) [] fsLike
  = TokenUsageFsShapes.emptyPayload.
Proof.
  intros H. unfold TokenUsageFs.deriveTokenUsage.
  assert (E : fold_left TokenUsageFs.pushSessionId [activeSessionId projectRoot storage] []
              = []).
  { destruct (activeSessionId projectRoot storage) as [s|]; [|reflexivity].
    simpl in H. apply negb_false_iff, String.eqb_eq in H. subst s. reflexivity. }
  cbv zeta. rewrite E. reflexivity.
Qed.

(** X23: When no session is active (the id is null or empty),
    [buildDashboardPayload] returns a payload and reads no session: no
    background task, no main session task, empty token usage, and a main
    session that is named "(no session)" with agent and status "unknown". *)
Theorem payload_without_active_session :
  BackgroundTasks.linked (activeSessionId projectRoot storage) = false ->
  exists payload,
    buildDashboardPayload projectRoot storage nowMs fsLike = Some payload
    /\ get "backgroundTasks" payload = VArr []
    /\ get "mainSessionTasks" payload = VArr []
    /\ get "tokenUsage" payload = tokenUsageValue TokenUsageFsShapes.emptyPayload
    /\ get "mainSession" payload = noSessionView (activeSessionId projectRoot storage)
    /\ get "mainSession" (get "raw" payload) = get "mainSession" payload.
Proof.
  intros H. unfold buildDashboardPayload, dashboardTasks, mainSessionTasks, mainView.
  rewrite !(withSession_idle _ _ H). cbv zeta. simpl map. rewrite (usage_idle H).
  eexists. split; [reflexivity|]. repeat split.
Qed.

End IdlePayload.

Lemma payload_without_active_session_witness :
  exists payload,
    @buildDashboardPayload exampleRuntime exampleIngest idleCollaborators
      "project" BackgroundTasks.exampleStorage 3000
      (BackgroundTasks.fsOf BackgroundTasks.diskScanRepo) = Some payload
    /\ get "backgroundTasks" payload = VArr []
    /\ get "mainSessionTasks" payload = VArr []
    /\ get "tokenUsage" payload = tokenUsageValue TokenUsageFsShapes.emptyPayload
    /\ get "mainSession" payload
       = noSessionView
           (@activeSessionId idleCollaborators "project" BackgroundTasks.exampleStorage)
    /\ get "mainSession" (get "raw" payload) = get "mainSession" payload.
Proof.
  apply (@payload_without_active_session exampleRuntime exampleIngest idleCollaborators
           "project" BackgroundTasks.exampleStorage 3000
           (BackgroundTasks.fsOf BackgroundTasks.diskScanRepo)).
  reflexivity.
Defined.

End DashboardMore.

(* ------------------------------------------------------------------ *)
(** ** More on the time series of src/App.tsx *)

Module TimeSeriesUiMore.
Import Js TimeSeriesUi TimeSeriesUiShapes JsFacts TimeSeriesUiFacts.

Lemma indexSeries_step (k : string) (items : list value) :
  forall byId,
    assoc k
      (fold_left
         (fun byId s =>
            match seriesKey s with
            | Some k' => match assoc k' byId with Some _ => byId | None => mapSet k' s byId end
            | None => byId
            end)
         items byId)
    = match assoc k byId with
      | Some v => Some v
      | None => firstWithKey k items
      end.
Proof.
  induction items as [|s rest IH]; intros byId; simpl.
  - now destruct (assoc k byId).
  - rewrite IH. unfold firstWithKey. simpl.
    destruct (seriesKey s) as [k'|]; [|reflexivity].
    destruct (String.eqb k' k) eqn:E.
    + apply String.eqb_eq in E. subst k'.
      destruct (assoc k byId) as [v|] eqn:Ea; [now rewrite Ea|].
      now rewrite assoc_mapSet_same.
    + apply String.eqb_neq in E.
      destruct (assoc k' byId) as [v'|] eqn:Ea; [reflexivity|].
      rewrite assoc_mapSet_other by congruence. reflexivity.
Qed.

Lemma nonEmpty_key (x k : string) :
  (if String.eqb x "" then None else Some x) = Some k -> k <> "".
Proof.
  destruct (String.eqb x "") eqn:E; [discriminate|].
  intros H. injection H as <-. now apply String.eqb_neq in E.
Qed.

(** X24: When several series of the input are filed under one key (their [id],
    else their [key]), the first of them is the one that is used; a series
    that is not an object or has no such key is passed over. *)
Theorem first_series_of_a_key_wins (k : string) (items : list value) :
  assoc k (indexSeries (VArr items)) = firstWithKey k items
  /\ (forall s, assoc k (indexSeries (VArr items)) = Some s ->
        In s items /\ seriesKey s = Some k /\ k <> "" /\ isObjectNotNull s = true).
Proof.
  assert (H : assoc k (indexSeries (VArr items)) = firstWithKey k items).
  { unfold indexSeries. rewrite indexSeries_step. reflexivity. }
  split; [exact H|]. rewrite H. unfold firstWithKey. intros s Hs.
  apply find_some in Hs. destruct Hs as [Hin Hk].
  destruct (seriesKey s) as [k'|] eqn:Ek; [|discriminate].
  apply String.eqb_eq in Hk. subst k'. split; [assumption|]. split; [reflexivity|].
  unfold seriesKey in Ek. destruct (isObjectNotNull s); [|discriminate].
  split; [|reflexivity]. simpl negb in Ek. cbv iota in Ek.
  destruct (get "id" s); try (destruct (get "key" s); try discriminate);
    exact (nonEmpty_key _ _ Ek).
Qed.

Example first_overall_series_is_used :
  option_map (get "values") (assoc "overall-main" (indexSeries (VArr twiceOverall)))
  = Some (VArr [VNum (Fin 1)])
  /\ option_map (get "values") (assoc "agent:atlas" (indexSeries (VArr twiceOverall)))
     = Some (VArr [VNum (Fin 7)]).
Proof. split; reflexivity. Qed.

Section WellFormed.
Context {rt : Runtime}.

Lemma toNonNegativeCount_nonneg (v : value) : 0 <= toNonNegativeCount v.
Proof.
  unfold toNonNegativeCount. destruct (match v with VNum n => n | _ => ToNumber v end); lia.
Qed.

Lemma parsedValues_nonneg (byId : list (string * value)) (defId : string) :
  Forall (fun v => 0 <= v) (parsedValues byId defId).
Proof.
  unfold parsedValues. destruct (assoc defId byId) as [found|]; [|constructor].
  destruct (get "values" found); try constructor.
  apply Forall_forall. intros x Hx. apply in_map_iff in Hx.
  destruct Hx as (v & <- & _). apply toNonNegativeCount_nonneg.
Qed.

Lemma Forall_skipn {A : Type} (P : A -> Prop) (n : nat) (l : list A) :
  Forall P l -> Forall P (skipn n l).
Proof.
  intros H. rewrite <- (firstn_skipn n l) in H. now apply Forall_app in H.
Qed.

Lemma fitToBuckets_nonneg (b : Z) (parsed out : list Z) :
  Forall (fun v => 0 <= v) parsed ->
  fitToBuckets b parsed = Some out ->
  Forall (fun v => 0 <= v) out.
Proof.
  intros Hp. unfold fitToBuckets.
  set (trimmed := if b <? _ then _ else _).
  assert (Ht : Forall (fun v => 0 <= v) trimmed).
  { unfold trimmed. destruct (b <? _); [now apply Forall_skipn | assumption]. }
  destruct (Z.of_nat (List.length trimmed) <? b).
  - destruct (zeros (b - Z.of_nat (List.length trimmed))) as [z|] eqn:Ez; [|discriminate].
    intros H. injection H as <-. apply zeros_Some in Ez. destruct Ez as [-> _].
    apply Forall_app. split; [assumption|].
    apply Forall_forall. intros x Hx. apply repeat_spec in Hx. lia.
  - intros H. now injection H as <-.
Qed.

(** X25: Every time series that [normalizeTimeSeries] returns has a window, a
    bucket length and a bucket count of at least 1 and counts that are not
    negative; when the input gives no anchor, the anchor is the server time
    rounded down to a multiple of the bucket length; and when the input
    gives neither a window nor a bucket count, the window is the bucket
    count times the bucket length. *)
Theorem normalized_series_is_well_formed (input : value) (nowMsFallback : Z) (ts : TimeSeries) :
  normalizeTimeSeries input nowMsFallback = Some ts ->
  1 <= windowMs ts /\ 1 <= bucketMs ts /\ 1 <= buckets ts
  /\ Forall (fun s => Forall (fun v => 0 <= v) (values s)) (series ts)
  /\ (anchorRaw input = None ->
      anchorMs ts = serverNowMs ts / bucketMs ts * bucketMs ts
      /\ anchorMs ts <= serverNowMs ts < anchorMs ts + bucketMs ts)
  /\ (toFiniteNumber (nullish (get "windowMs" input) (get "window_ms" input)) = None ->
      toFiniteNumber (get "buckets" input) = None ->
      windowMs ts = buckets ts * bucketMs ts).
Proof.
  intros H. unfold normalizeTimeSeries in H.
  assert (Hdiv : forall n m, 1 <= m -> n / m * m <= n < n / m * m + m).
  { intros n m Hm. pose proof (Z.mul_div_le n m ltac:(lia)).
    pose proof (Z.mul_succ_div_gt n m ltac:(lia)). nia. }
  destruct (isObjectNotNull input) eqn:Hin; simpl negb in H; cbv iota in H.
  - cbv zeta in H.
    set (bm := Z.max 1
                 (orElse (toFiniteNumber (nullish (get "bucketMs" input) (get "bucket_ms" input)))
                    TIME_SERIES_DEFAULT_BUCKET_MS)) in H.
    set (b := Z.max 1 (orElse (toFiniteNumber (get "buckets" input)) _)) in H.
    set (w := Z.max 1
                (orElse (toFiniteNumber (nullish (get "windowMs" input) (get "window_ms" input)))
                   (b * bm))) in H.
    destruct (mapSeries _ TIME_SERIES_SERIES_DEFS) as [l|] eqn:E; [|discriminate].
    injection H as <-. cbn [windowMs bucketMs buckets series anchorMs serverNowMs].
    split; [unfold w; lia|]. split; [unfold bm; lia|]. split; [unfold b; lia|].
    split; [|split].
    + apply mapSeries_Some in E. clear -E.
      induction E as [|d s r l' Hd _ IH]; constructor; [|exact IH].
      destruct (fitToBuckets b _) as [padded|] eqn:Ef; [|discriminate].
      injection Hd as <-. simpl. eapply fitToBuckets_nonneg; [|exact Ef].
      apply parsedValues_nonneg.
    + unfold anchorRaw. intros ->. simpl orElse.
      split; [reflexivity|]. apply Hdiv. unfold bm. lia.
    + intros Hw Hb. unfold w. rewrite Hw. simpl orElse.
      assert (1 <= b) by (unfold b; lia). assert (1 <= bm) by (unfold bm; lia). nia.
  - unfold makeZeroTimeSeries in H.
    cbn [optWindowMs optBuckets optBucketMs optAnchorMs optServerNowMs orElse] in H.
    cbv zeta in H.
    change TIME_SERIES_DEFAULT_BUCKETS with 150 in H.
    change TIME_SERIES_DEFAULT_WINDOW_MS with 300000 in H.
    change TIME_SERIES_DEFAULT_BUCKET_MS with 2000 in H.
    change (Z.max 1 150) with 150 in H. change (Z.max 1 2000) with 2000 in H.
    change (Z.max 1 300000) with 300000 in H.
    destruct (zeros 150) as [z|] eqn:Ez; [|discriminate].
    apply zeros_Some in Ez. destruct Ez as [-> _]. injection H as <-.
    cbn [windowMs bucketMs buckets series anchorMs serverNowMs].
    split; [lia|]. split; [lia|]. split; [lia|]. split; [|split].
    + repeat constructor; lia.
    + intros _. split; [reflexivity|]. apply Hdiv. lia.
    + intros _ _. reflexivity.
Qed.

End WellFormed.

Lemma normalized_series_is_well_formed_witness :
  1 <= windowMs shortSeriesOutput /\ 1 <= bucketMs shortSeriesOutput
  /\ 1 <= buckets shortSeriesOutput
  /\ Forall (fun s => Forall (fun v => 0 <= v) (values s)) (series shortSeriesOutput)
  /\ (anchorRaw shortSeriesInput = None ->
      anchorMs shortSeriesOutput
      = serverNowMs shortSeriesOutput / bucketMs shortSeriesOutput * bucketMs shortSeriesOutput
      /\ anchorMs shortSeriesOutput <= serverNowMs shortSeriesOutput
         < anchorMs shortSeriesOutput + bucketMs shortSeriesOutput)
  /\ (toFiniteNumber (nullish (get "windowMs" shortSeriesInput)
                        (get "window_ms" shortSeriesInput)) = None ->
      toFiniteNumber (get "buckets" shortSeriesInput) = None ->
      windowMs shortSeriesOutput = buckets shortSeriesOutput * bucketMs shortSeriesOutput).
Proof.
  apply (@normalized_series_is_well_formed exampleRuntime shortSeriesInput 5001
           shortSeriesOutput).
  vm_compute. reflexivity.
Defined.

Example too_many_buckets_throw :
  @normalizeTimeSeries exampleRuntime tooManyBuckets 5001 = None.
Proof. vm_compute. reflexivity. Qed.

End TimeSeriesUiMore.

(* ------------------------------------------------------------------ *)
(** ** The scale of the main agents and the selected source *)

Module MainAgentsUiFacts.
Import Js MainAgentsUi.

Lemma toNonNegativeFinite_nonneg (v : value) : 0 <= toNonNegativeFinite v.
Proof. unfold toNonNegativeFinite. destruct v as [| | |[| | |z]| | |]; lia. Qed.

Lemma stackAt_eq (ov bg sis pro atl : list value) (i : nat) :
  stackAt ov bg sis pro atl i
  = Z.max (toNonNegativeFinite (at_ sis i) + toNonNegativeFinite (at_ pro i)
           + toNonNegativeFinite (at_ atl i))
      (toNonNegativeFinite (at_ ov i) - toNonNegativeFinite (at_ bg i)).
Proof.
  unfold stackAt, computeOtherMainAgentsCount. cbv zeta.
  pose proof (toNonNegativeFinite_nonneg (at_ sis i)).
  pose proof (toNonNegativeFinite_nonneg (at_ pro i)).
  pose proof (toNonNegativeFinite_nonneg (at_ atl i)).
  cbn [toNonNegativeFinite]. lia.
Qed.

Lemma max_loop (f : nat -> Z) (l : list nat) :
  forall acc,
    let m := fold_left (fun sumMax i => if sumMax <? f i then f i else sumMax) l acc in
    acc <= m /\ (forall i, In i l -> f i <= m) /\ (m = acc \/ exists i, In i l /\ m = f i).
Proof.
  induction l as [|x r IH]; intros acc; cbv zeta; simpl.
  - split; [lia|]. split; [contradiction | now left].
  - destruct (IH (if acc <? f x then f x else acc)) as (H1 & H2 & H3).
    destruct (acc <? f x) eqn:E; [apply Z.ltb_lt in E | apply Z.ltb_ge in E].
    + split; [lia|]. split.
      * intros i [<-|Hi]; [lia | now apply H2].
      * right. destruct H3 as [->|(i & Hi & ->)]; [exists x | exists i]; auto.
    + split; [lia|]. split.
      * intros i [<-|Hi]; [lia | now apply H2].
      * destruct H3 as [->|(i & Hi & ->)]; [now left | right; exists i; auto].
Qed.

(** X27: The scale of the chart of the main agents is at least 1 and at least
    the height of every bucket's stack, where the stack of a bucket is the
    larger of the sum of the three named agents and the main total (overall
    minus background); and it is 1 or the height of one of the stacks. *)
Theorem scale_covers_every_stack (buckets : Z) (ov bg sis pro atl : list value) :
  let m := computeMainAgentsScaleMax buckets ov bg sis pro atl in
  1 <= m
  /\ (forall i, (Z.of_nat i < buckets) ->
        stackAt ov bg sis pro atl i <= m
        /\ toNonNegativeFinite (at_ ov i) - toNonNegativeFinite (at_ bg i) <= m
        /\ toNonNegativeFinite (at_ sis i) + toNonNegativeFinite (at_ pro i)
           + toNonNegativeFinite (at_ atl i) <= m)
  /\ (m = 1 \/ exists i, Z.of_nat i < buckets /\ m = stackAt ov bg sis pro atl i).
Proof.
  cbv zeta. unfold computeMainAgentsScaleMax. cbv zeta.
  destruct (max_loop (stackAt ov bg sis pro atl) (seq 0 (Z.to_nat (Z.max 0 buckets))) 0)
    as (H1 & H2 & H3).
  set (sumMax := fold_left _ _ 0) in *.
  split; [lia|]. split.
  - intros i Hi.
    assert (Hin : In i (seq 0 (Z.to_nat (Z.max 0 buckets)))) by (apply in_seq; lia).
    specialize (H2 i Hin). pose proof (stackAt_eq ov bg sis pro atl i) as Hs.
    destruct (sumMax =? 0) eqn:E; [apply Z.eqb_eq in E | apply Z.eqb_neq in E]; lia.
  - destruct (sumMax =? 0) eqn:E; [left; reflexivity|]. apply Z.eqb_neq in E.
    destruct H3 as [H3|(i & Hi & H3)]; [lia|].
    apply in_seq in Hi. destruct (Z.le_gt_cases sumMax 1).
    + left. lia.
    + right. exists i. split; lia.
Qed.

Example scale_of_two_buckets :
  computeMainAgentsScaleMax 2
    [VNum (Fin 9); VNum (Fin 3)] [VNum (Fin 2); VNum (Fin 1)]
    [VNum (Fin 1); VNum (Fin 4)] [VNum (Fin 1)] [VStr "x"; VNum NaN]
  = 7.
Proof. reflexivity. Qed.

Lemma setHas_iff (k : string) (s : list string) : setHas k s = true <-> In k s.
Proof.
  unfold setHas. rewrite existsb_exists. split.
  - intros (x & Hx & E). apply String.eqb_eq in E. now subst.
  - intros H. exists k. split; [assumption | apply String.eqb_refl].
Qed.

Lemma known_iff (x : option string) (ids : list string) :
  known x ids = true <-> exists s, x = Some s /\ s <> "" /\ In s ids.
Proof.
  unfold known. destruct x as [s|]; split.
  - rewrite andb_true_iff, negb_true_iff, String.eqb_neq, setHas_iff. eauto.
  - intros (s' & [= <-] & H1 & H2).
    rewrite andb_true_iff, negb_true_iff, String.eqb_neq, setHas_iff. auto.
  - discriminate.
  - intros (s' & E & _). discriminate.
Qed.

(** X28: The selected source is the id of one of the sources, and null only
    when there is none; it is the stored id when that names a source, else
    the default id when that names a source, else the first source. *)
Theorem selected_source_is_a_listed_source
    (sources : list DashboardSource) (defaultSourceId storedSourceId : option string) :
  let r := resolveSelectedSourceId sources defaultSourceId storedSourceId in
  (r = None <-> sources = [])
  /\ (forall i, r = Some i -> In i (map id sources))
  /\ (forall s, storedSourceId = Some s -> s <> "" -> In s (map id sources) -> r = Some s)
  /\ (known storedSourceId (map id sources) = false ->
      forall d, defaultSourceId = Some d -> d <> "" -> In d (map id sources) -> r = Some d)
  /\ (known storedSourceId (map id sources) = false ->
      known defaultSourceId (map id sources) = false ->
      r = option_map id (hd_error sources)).
Proof.
  cbv zeta. unfold resolveSelectedSourceId. cbv zeta.
  destruct (known storedSourceId (map id sources)) eqn:Es.
  - apply known_iff in Es. destruct Es as (s & -> & Hne & Hin).
    split; [|split; [|split; [|split]]]; try discriminate.
    + split; [discriminate|]. intros ->. contradiction.
    + intros i [= <-]. assumption.
    + intros s' [= <-] _ _. reflexivity.
  - destruct (known defaultSourceId (map id sources)) eqn:Ed.
    + apply known_iff in Ed. destruct Ed as (d & -> & Hne & Hin).
      split; [|split; [|split; [|split]]]; try discriminate.
      * split; [discriminate|]. intros ->. contradiction.
      * intros i [= <-]. assumption.
      * intros s -> Hs Hi.
        assert (known (Some s) (map id sources) = true) by (apply known_iff; eauto).
        congruence.
      * intros _ d' [= <-] _ _. reflexivity.
    + split; [|split; [|split; [|split]]].
      * destruct sources; split; try discriminate; reflexivity.
      * destruct sources as [|s r]; [discriminate|]. intros i [= <-]. now left.
      * intros s -> Hs Hi.
        assert (known (Some s) (map id sources) = true) by (apply known_iff; eauto).
        congruence.
      * intros _ d -> Hd Hi.
        assert (known (Some d) (map id sources) = true) by (apply known_iff; eauto).
        congruence.
      * intros _ _. now destruct sources.
Qed.

Example stored_source_is_preferred :
  resolveSelectedSourceId twoSources (Some "aaa") (Some "bbb") = Some "bbb"
  /\ resolveSelectedSourceId twoSources (Some "bbb") (Some "gone") = Some "bbb"
  /\ resolveSelectedSourceId twoSources None (Some "") = Some "aaa"
  /\ resolveSelectedSourceId [] (Some "aaa") (Some "bbb") = None.
Proof. repeat split; reflexivity. Qed.

End MainAgentsUiFacts.

(* ------------------------------------------------------------------ *)
(** ** src/ding-policy.ts *)

Module DingPolicyFacts.
Import DingPolicy.


(** X30: After waiting ends at [t1], waiting that starts again at [t2] plays
    the ding exactly when [t2] is not within the suppression time from
    [t1]: before [t1], or [suppressMs] (20000 by default) or more after
    it. *)
Theorem ding_is_suppressed_after_a_short_break
    (prev : WaitingDingState) (t1 t2 : Z) (suppressMs : option Z) :
  prevWaiting prev = Some true ->
  let d1 := computeWaitingDing prev false t1 suppressMs in
  let d2 := computeWaitingDing (next d1) true t2 suppressMs in
  play d1 = false
  /\ (play d2 = false
      <-> 0 <= t2 - t1 < match suppressMs with Some s => s | None => 20000 end)
  /\ next d2 = {| prevWaiting := Some true; lastLeftWaitingAtMs := None |}.
Proof.
  intros H. cbv zeta. unfold computeWaitingDing. rewrite H.
  cbn [play next prevWaiting lastLeftWaitingAtMs isTrue isFalse negb andb].
  split; [reflexivity|]. split; [|reflexivity].
  rewrite negb_false_iff, andb_true_iff, Z.leb_le, Z.ltb_lt. tauto.
Qed.

Lemma ding_is_suppressed_after_a_short_break_witness :
  let prev := {| prevWaiting := Some true; lastLeftWaitingAtMs := None |} in
  let d1 := computeWaitingDing prev false 1000 None in
  let d2 := computeWaitingDing (next d1) true 5000 None in
  play d1 = false
  /\ (play d2 = false <-> 0 <= 5000 - 1000 < 20000)
  /\ next d2 = {| prevWaiting := Some true; lastLeftWaitingAtMs := None |}.
Proof.
  apply (ding_is_suppressed_after_a_short_break
           {| prevWaiting := Some true; lastLeftWaitingAtMs := None |} 1000 5000 None).
  reflexivity.
Defined.

Example ding_run :
  run None initial
    [(false, 0); (true, 1000); (false, 2000); (true, 3000); (false, 4000); (true, 30000)]
  = [false; true; false; false; false; true].
Proof. reflexivity. Qed.

End DingPolicyFacts.
